(** * binja-lua: the Lua scripting instance of the Binary Ninja plugin

    A shallow embedding of [src/luascriptingprovider.cpp] (the scripting
    session: context cache, magic-variable refresh, expression-then-statement
    evaluation, safe stringification) and of the value types of
    [src/bindings/common.h], followed by the properties of the repository's
    specification, each settled against the embedded code.

    The embedded Lua interpreter and the Binary Ninja core are libraries
    outside the repository.  They enter as two records of operations,
    [Interp] and [Host]; every definition of the session is a function of
    them, and the theorems hold for every interpreter and every host. *)

From Stdlib Require Import ZArith String Ascii Floats.
From stdpp Require Import gmap strings list pretty.

Local Open Scope string_scope.
Local Open Scope list_scope.
Local Open Scope Z_scope.
Set Warnings "-register-all".

(** ** Text helpers *)

(** The one-character strings the source writes as backslash escapes. *)
Definition LF : string := String "010"%char EmptyString.
Definition TAB : string := String "009"%char EmptyString.

(** [std::string::empty]. *)
Definition empty (s : string) : bool :=
  match s with
  | EmptyString => true
  | String _ _ => false
  end.

(** Joins the pieces with a separator, as the loop of [LuaPrint] does. *)
Fixpoint join (sep : string) (pieces : list string) : string :=
  match pieces with
  | [] => ""
  | [p] => p
  | p :: rest => p +:+ sep +:+ join sep rest
  end.

(** ** Value types of the bindings ([src/bindings/common.h]) *)

Module BinjaLua.

(** Arithmetic on [uint64_t] wraps modulo [2^64]. *)
Definition uint64 (z : Z) : Z := z mod 2 ^ 64.

(** [struct Selection { uint64_t start; uint64_t end; }] *)
Record Selection := mkSelection { start : Z; end_ : Z }.

(** [uint64_t length() const { return end > start ? end - start : 0; }] *)
Definition length (s : Selection) : Z :=
  if end_ s >? start s then uint64 (end_ s - start s) else 0.

(** [struct HexAddress { uint64_t value; }] *)
Record HexAddress := mkHexAddress { value : Z }.

End BinjaLua.

(** ** Lua values *)

(** A machine address (the [this] of a session, kept in a light userdata). *)
Definition pointer := positive.

(** The identity of a Binary Ninja core object behind a [Ref<T>]. *)
Definition BNHandle := positive.

(** What a full userdata created by the bindings wraps. *)
Inductive Usertype :=
| UBinaryView (h : BNHandle)
| UFunction (h : BNHandle)
| UBasicBlock (h : BNHandle)
| USection (h : BNHandle)
| USymbol (h : BNHandle)
| ULowLevelIL (h : BNHandle)
| UMediumLevelIL (h : BNHandle)
| UHighLevelIL (h : BNHandle)
| UHexAddress (a : BinjaLua.HexAddress)
| USelection (s : BinjaLua.Selection)
| UOther (id : positive).

(** The C functions the session registers as globals. *)
Inductive CFunction :=
| CLuaPrint
| CLuaError
| CLuaWarn
| Cget_selected_data
| Cwrite_at_cursor.

(** A Lua value.  A table the interpreter owns is known by its identity
    ([LTable]); a table the host has just built with [create_table] and
    filled at the indices 1..n is given by its entries ([LArray]). *)
Inductive LuaValue :=
| LNil
| LBoolean (b : bool)
| LLightUserdata (p : pointer)
| LInteger (n : Z)
| LFloat (x : float)
| LString (s : string)
| LTable (id : positive)
| LArray (items : list LuaValue)
| LFunction (id : positive)
| LCFunction (f : CFunction)
| LUserdata (u : Usertype)
| LThread (id : positive).

(** The type tags of [lua.h]. *)
Inductive lua_Type :=
| LUA_TNONE
| LUA_TNIL
| LUA_TBOOLEAN
| LUA_TLIGHTUSERDATA
| LUA_TNUMBER
| LUA_TSTRING
| LUA_TTABLE
| LUA_TFUNCTION
| LUA_TUSERDATA
| LUA_TTHREAD.

Definition lua_typename (t : lua_Type) : string :=
  match t with
  | LUA_TNONE => "no value"
  | LUA_TNIL => "nil"
  | LUA_TBOOLEAN => "boolean"
  | LUA_TLIGHTUSERDATA => "userdata"
  | LUA_TNUMBER => "number"
  | LUA_TSTRING => "string"
  | LUA_TTABLE => "table"
  | LUA_TFUNCTION => "function"
  | LUA_TUSERDATA => "userdata"
  | LUA_TTHREAD => "thread"
  end.

Definition type_of_value (v : option LuaValue) : lua_Type :=
  match v with
  | None => LUA_TNONE
  | Some LNil => LUA_TNIL
  | Some (LBoolean _) => LUA_TBOOLEAN
  | Some (LLightUserdata _) => LUA_TLIGHTUSERDATA
  | Some (LInteger _) | Some (LFloat _) => LUA_TNUMBER
  | Some (LString _) => LUA_TSTRING
  | Some (LTable _) | Some (LArray _) => LUA_TTABLE
  | Some (LFunction _) | Some (LCFunction _) => LUA_TFUNCTION
  | Some (LUserdata _) => LUA_TUSERDATA
  | Some (LThread _) => LUA_TTHREAD
  end.

Definition lua_Type_eqb (a b : lua_Type) : bool :=
  match a, b with
  | LUA_TNONE, LUA_TNONE | LUA_TNIL, LUA_TNIL | LUA_TBOOLEAN, LUA_TBOOLEAN
  | LUA_TLIGHTUSERDATA, LUA_TLIGHTUSERDATA | LUA_TNUMBER, LUA_TNUMBER
  | LUA_TSTRING, LUA_TSTRING | LUA_TTABLE, LUA_TTABLE
  | LUA_TFUNCTION, LUA_TFUNCTION | LUA_TUSERDATA, LUA_TUSERDATA
  | LUA_TTHREAD, LUA_TTHREAD => true
  | _, _ => false
  end.

(** ** The interpreter state and the stack API *)

(** What the session sees of a [lua_State]: the C API stack (bottom first,
    top last) and the table of globals. *)
Record lua_State := mkState {
  stack : list LuaValue;
  globals : gmap string LuaValue
}.

Definition with_stack (L : lua_State) (st : list LuaValue) : lua_State :=
  {| stack := st; globals := globals L |}.

Definition with_globals (L : lua_State) (g : gmap string LuaValue) : lua_State :=
  {| stack := stack L; globals := g |}.

Definition lua_gettop (L : lua_State) : Z := Z.of_nat (length (stack L)).

(** A positive index counts from the bottom, a negative one from the top. *)
Definition lua_absindex (L : lua_State) (idx : Z) : Z :=
  if 0 <? idx then idx else lua_gettop L + idx + 1.

Definition index2value (L : lua_State) (idx : Z) : option LuaValue :=
  let i := lua_absindex L idx in
  if 1 <=? i then stack L !! Z.to_nat (i - 1) else None.

Definition lua_type (L : lua_State) (idx : Z) : lua_Type :=
  type_of_value (index2value L idx).

Definition luaL_typename (L : lua_State) (idx : Z) : string :=
  lua_typename (lua_type L idx).

Definition lua_isnil (L : lua_State) (idx : Z) : bool :=
  lua_Type_eqb (lua_type L idx) LUA_TNIL.

Definition lua_istable (L : lua_State) (idx : Z) : bool :=
  lua_Type_eqb (lua_type L idx) LUA_TTABLE.

Definition lua_isfunction (L : lua_State) (idx : Z) : bool :=
  lua_Type_eqb (lua_type L idx) LUA_TFUNCTION.

Definition lua_isinteger (L : lua_State) (idx : Z) : bool :=
  match index2value L idx with
  | Some (LInteger _) => true
  | _ => false
  end.

Definition lua_toboolean (L : lua_State) (idx : Z) : bool :=
  match index2value L idx with
  | None | Some LNil | Some (LBoolean false) => false
  | Some _ => true
  end.

Definition lua_push (L : lua_State) (v : LuaValue) : lua_State :=
  with_stack L (stack L ++ [v]).

Definition lua_pop (L : lua_State) (n : nat) : lua_State :=
  with_stack L (take (length (stack L) - n)%nat (stack L)).

(** The session only ever calls [lua_settop(L, 0)]. *)
Definition lua_settop0 (L : lua_State) : lua_State := with_stack L [].

(** A global that was never assigned reads as nil. *)
Definition lua_getglobal (L : lua_State) (name : string) : lua_State :=
  lua_push L (default LNil (globals L !! name)).

Definition lua_setglobal (L : lua_State) (name : string) (v : LuaValue) : lua_State :=
  with_globals L (<[name := v]> (globals L)).

Definition lua_pushvalue (L : lua_State) (idx : Z) : lua_State :=
  lua_push L (default LNil (index2value L idx)).

(** The text [lua_tolstring] finds in a value: that of a string, the
    decimal text of a number, none in any other value.  [float_text] is the
    interpreter's rendering of a floating-point number. *)
Definition text_of (float_text : float -> string) (v : option LuaValue) : option string :=
  match v with
  | Some (LString s) => Some s
  | Some (LInteger n) => Some (pretty n)
  | Some (LFloat x) => Some (float_text x)
  | _ => None
  end.

(** [lua_tolstring(L, idx, &len)], NULL being [None] (a number is converted
    in place, which the session never reads back). *)
Definition lua_tolstring (float_text : float -> string) (L : lua_State) (idx : Z)
  : option string :=
  text_of float_text (index2value L idx).

(** ** What a script does while it runs *)

(** A call a running script makes to one of the three output functions the
    session installs and in which the function finds the session, with the
    arguments already rendered as text. *)
Inductive ScriptCall :=
| CallPrint (args : list string)
| CallError (msg : string)
| CallWarn (msg : string).

(** The result of running Lua code to completion in protected mode: the
    globals it leaves, the output calls it made in order, and either the
    values it returned or the error object it failed with.  A run that
    never ends has no result and no counterpart here: whatever is stated
    about an evaluation is stated about one whose runs come to an end. *)
Inductive RunResult :=
| Values (vs : list LuaValue)
| Failed (err : LuaValue).

Record Run := mkRun {
  run_globals : gmap string LuaValue;
  run_calls : list ScriptCall;
  run_result : RunResult
}.

(** The result of [luaL_tolstring], which runs a [__tostring] metamethod
    outside any protected call: [tl_text = None] when the metamethod raised
    an error or returned something that is not a string. *)
Record ToLString := mkToLString {
  tl_globals : gmap string LuaValue;
  tl_calls : list ScriptCall;
  tl_text : option string
}.

(** The libraries the session is linked against, taken as given. *)
Record Interp := mkInterp {
  (** [luaL_newstate] followed by [luaL_openlibs]; [None] is the NULL state *)
  luaL_newstate : option lua_State;
  (** [luaL_loadstring] and, if the chunk compiles, [lua_pcall(0, LUA_MULTRET)] *)
  load_run : string -> gmap string LuaValue -> Run;
  (** [luaL_loadfile] and, if the chunk compiles, [lua_pcall(0, LUA_MULTRET)] *)
  load_run_file : string -> gmap string LuaValue -> Run;
  (** a protected call of a value on arguments *)
  call : LuaValue -> list LuaValue -> gmap string LuaValue -> Run;
  (** [luaL_tolstring] of a value *)
  tolstring : LuaValue -> gmap string LuaValue -> ToLString;
  (** the field of a value's metatable, nil when there is none *)
  metafield : gmap string LuaValue -> LuaValue -> string -> LuaValue;
  (** [lua_checkstack]: whether that many more slots can be had *)
  lua_checkstack : lua_State -> nat -> bool;
  (** the interpreter's text of a float, and [std::to_string(double)] *)
  lua_Number2str : float -> string;
  std_to_string : float -> string
}.

(** The status of a protected call; the session only ever compares it with
    [LUA_OK], so [LUA_ERR] stands for every other status. *)
Inductive lua_Status := LUA_OK | LUA_ERR.

(** [luaL_dostring]: the returned values, or the error object, are pushed. *)
Definition luaL_dostring (I : Interp) (L : lua_State) (code : string)
  : lua_Status * lua_State * list ScriptCall :=
  let r := load_run I code (globals L) in
  match run_result r with
  | Values vs => (LUA_OK, mkState (stack L ++ vs) (run_globals r), run_calls r)
  | Failed err => (LUA_ERR, mkState (stack L ++ [err]) (run_globals r), run_calls r)
  end.

(** [luaL_dofile]. *)
Definition luaL_dofile (I : Interp) (L : lua_State) (filename : string)
  : lua_Status * lua_State * list ScriptCall :=
  let r := load_run_file I filename (globals L) in
  match run_result r with
  | Values vs => (LUA_OK, mkState (stack L ++ vs) (run_globals r), run_calls r)
  | Failed err => (LUA_ERR, mkState (stack L ++ [err]) (run_globals r), run_calls r)
  end.

(** [lua_pcall(L, nargs, 1, 0)]: the function and its arguments are popped,
    and exactly one value is pushed, the first result (nil if there is none)
    or the error object. *)
Definition lua_pcall1 (I : Interp) (L : lua_State) (nargs : nat)
  : lua_Status * lua_State * list ScriptCall :=
  let n := length (stack L) in
  let base := take (n - nargs - 1)%nat (stack L) in
  let f := default LNil (stack L !! (n - nargs - 1)%nat) in
  let args := drop (n - nargs)%nat (stack L) in
  let r := call I f args (globals L) in
  match run_result r with
  | Values vs => (LUA_OK, mkState (base ++ [default LNil (head vs)]) (run_globals r), run_calls r)
  | Failed err => (LUA_ERR, mkState (base ++ [err]) (run_globals r), run_calls r)
  end.

(** [luaL_getmetafield]: pushes the field and returns its type, or pushes
    nothing and returns [LUA_TNIL]. *)
Definition luaL_getmetafield (I : Interp) (L : lua_State) (idx : Z) (event : string)
  : lua_Type * lua_State :=
  match index2value L idx with
  | None => (LUA_TNIL, L)
  | Some v =>
      match metafield I (globals L) v event with
      | LNil => (LUA_TNIL, L)
      | field => (type_of_value (Some field), lua_push L field)
      end
  end.

(** [luaL_tolstring(L, idx, &len)]: pushes the text and returns it; [None]
    when the conversion raised a Lua error, which no protected call of the
    session is there to catch. *)
Definition luaL_tolstring (I : Interp) (L : lua_State) (idx : Z)
  : option (string * lua_State) * list ScriptCall :=
  let r := tolstring I (default LNil (index2value L idx)) (globals L) in
  match tl_text r with
  | Some str => (Some (str, mkState (stack L ++ [LString str]) (tl_globals r)), tl_calls r)
  | None => (None, tl_calls r)
  end.

(** ** The host: the Binary Ninja core *)

(** The outcome of a call that may throw a C++ exception; [what] is the
    text of a [std::exception], [None] for any other thrown object. *)
Inductive Exceptional (A : Type) :=
| Ok (a : A)
| Throw (what : option string).
Arguments Ok {A} a.
Arguments Throw {A} what.

Record Host := mkHost {
  (** [BinaryView::GetDataOffsetForAddress]: [None] when it returns false *)
  GetDataOffsetForAddress : BNHandle -> Z -> Exceptional (option Z);
  GetSectionsAt : BNHandle -> Z -> Exceptional (list BNHandle);
  (** a null [Ref<Symbol>] is [None] *)
  GetSymbolByAddress : BNHandle -> Z -> Exceptional (option BNHandle);
  GetCommentForAddress : BNHandle -> Z -> Exceptional string;
  GetLowLevelIL : BNHandle -> Exceptional (option BNHandle);
  GetMediumLevelIL : BNHandle -> Exceptional (option BNHandle);
  GetHighLevelIL : BNHandle -> Exceptional (option BNHandle);
  (** [BinaryView::ReadBuffer(addr, len)]: the bytes it could read *)
  ReadBuffer : BNHandle -> Z -> Z -> string;
  (** [BinjaLua::RegisterAllBindings]: the state it leaves, and whether it
      returned or threw; the lines it writes to the log on the way are not
      part of the traces *)
  RegisterAllBindings : lua_State -> lua_State * Exceptional unit
}.

(** ** What the session emits *)

Inductive BNScriptingProviderInputReadyState :=
| NotReadyForInput
| ReadyForScriptExecution
| ReadyForScriptProgramInput.

Inductive BNScriptingProviderExecuteResult :=
| InvalidScriptInput
| IncompleteScriptInput
| SuccessfulScriptExecution
| SuccessfulScriptEvaluation
| ScriptExecutionCancelled.

(** The calls the session makes on its [ScriptingInstance] base and on its
    logger, in the order they are made. *)
Inductive Event :=
| Output (text : string)
| Error (text : string)
| Warning (text : string)
| InputReadyStateChanged (st : BNScriptingProviderInputReadyState)
| LogDebug (text : string)
| LogInfo (text : string)
| LogWarn (text : string)
| LogError (text : string).

(** [LuaPrint], [LuaError] and [LuaWarn], once they have recovered the
    session from the global [__binja_instance] (each returns without any
    effect when it cannot).  [LuaError] replaces Lua's [error]: it reports
    the message and returns to the script. *)
Definition LuaPrint (args : list string) : list Event :=
  let result := join TAB args in
  [Output (result +:+ LF); LogInfo ("Script output: " +:+ result)].

Definition LuaError (msg : string) : list Event :=
  [Error (msg +:+ LF); LogError ("Script error: " +:+ msg)].

Definition LuaWarn (msg : string) : list Event :=
  [Warning (msg +:+ LF); LogWarn ("Script warning: " +:+ msg)].

Definition callback (c : ScriptCall) : list Event :=
  match c with
  | CallPrint args => LuaPrint args
  | CallError msg => LuaError msg
  | CallWarn msg => LuaWarn msg
  end.

(** The events of the output calls a script made. *)
Definition script_events (calls : list ScriptCall) : list Event :=
  concat (map callback calls).

(** ** The scripting instance ([src/luascriptingprovider.h]) *)

(** The members of [LuaScriptingInstance].  A null [lua_State*] and a null
    [Ref<T>] are [None]; [this] is the address of the object itself. *)
Record LuaScriptingInstance := mkInstance {
  this : pointer;
  m_luaState : option lua_State;
  m_currentBinaryView : option BNHandle;
  m_currentFunction : option BNHandle;
  m_currentBasicBlock : option BNHandle;
  m_currentAddress : Z;
  m_selectionBegin : Z;
  m_selectionEnd : Z;
  m_inputReadyState : BNScriptingProviderInputReadyState;
  m_lastCachedBinaryView : option BNHandle;
  m_lastCachedFunction : option BNHandle;
  m_lastCachedBasicBlock : option BNHandle;
  m_lastCachedAddress : Z;
  m_lastCachedSelectionBegin : Z;
  m_lastCachedSelectionEnd : Z
}.

Definition set_luaState (s : LuaScriptingInstance) (L : option lua_State) :=
  mkInstance (this s) L (m_currentBinaryView s) (m_currentFunction s)
    (m_currentBasicBlock s) (m_currentAddress s) (m_selectionBegin s)
    (m_selectionEnd s) (m_inputReadyState s) (m_lastCachedBinaryView s)
    (m_lastCachedFunction s) (m_lastCachedBasicBlock s) (m_lastCachedAddress s)
    (m_lastCachedSelectionBegin s) (m_lastCachedSelectionEnd s).

Definition set_inputReadyState (s : LuaScriptingInstance)
    (st : BNScriptingProviderInputReadyState) :=
  mkInstance (this s) (m_luaState s) (m_currentBinaryView s) (m_currentFunction s)
    (m_currentBasicBlock s) (m_currentAddress s) (m_selectionBegin s)
    (m_selectionEnd s) st (m_lastCachedBinaryView s)
    (m_lastCachedFunction s) (m_lastCachedBasicBlock s) (m_lastCachedAddress s)
    (m_lastCachedSelectionBegin s) (m_lastCachedSelectionEnd s).

(** *** The context setters *)

Definition SetCurrentBinaryView (s : LuaScriptingInstance) (view : option BNHandle) :=
  mkInstance (this s) (m_luaState s) view (m_currentFunction s)
    (m_currentBasicBlock s) (m_currentAddress s) (m_selectionBegin s)
    (m_selectionEnd s) (m_inputReadyState s) (m_lastCachedBinaryView s)
    (m_lastCachedFunction s) (m_lastCachedBasicBlock s) (m_lastCachedAddress s)
    (m_lastCachedSelectionBegin s) (m_lastCachedSelectionEnd s).

Definition SetCurrentFunction (s : LuaScriptingInstance) (func : option BNHandle) :=
  mkInstance (this s) (m_luaState s) (m_currentBinaryView s) func
    (m_currentBasicBlock s) (m_currentAddress s) (m_selectionBegin s)
    (m_selectionEnd s) (m_inputReadyState s) (m_lastCachedBinaryView s)
    (m_lastCachedFunction s) (m_lastCachedBasicBlock s) (m_lastCachedAddress s)
    (m_lastCachedSelectionBegin s) (m_lastCachedSelectionEnd s).

Definition SetCurrentBasicBlock (s : LuaScriptingInstance) (block : option BNHandle) :=
  mkInstance (this s) (m_luaState s) (m_currentBinaryView s) (m_currentFunction s)
    block (m_currentAddress s) (m_selectionBegin s)
    (m_selectionEnd s) (m_inputReadyState s) (m_lastCachedBinaryView s)
    (m_lastCachedFunction s) (m_lastCachedBasicBlock s) (m_lastCachedAddress s)
    (m_lastCachedSelectionBegin s) (m_lastCachedSelectionEnd s).

Definition SetCurrentAddress (s : LuaScriptingInstance) (addr : Z) :=
  mkInstance (this s) (m_luaState s) (m_currentBinaryView s) (m_currentFunction s)
    (m_currentBasicBlock s) addr (m_selectionBegin s)
    (m_selectionEnd s) (m_inputReadyState s) (m_lastCachedBinaryView s)
    (m_lastCachedFunction s) (m_lastCachedBasicBlock s) (m_lastCachedAddress s)
    (m_lastCachedSelectionBegin s) (m_lastCachedSelectionEnd s).

Definition SetCurrentSelection (s : LuaScriptingInstance) (begin end_ : Z) :=
  mkInstance (this s) (m_luaState s) (m_currentBinaryView s) (m_currentFunction s)
    (m_currentBasicBlock s) (m_currentAddress s) begin
    end_ (m_inputReadyState s) (m_lastCachedBinaryView s)
    (m_lastCachedFunction s) (m_lastCachedBasicBlock s) (m_lastCachedAddress s)
    (m_lastCachedSelectionBegin s) (m_lastCachedSelectionEnd s).

(** *** The context cache *)

(** [Ref<T>::operator!=]: two references differ when they hold different
    objects; a null reference equals only a null reference. *)
Definition Ref_ne (a b : option BNHandle) : bool := negb (bool_decide (a = b)).

Definition HasContextChanged (s : LuaScriptingInstance) : bool :=
  Ref_ne (m_currentBinaryView s) (m_lastCachedBinaryView s) ||
  Ref_ne (m_currentFunction s) (m_lastCachedFunction s) ||
  Ref_ne (m_currentBasicBlock s) (m_lastCachedBasicBlock s) ||
  negb (m_currentAddress s =? m_lastCachedAddress s) ||
  negb (m_selectionBegin s =? m_lastCachedSelectionBegin s) ||
  negb (m_selectionEnd s =? m_lastCachedSelectionEnd s).

Definition UpdateContextCache (s : LuaScriptingInstance) :=
  mkInstance (this s) (m_luaState s) (m_currentBinaryView s) (m_currentFunction s)
    (m_currentBasicBlock s) (m_currentAddress s) (m_selectionBegin s)
    (m_selectionEnd s) (m_inputReadyState s) (m_currentBinaryView s)
    (m_currentFunction s) (m_currentBasicBlock s) (m_currentAddress s)
    (m_selectionBegin s) (m_selectionEnd s).

(** The six fields the cache compares, live and cached. *)
Definition live_snapshot (s : LuaScriptingInstance) :=
  (m_currentBinaryView s, m_currentFunction s, m_currentBasicBlock s,
   m_currentAddress s, m_selectionBegin s, m_selectionEnd s).

Definition cached_snapshot (s : LuaScriptingInstance) :=
  (m_lastCachedBinaryView s, m_lastCachedFunction s, m_lastCachedBasicBlock s,
   m_lastCachedAddress s, m_lastCachedSelectionBegin s, m_lastCachedSelectionEnd s).

(** ** The magic variables *)

(** The body of the [try] block of [UpdateMagicVariableValues] assigns
    globals one after the other and stops at the first exception: the
    assignments made so far stay, the [catch] clauses run next. *)
Definition Try (A : Type) : Type :=
  gmap string LuaValue -> gmap string LuaValue * Exceptional A.

Definition try_ret {A} (a : A) : Try A := fun g => (g, Ok a).

Definition try_bind {A B} (c : Try A) (k : A -> Try B) : Try B :=
  fun g =>
    match c g with
    | (g', Ok a) => k a g'
    | (g', Throw what) => (g', Throw what)
    end.

(** [lua[name] = v] *)
Definition assign (name : string) (v : LuaValue) : Try unit :=
  fun g => (<[name := v]> g, Ok tt).

(** A call into the host, which returns or throws. *)
Definition host_call {A} (r : Exceptional A) : Try A := fun g => (g, r).

Declare Scope try_scope.
Delimit Scope try_scope with try.
Notation "x <- c1 ;; c2" := (try_bind c1 (fun x => c2))
  (at level 100, c1 at next level, right associativity) : try_scope.
Notation "c1 ;; c2" := (try_bind c1 (fun _ => c2))
  (at level 100, right associativity) : try_scope.

(** How sol2 pushes a [Ref<T>]: nil for a null reference. *)
Definition push_ref (wrap : BNHandle -> Usertype) (r : option BNHandle) : LuaValue :=
  match r with
  | Some h => LUserdata (wrap h)
  | None => LNil
  end.

Definition HexAddress_value (v : Z) : LuaValue :=
  LUserdata (UHexAddress (BinjaLua.mkHexAddress v)).

Definition UpdateMagicVariableValues_try (H : Host) (s : LuaScriptingInstance)
  : Try unit :=
  ((* Core context: current_function uses what UI provided *)
   match m_currentFunction s with
   | Some f => assign "current_function" (LUserdata (UFunction f))
   | None => assign "current_function" LNil
   end ;;
   match m_currentBinaryView s with
   | Some v =>
       assign "bv" (LUserdata (UBinaryView v)) ;;
       assign "current_view" (LUserdata (UBinaryView v))
   | None =>
       assign "bv" LNil ;;
       assign "current_view" LNil
   end ;;
   match m_currentBasicBlock s with
   | Some b => assign "current_basic_block" (LUserdata (UBasicBlock b))
   | None => assign "current_basic_block" LNil
   end ;;
   (* Address variables *)
   assign "current_address" (HexAddress_value (m_currentAddress s)) ;;
   assign "here" (HexAddress_value (m_currentAddress s)) ;;
   (* Selection *)
   assign "current_selection"
     (LUserdata (USelection (BinjaLua.mkSelection (m_selectionBegin s) (m_selectionEnd s)))) ;;
   (* Raw offset *)
   match m_currentBinaryView s with
   | Some v =>
       r <- host_call (GetDataOffsetForAddress H v (m_currentAddress s)) ;;
       match r with
       | Some fileOffset => assign "current_raw_offset" (HexAddress_value fileOffset)
       | None => assign "current_raw_offset" (HexAddress_value 0)
       end
   | None => assign "current_raw_offset" (HexAddress_value 0)
   end ;;
   (* Current sections *)
   match m_currentBinaryView s with
   | Some v =>
       sections <- host_call (GetSectionsAt H v (m_currentAddress s)) ;;
       assign "current_sections" (LArray (map (fun h => LUserdata (USection h)) sections))
   | None => assign "current_sections" (LArray [])
   end ;;
   (* Current symbol(s) *)
   match m_currentBinaryView s with
   | Some v =>
       symbol <- host_call (GetSymbolByAddress H v (m_currentAddress s)) ;;
       match symbol with
       | Some sym =>
           assign "current_symbol" (LUserdata (USymbol sym)) ;;
           assign "current_symbols" (LArray [LUserdata (USymbol sym)])
       | None =>
           assign "current_symbol" LNil ;;
           assign "current_symbols" (LArray [])
       end
   | None =>
       assign "current_symbol" LNil ;;
       assign "current_symbols" (LArray [])
   end ;;
   (* Current comment *)
   match m_currentBinaryView s with
   | Some v =>
       comment <- host_call (GetCommentForAddress H v (m_currentAddress s)) ;;
       assign "current_comment" (LString comment)
   | None => assign "current_comment" (LString "")
   end ;;
   (* IL magic variables *)
   match m_currentFunction s with
   | Some f =>
       llil <- host_call (GetLowLevelIL H f) ;;
       assign "current_llil" (push_ref ULowLevelIL llil) ;;
       mlil <- host_call (GetMediumLevelIL H f) ;;
       assign "current_mlil" (push_ref UMediumLevelIL mlil) ;;
       hlil <- host_call (GetHighLevelIL H f) ;;
       assign "current_hlil" (push_ref UHighLevelIL hlil)
   | None =>
       assign "current_llil" LNil ;;
       assign "current_mlil" LNil ;;
       assign "current_hlil" LNil
   end)%try.

Definition UpdateMagicVariableValues (H : Host) (s : LuaScriptingInstance)
  : LuaScriptingInstance * list Event :=
  match m_luaState s with
  | None => (s, [LogDebug "UpdateMagicVariableValues - no Lua state"])
  | Some L =>
      let '(g, r) := UpdateMagicVariableValues_try H s (globals L) in
      (set_luaState s (Some (with_globals L g)),
       LogDebug "UpdateMagicVariableValues - starting" ::
       match r with
       | Ok _ => [LogDebug "UpdateMagicVariableValues - completed successfully"]
       | Throw (Some what) => [LogError ("UpdateMagicVariableValues failed: " +:+ what)]
       | Throw None => [LogError "UpdateMagicVariableValues failed: Unknown error occurred"]
       end)
  end.

Definition UpdateMagicVariables (H : Host) (s : LuaScriptingInstance)
  : LuaScriptingInstance * list Event :=
  match m_luaState s with
  | None => (s, [])
  | Some _ =>
      (* Only update magic variables if the context has actually changed *)
      if HasContextChanged s then
        let '(s1, t) := UpdateMagicVariableValues H s in
        (UpdateContextCache s1,
         LogDebug "Context changed, updating magic variables" :: t)
      else
        (s, [LogDebug "Context unchanged, skipping magic variable update"])
  end.

(** ** Safe stringification *)

(** [lua_tointeger] and [lua_tonumber], on the values [SafeToString] reads
    them from: an integer after [lua_isinteger], a float otherwise. *)
Definition lua_tointeger (L : lua_State) (idx : Z) : Z :=
  match index2value L idx with
  | Some (LInteger n) => n
  | _ => 0
  end.

Definition lua_tonumber (L : lua_State) (idx : Z) : float :=
  match index2value L idx with
  | Some (LFloat x) => x
  | _ => 0%float
  end.

(** [SafeToString(L, index)]: the text, the state it leaves, and the output
    calls a [__tostring] hook made.  [std::to_string] of an integer is its
    decimal text.  The hook runs under [lua_pcall], and nothing else in the
    body throws, so the [catch (...)] clause of the source is never
    entered. *)
Definition SafeToString (I : Interp) (L : option lua_State) (index : Z)
  : string * option lua_State * list ScriptCall :=
  match L with
  | None => ("<stack error>", None, [])
  | Some L =>
      if negb (lua_checkstack I L 2) then ("<stack error>", Some L, [])
      else
        match lua_type L index with
        | LUA_TSTRING =>
            (match lua_tolstring (lua_Number2str I) L index with
             | Some str => str
             | None => "<invalid string>"
             end, Some L, [])
        | LUA_TNUMBER =>
            (if lua_isinteger L index
             then pretty (lua_tointeger L index)
             else std_to_string I (lua_tonumber L index), Some L, [])
        | LUA_TBOOLEAN =>
            (if lua_toboolean L index then "true" else "false", Some L, [])
        | LUA_TNIL => ("nil", Some L, [])
        | LUA_TUSERDATA =>
            (* Check if it's a Binary Ninja object with custom __tostring *)
            let '(field, L1) := luaL_getmetafield I L index "__tostring" in
            if negb (lua_Type_eqb field LUA_TNIL) then
              let L2 := lua_pushvalue L1 index in
              let '(status, L3, calls) := lua_pcall1 I L2 1 in
              match status with
              | LUA_OK =>
                  let ret :=
                    match lua_tolstring (lua_Number2str I) L3 (-1) with
                    | Some result => result
                    | None => "<tostring failed>"
                    end in
                  (ret, Some (lua_pop L3 1), calls)
              | LUA_ERR =>
                  let L4 := lua_pop L3 1 in (* Pop error *)
                  ("<" +:+ luaL_typename L4 index +:+ ">", Some L4, calls)
              end
            else ("<" +:+ luaL_typename L1 index +:+ ">", Some L1, [])
        | LUA_TTABLE => ("<table>", Some L, [])
        | LUA_TFUNCTION => ("<function>", Some L, [])
        | _ => ("<" +:+ luaL_typename L index +:+ ">", Some L, [])
        end
  end.

(** ** Evaluation *)

(** How a call of the session ends: it returns a result, or an error
    raised outside every protected call leaves it before its remaining
    statements run. *)
Inductive Completion :=
| Returned (r : BNScriptingProviderExecuteResult)
| Escaped.

Record Execution := mkExecution {
  completion : Completion;
  instance : LuaScriptingInstance;
  trace : list Event
}.

(** The state of a session that has one. *)
Definition state_of (s : LuaScriptingInstance) (L0 : lua_State) : lua_State :=
  default L0 (m_luaState s).

(** The branch of [ExecuteScriptInput] taken when the expression ran: the
    value on top of the stack, if there is one and it is not nil, is
    printed; the stack is cleared.  The last component tells whether
    [luaL_tolstring] raised. *)
Definition ExecuteScriptInput_print (I : Interp) (L : lua_State)
  : lua_State * list Event * bool :=
  if (0 <? lua_gettop L) && negb (lua_isnil L (-1)) then
    if lua_istable L (-1) then
      (* For tables, use dump() for pretty printing *)
      let L1 := lua_getglobal L "dump" in
      if lua_isfunction L1 (-1) then
        let L2 := lua_pushvalue L1 (-2) in (* Push the table *)
        let '(status, L3, calls) := lua_pcall1 I L2 1 in
        match status with
        | LUA_OK =>
            let out :=
              match lua_tolstring (lua_Number2str I) L3 (-1) with
              | Some str => [Output (str +:+ LF)]
              | None => []
              end in
            (lua_settop0 (lua_pop L3 1), script_events calls ++ out, false)
        | LUA_ERR =>
            (lua_settop0 (lua_pop L3 1), script_events calls, false)
        end
      else
        (lua_settop0 (lua_pop L1 1), [Output ("<table>" +:+ LF)], false)
    else
      (* Use luaL_tolstring for non-tables (handles __tostring metamethods) *)
      match luaL_tolstring I L (-1) with
      | (Some (str, L1), calls) =>
          (lua_settop0 (lua_pop L1 1), script_events calls ++ [Output (str +:+ LF)], false)
      | (None, calls) => (L, script_events calls, true)
      end
  else (lua_settop0 L, [], false).

Definition ExecuteScriptInput (I : Interp) (H : Host) (s : LuaScriptingInstance)
    (input : string) : Execution :=
  match m_luaState s with
  | None =>
      mkExecution (Returned InvalidScriptInput) s
        [LogError "ExecuteScriptInput called with uninitialized Lua state";
         Error "Lua state not initialized"]
  | Some L0 =>
      let enter :=
        [LogDebug ("ExecuteScriptInput: " +:+ input);
         InputReadyStateChanged NotReadyForInput] in
      (* Set state to executing *)
      let s1 := set_inputReadyState s NotReadyForInput in
      let '(s2, refresh) := UpdateMagicVariables H s1 in
      let L := state_of s2 L0 in
      (* First try to execute as an expression by wrapping with "return" *)
      let expressionCode := "return " +:+ input in
      let '(result, L1, calls1) := luaL_dostring I L expressionCode in
      let '(scriptResult, L', body, escaped) :=
        match result with
        | LUA_OK =>
            let '(L2, shown, escaped) := ExecuteScriptInput_print I L1 in
            (SuccessfulScriptExecution, L2, script_events calls1 ++ shown, escaped)
        | LUA_ERR =>
            (* Expression failed, clear error and try as statement *)
            let L2 := lua_pop L1 1 in
            let '(result2, L3, calls2) := luaL_dostring I L2 input in
            match result2 with
            | LUA_OK =>
                (SuccessfulScriptExecution, L3,
                 script_events calls1 ++ script_events calls2, false)
            | LUA_ERR =>
                (* Handle error safely *)
                let '(error_msg, L4, calls3) := SafeToString I (Some L3) (-1) in
                let L5 := lua_pop (default L3 L4) 1 in (* Clean up error *)
                (InvalidScriptInput, L5,
                 script_events calls1 ++ script_events calls2 ++ script_events calls3 ++
                 (if negb (empty error_msg) then [Error (error_msg +:+ LF)] else []),
                 false)
            end
        end in
      if escaped then
        mkExecution Escaped (set_luaState s2 (Some L')) (enter ++ refresh ++ body)
      else
        (* Reset to ready state *)
        mkExecution (Returned scriptResult)
          (set_inputReadyState (set_luaState s2 (Some L')) ReadyForScriptProgramInput)
          (enter ++ refresh ++ body ++
           [InputReadyStateChanged ReadyForScriptProgramInput])
  end.

Definition ExecuteScriptInputFromFilename (I : Interp) (H : Host)
    (s : LuaScriptingInstance) (filename : string) : Execution :=
  match m_luaState s with
  | None =>
      mkExecution (Returned InvalidScriptInput) s
        [LogError "ExecuteScriptInputFromFilename called with uninitialized Lua state";
         Error "Lua state not initialized"]
  | Some L0 =>
      let enter :=
        [LogDebug ("ExecuteScriptInputFromFilename: " +:+ filename);
         InputReadyStateChanged NotReadyForInput] in
      let s1 := set_inputReadyState s NotReadyForInput in
      let '(s2, refresh) := UpdateMagicVariables H s1 in
      let L := state_of s2 L0 in
      let '(result, L1, calls) := luaL_dofile I L filename in
      (* Reset to ready state *)
      let ready := [InputReadyStateChanged ReadyForScriptProgramInput] in
      match result with
      | LUA_ERR =>
          let report :=
            match lua_tolstring (lua_Number2str I) L1 (-1) with
            | Some errorStr =>
                [LogError ("Script execution failed in file " +:+ filename +:+ ": " +:+ errorStr);
                 Error errorStr]
            | None =>
                [LogError ("Script execution failed in file " +:+ filename +:+ ": Unknown error");
                 Error "Script execution failed: Unknown error"]
            end in
          mkExecution (Returned InvalidScriptInput)
            (set_inputReadyState (set_luaState s2 (Some (lua_pop L1 1)))
               ReadyForScriptProgramInput)
            (enter ++ refresh ++ script_events calls ++ ready ++ report)
      | LUA_OK =>
          mkExecution (Returned SuccessfulScriptExecution)
            (set_inputReadyState (set_luaState s2 (Some L1)) ReadyForScriptProgramInput)
            (enter ++ refresh ++ script_events calls ++ ready)
      end
  end.

(** ** Utility functions and session start *)

(** [lua_touserdata]: the address a light userdata holds, the address of a
    full userdata's block, NULL for any other value. *)
Inductive UserdataPointer :=
| NullPointer
| Address (p : pointer)
| BlockAddress.

Definition lua_touserdata (v : LuaValue) : UserdataPointer :=
  match v with
  | LLightUserdata p => Address p
  | LUserdata _ => BlockAddress
  | _ => NullPointer
  end.

(** The script-visible [get_selected_data()], called on the state [L] of the
    session [s]: the string it pushes.  The function casts whatever address
    the global [__binja_instance] yields to a session; the result is [None]
    where that address is not [this s], a read the source leaves undefined. *)
Definition get_selected_data (H : Host) (s : LuaScriptingInstance) (L : lua_State)
  : option string :=
  match lua_touserdata (default LNil (globals L !! "__binja_instance")) with
  | NullPointer => Some ""
  | BlockAddress => None
  | Address p =>
      if bool_decide (p = this s) then
        match m_currentBinaryView s with
        | None => Some ""
        | Some view =>
            let start := m_selectionBegin s in
            let end_ := m_selectionEnd s in
            if start >=? end_ then Some ""
            else
              let len := BinjaLua.uint64 (end_ - start) in
              Some (ReadBuffer H view start len)
        end
      else None
  end.

Definition DQ : string := String "034"%char EmptyString.

Definition unlines (ls : list string) : string :=
  fold_right (fun l acc => l +:+ LF +:+ acc) "" ls.

(** The Lua source of [dump] that [SetupUtilityFunctions] runs. *)
Definition dumpCode : string := unlines [
  "function dump(o, indent)";
  "    indent = indent or 0";
  "    local sp = string.rep('  ', indent)";
  "    local sp1 = string.rep('  ', indent + 1)";
  "    if type(o) == 'table' then";
  "        local parts = {'{'}";
  "        local n = #o";
  "        if n > 0 then";
  "            for i = 1, n do";
  "                parts[#parts+1] = sp1 .. dump(o[i], indent+1) .. (i < n and ',' or '')";
  "            end";
  "        else";
  "            local keys = {}";
  "            for k in pairs(o) do keys[#keys+1] = k end";
  "            table.sort(keys, function(a,b) return tostring(a) < tostring(b) end)";
  "            for i, k in ipairs(keys) do";
  "                local ks = type(k) == 'string' and k:match('^[%a_][%w_]*$') and k or ('['..dump(k,0)..']')";
  "                parts[#parts+1] = sp1 .. ks .. ' = ' .. dump(o[k], indent+1) .. (i < #keys and ',' or '')";
  "            end";
  "        end";
  "        parts[#parts+1] = sp .. '}'";
  "        return table.concat(parts, '\n')";
  "    elseif type(o) == 'string' then";
  "        return '" +:+ DQ +:+ "' .. o:gsub('\\', '\\\\'):gsub('" +:+ DQ +:+ "', '\\" +:+ DQ
    +:+ "'):gsub('\n', '\\n') .. '" +:+ DQ +:+ "'";
  "    elseif type(o) == 'number' and o > 4096 and o == math.floor(o) then";
  "        return string.format('0x%x', o)";
  "    else";
  "        return tostring(o)";
  "    end";
  "end" ].

Definition SetupUtilityFunctions (I : Interp) (L : lua_State) : lua_State * list Event :=
  (* Only define if not already defined (e.g., by lua-api extensions) *)
  let dumpExists := negb (lua_isnil (lua_getglobal L "dump") (-1)) in
  let '(L1, t) :=
    if dumpExists then (L, [])
    else
      let '(result, Ld, calls) := luaL_dostring I L dumpCode in
      match result with
      | LUA_OK => (Ld, script_events calls)
      | LUA_ERR =>
          (lua_pop Ld 1,
           script_events calls ++
           [LogError ("Failed to register dump function: " +:+
                      default "" (lua_tolstring (lua_Number2str I) Ld (-1)))])
      end in
  let L2 := lua_setglobal L1 "get_selected_data" (LCFunction Cget_selected_data) in
  let L3 := lua_setglobal L2 "write_at_cursor" (LCFunction Cwrite_at_cursor) in
  (L3, t).

Definition SetupBindings (I : Interp) (H : Host) (s : LuaScriptingInstance)
  : LuaScriptingInstance * list Event :=
  match m_luaState s with
  | None => (s, [])
  | Some L =>
      match RegisterAllBindings H L with
      | (L1, Ok _) =>
          let '(L2, t) := SetupUtilityFunctions I L1 in
          let '(s1, refresh) := UpdateMagicVariables H (set_luaState s (Some L2)) in
          (s1,
           [LogDebug "SetupBindings - starting"; LogDebug "SetupBindings - bindings registered"]
           ++ t ++ refresh ++ [LogDebug "SetupBindings - completed"])
      | (L1, Throw (Some what)) =>
          (set_luaState s (Some L1),
           [LogDebug "SetupBindings - starting"; LogError ("SetupBindings failed: " +:+ what)])
      | (L1, Throw None) =>
          (set_luaState s (Some L1),
           [LogDebug "SetupBindings - starting";
            LogError "SetupBindings failed: Unknown error occurred"])
      end
  end.

Definition InitializeLuaState (I : Interp) (H : Host) (s : LuaScriptingInstance)
  : LuaScriptingInstance * list Event :=
  match luaL_newstate I with
  | None =>
      (set_luaState s None,
       [LogError "Failed to create Lua state"; Error "Failed to create Lua state"])
  | Some L0 =>
      let L1 := lua_setglobal L0 "__binja_instance" (LLightUserdata (this s)) in
      let L2 := lua_setglobal L1 "print" (LCFunction CLuaPrint) in
      let L3 := lua_setglobal L2 "error" (LCFunction CLuaError) in
      let L4 := lua_setglobal L3 "warn" (LCFunction CLuaWarn) in
      let '(s1, t) := SetupBindings I H (set_luaState s (Some L4)) in
      (* Notify that we're ready for input *)
      (s1, t ++ [InputReadyStateChanged (m_inputReadyState s1)])
  end.

(** The constructor of the session object that lives at the address [self]. *)
Definition LuaScriptingInstance_new (I : Interp) (H : Host) (self : pointer)
  : LuaScriptingInstance * list Event :=
  InitializeLuaState I H
    (mkInstance self None None None None 0 0 0 ReadyForScriptProgramInput
       None None None 0 0 0).

(** What the host application does with a session once it is open. *)
Inductive HostRequest :=
| ReqExecuteScriptInput (input : string)
| ReqExecuteScriptInputFromFilename (filename : string)
| ReqSetCurrentBinaryView (view : option BNHandle)
| ReqSetCurrentFunction (func : option BNHandle)
| ReqSetCurrentBasicBlock (block : option BNHandle)
| ReqSetCurrentAddress (addr : Z)
| ReqSetCurrentSelection (begin end_ : Z).

Definition serve (I : Interp) (H : Host) (s : LuaScriptingInstance) (r : HostRequest)
  : LuaScriptingInstance * list Event :=
  match r with
  | ReqExecuteScriptInput input =>
      let e := ExecuteScriptInput I H s input in (instance e, trace e)
  | ReqExecuteScriptInputFromFilename filename =>
      let e := ExecuteScriptInputFromFilename I H s filename in (instance e, trace e)
  | ReqSetCurrentBinaryView view => (SetCurrentBinaryView s view, [])
  | ReqSetCurrentFunction func => (SetCurrentFunction s func, [])
  | ReqSetCurrentBasicBlock block => (SetCurrentBasicBlock s block, [])
  | ReqSetCurrentAddress addr => (SetCurrentAddress s addr, [])
  | ReqSetCurrentSelection b e => (SetCurrentSelection s b e, [])
  end.

(** The session after a sequence of requests, and everything it emitted. *)
Fixpoint serve_all (I : Interp) (H : Host) (s : LuaScriptingInstance)
    (rs : list HostRequest) : LuaScriptingInstance * list Event :=
  match rs with
  | [] => (s, [])
  | r :: rest =>
      let '(s1, t1) := serve I H s r in
      let '(s2, t2) := serve_all I H s1 rest in
      (s2, t1 ++ t2)
  end.

(** ** Reading a trace *)

(** The readiness notifications of a trace, in order. *)
Definition readiness (t : list Event) : list BNScriptingProviderInputReadyState :=
  omap (fun e => match e with InputReadyStateChanged st => Some st | _ => None end) t.

(** The messages a trace sends to the error channel, in order. *)
Definition error_messages (t : list Event) : list string :=
  omap (fun e => match e with Error text => Some text | _ => None end) t.

(** The texts a trace sends to the output channel, in order. *)
Definition outputs (t : list Event) : list string :=
  omap (fun e => match e with Output text => Some text | _ => None end) t.

(** ** A small interpreter and host to run the session on

    [demo_interp] answers a handful of inputs after the way Lua answers
    them (error texts shortened) in a session whose globals hold [dump]
    (function 1) and two userdata: [obj], whose [__tostring] (function 7)
    renders it, and [odd], whose [__tostring] (function 8) returns a
    boolean.  [table.sort] calls [assert(false, '')] from C, so the error
    object is the empty message itself, with no position in front. *)

Definition demo_load_run (code : string) (g : gmap string LuaValue) : Run :=
  if String.eqb code "return 1 + 2" then mkRun g [] (Values [LInteger 3])
  else if String.eqb code "return nil" then mkRun g [] (Values [LNil])
  else if String.eqb code "return _G" then mkRun g [] (Values [LTable 1])
  else if String.eqb code "return {10, 20}" then
    mkRun g [] (Values [LArray [LInteger 10; LInteger 20]])
  else if String.eqb code "return obj" then mkRun g [] (Values [LUserdata (UOther 1)])
  else if String.eqb code "return odd" then mkRun g [] (Values [LUserdata (UOther 2)])
  else if String.eqb code "return print('x')" then mkRun g [CallPrint ["x"]] (Values [])
  else if String.eqb code "for i=1,3 do print(i) end" then
    mkRun g [CallPrint ["1"]; CallPrint ["2"]; CallPrint ["3"]] (Values [])
  else if String.eqb code "return 5" then mkRun g [] (Values [LInteger 5])
  else if String.eqb code "x = 5" then mkRun (<["x" := LInteger 5]> g) [] (Values [])
  else if String.eqb code "__binja_instance = nil" then
    mkRun (<["__binja_instance" := LNil]> g) [] (Values [])
  else if String.eqb code "return table.sort({'', false}, assert)" then
    mkRun g [] (Failed (LString ""))
  else if String.eqb code "table.sort({'', false}, assert)" then
    mkRun g [] (Failed (LString ""))
  else if String.eqb code "return nonexistent_fn()" then
    mkRun g [] (Failed (LString "attempt to call a nil value (global 'nonexistent_fn')"))
  else if String.eqb code "nonexistent_fn()" then
    mkRun g [] (Failed (LString "attempt to call a nil value (global 'nonexistent_fn')"))
  else mkRun g [] (Failed (LString "syntax error")).

Definition demo_call (f : LuaValue) (args : list LuaValue) (g : gmap string LuaValue) : Run :=
  match f, args with
  | LFunction 1, [LTable 1] => mkRun g [] (Failed (LString "stack overflow"))
  | LFunction 1, [LArray _] => mkRun g [] (Values [LString "{ 10, 20 }"])
  | LFunction 7, [LUserdata (UOther 1)] => mkRun g [] (Values [LString "object 1"])
  | LFunction 7, _ => mkRun g [] (Failed (LString "bad argument #1 (object expected)"))
  | LFunction 8, _ => mkRun g [] (Values [LBoolean true])
  | _, _ => mkRun g [] (Failed (LString "attempt to call a non-function value"))
  end%positive.

Definition demo_tolstring (v : LuaValue) (g : gmap string LuaValue) : ToLString :=
  match v with
  | LInteger n => mkToLString g [] (Some (pretty n))
  | LString s => mkToLString g [] (Some s)
  | LBoolean b => mkToLString g [] (Some (if b then "true" else "false"))
  | LUserdata (UOther 1) => mkToLString g [] (Some "object 1")
  | LUserdata (UOther 2) => mkToLString g [] None
  | _ => mkToLString g [] (Some "?")
  end%positive.

Definition demo_metafield (g : gmap string LuaValue) (v : LuaValue) (event : string)
  : LuaValue :=
  match v with
  | LUserdata (UOther 1) => if String.eqb event "__tostring" then LFunction 7 else LNil
  | LUserdata (UOther 2) => if String.eqb event "__tostring" then LFunction 8 else LNil
  | _ => LNil
  end%positive.

Definition demo_globals : gmap string LuaValue :=
  {[ "dump" := LFunction 1; "obj" := LUserdata (UOther 1); "odd" := LUserdata (UOther 2) ]}.

Definition demo_interp : Interp :=
  mkInterp (Some (mkState [] demo_globals)) demo_load_run demo_load_run demo_call
    demo_tolstring demo_metafield (fun _ _ => true) (fun _ => "?") (fun _ => "?").

(** The same interpreter when the stack cannot grow any more. *)
Definition exhausted_interp : Interp :=
  mkInterp (Some (mkState [] demo_globals)) demo_load_run demo_load_run demo_call
    demo_tolstring demo_metafield (fun _ _ => false) (fun _ => "?") (fun _ => "?").

(** The same interpreter when no state can be created. *)
Definition failing_interp : Interp :=
  mkInterp None demo_load_run demo_load_run demo_call
    demo_tolstring demo_metafield (fun _ _ => true) (fun _ => "?") (fun _ => "?").

(** A host with one view (1) that maps address [0x401000] to the start of
    the file and has a symbol (7) and a comment there and nowhere else, has
    one section (3), and reads four bytes anywhere; every function has all
    of its IL forms. *)
Definition demo_host : Host :=
  mkHost
    (fun _ addr => Ok (if addr =? 0x401000 then Some 0 else None))
    (fun _ _ => Ok [3%positive])
    (fun _ addr => Ok (if addr =? 0x401000 then Some 7%positive else None))
    (fun _ addr => Ok (if addr =? 0x401000 then "entry point" else ""))
    (fun f => Ok (Some f)) (fun f => Ok (Some f)) (fun f => Ok (Some f))
    (fun _ _ _ => "ABCD")
    (fun L => (L, Ok tt)).

(** The same host when the section query throws. *)
Definition throwing_host : Host :=
  mkHost
    (GetDataOffsetForAddress demo_host)
    (fun _ _ => Throw (Some "sections unavailable"))
    (GetSymbolByAddress demo_host)
    (GetCommentForAddress demo_host)
    (GetLowLevelIL demo_host) (GetMediumLevelIL demo_host) (GetHighLevelIL demo_host)
    (ReadBuffer demo_host)
    (RegisterAllBindings demo_host).

(** A session opened on [demo_interp], at address 99. *)
Definition demo_session : LuaScriptingInstance :=
  fst (LuaScriptingInstance_new demo_interp demo_host 99%positive).

(** ** The magic variables, by name *)

(** The names [UpdateMagicVariableValues] assigns, in the order of its
    assignment statements. *)
Definition magic_names : list string :=
  [ "current_function"; "bv"; "current_view"; "current_basic_block";
    "current_address"; "here"; "current_selection"; "current_raw_offset";
    "current_sections"; "current_symbol"; "current_symbols"; "current_comment";
    "current_llil"; "current_mlil"; "current_hlil" ].

Definition is_Throw {A} (r : Exceptional A) : bool :=
  match r with
  | Throw _ => true
  | Ok _ => false
  end.

(** How many of [magic_names] have been assigned when the first host query
    throws, counted along the statements of [UpdateMagicVariableValues]; all
    fifteen when none does. *)
Definition assigned_before_failure (H : Host) (s : LuaScriptingInstance) : nat :=
  let il :=
    match m_currentFunction s with
    | None => 15%nat
    | Some f =>
        if is_Throw (GetLowLevelIL H f) then 12%nat
        else if is_Throw (GetMediumLevelIL H f) then 13%nat
        else if is_Throw (GetHighLevelIL H f) then 14%nat
        else 15%nat
    end in
  match m_currentBinaryView s with
  | None => il
  | Some v =>
      if is_Throw (GetDataOffsetForAddress H v (m_currentAddress s)) then 7%nat
      else if is_Throw (GetSectionsAt H v (m_currentAddress s)) then 8%nat
      else if is_Throw (GetSymbolByAddress H v (m_currentAddress s)) then 9%nat
      else if is_Throw (GetCommentForAddress H v (m_currentAddress s)) then 11%nat
      else il
  end.

(** The globals after [UpdateMagicVariableValues] on a session with a state. *)
Definition globals_after_update (H : Host) (s : LuaScriptingInstance)
  : gmap string LuaValue :=
  match m_luaState (fst (UpdateMagicVariableValues H s)) with
  | Some L => globals L
  | None => ∅
  end.

(** ** More of the session ([src/luascriptingprovider.cpp]) *)

(** [CleanupLuaState], run by the destructor: the session it leaves and the
    states it hands to [lua_close]. *)
Definition CleanupLuaState (s : LuaScriptingInstance)
  : LuaScriptingInstance * list lua_State :=
  match m_luaState s with
  | Some L => (set_luaState s None, [L])
  | None => (s, [])
  end.

(** A call of [BinaryView::WriteBuffer(addr, data)] the session makes. *)
Record HostWrite := mkHostWrite {
  write_view : BNHandle;
  write_addr : Z;
  write_data : string
}.

(** The script-visible [write_at_cursor(data)], called on the state [L] of
    the session [s] with its arguments on the stack: the boolean it pushes
    and the write it asks of the view, if any.  [WriteBuffer] gives the
    number of bytes the view wrote.  As in [get_selected_data] the result is
    [None] where the address found in [__binja_instance] is not [this s]. *)
Definition write_at_cursor (WriteBuffer : BNHandle -> Z -> string -> Z)
    (float_text : float -> string) (s : LuaScriptingInstance) (L : lua_State)
  : option (bool * list HostWrite) :=
  if lua_gettop L <? 1 then Some (false, [])
  else
    match lua_touserdata (default LNil (globals L !! "__binja_instance")) with
    | NullPointer => Some (false, [])
    | BlockAddress => None
    | Address p =>
        if bool_decide (p = this s) then
          match m_currentBinaryView s with
          | None => Some (false, [])
          | Some view =>
              match lua_tolstring float_text L 1 with
              | None => Some (false, [])
              | Some data =>
                  let dataLen := Z.of_nat (String.length data) in
                  let address := m_selectionBegin s in
                  let written := WriteBuffer view address data in
                  Some (written =? dataLen, [mkHostWrite view address data])
              end
          end
        else None
    end.

(** ** The output functions, as the interpreter calls them *)








(** ** The plugin command ([src/library.cpp]) *)

(** [GetLuaProvider] over the names of the registered providers: the
    position of the first one called [Lua], and what is logged. *)
Fixpoint GetLuaProvider_loop (providers : list string) (i : nat)
  : option nat * list Event :=
  match providers with
  | [] => (None, [])
  | name :: rest =>
      if String.eqb name "Lua" then
        (Some i, [LogInfo ("Provider: " +:+ name);
                  LogInfo "Successfully found Lua scripting provider"])
      else
        let '(found, t) := GetLuaProvider_loop rest (S i) in
        (found, LogInfo ("Provider: " +:+ name) :: t)
  end.

Definition GetLuaProvider (providers : list string) : option nat * list Event :=
  let n := pretty (Z.of_nat (length providers)) in
  let '(found, t) := GetLuaProvider_loop providers 0 in
  (found,
   [LogInfo ("Found " +:+ n +:+ " scripting providers")] ++ t ++
   match found with
   | Some _ => []
   | None =>
       [LogError ("Lua scripting provider not found in " +:+ n +:+ " available providers")]
   end).

(** [RunLuaScriptCommand] on a view: [chosen] is the file the dialog
    returned, if the user did not cancel, and [content] what was read from
    it, if it could be opened.  The script runs in a session of its own,
    created at the address [self]. *)
Definition RunLuaScriptCommand (I : Interp) (H : Host) (self : pointer)
    (providers : list string) (chosen : option string) (content : option string)
    (view : option BNHandle) : option Execution * list Event :=
  let '(provider, t0) := GetLuaProvider providers in
  match provider with
  | None => (None, t0 ++ [LogError "Lua scripting provider not available"])
  | Some _ =>
      match chosen with
      | None => (None, t0) (* User cancelled *)
      | Some filename =>
          match content with
          | None => (None, t0 ++ [LogError ("Failed to open Lua script: " +:+ filename)])
          | Some script_content =>
              let '(instance0, t1) := LuaScriptingInstance_new I H self in
              let instance1 := SetCurrentBinaryView instance0 view in
              let e := ExecuteScriptInput I H instance1 script_content in
              (Some e,
               t0 ++ [LogInfo ("Executing Lua script: " +:+ filename)] ++ t1 ++ trace e ++
               match completion e with
               | Returned SuccessfulScriptExecution => []
               | Returned _ => [LogError "Script execution failed"]
               | Escaped => []
               end)
          end
      end
  end.

(** The demo host when the registration of the bindings throws. *)
Definition unregistered_host : Host :=
  mkHost
    (GetDataOffsetForAddress demo_host)
    (GetSectionsAt demo_host)
    (GetSymbolByAddress demo_host)
    (GetCommentForAddress demo_host)
    (GetLowLevelIL demo_host) (GetMediumLevelIL demo_host) (GetHighLevelIL demo_host)
    (ReadBuffer demo_host)
    (fun L => (L, Throw (Some "usertype already registered"))).

(** ** Address arithmetic ([src/bindings/common.h], [src/bindings/common.cpp]) *)

(** [static_cast<int64_t>] of a 64-bit value. *)
Definition int64 (z : Z) : Z := (z + 2 ^ 63) mod 2 ^ 64 - 2 ^ 63.

(** [HexAddress::operator+(int64_t)] and [operator-(int64_t)], which are also
    the [__add] and [__sub] metamethods with a number: unsigned arithmetic,
    which wraps around. *)
Definition HexAddress_add (a : BinjaLua.HexAddress) (offset : Z) : BinjaLua.HexAddress :=
  BinjaLua.mkHexAddress (BinjaLua.uint64 (BinjaLua.value a + offset)).

Definition HexAddress_sub (a : BinjaLua.HexAddress) (offset : Z) : BinjaLua.HexAddress :=
  BinjaLua.mkHexAddress (BinjaLua.uint64 (BinjaLua.value a - offset)).

(** [int64_t operator-(const HexAddress&)], the [__sub] metamethod with
    another address: a signed subtraction, [None] where it overflows. *)
Definition HexAddress_diff (a other : BinjaLua.HexAddress) : option Z :=
  let d := int64 (BinjaLua.value a) - int64 (BinjaLua.value other) in
  if (- 2 ^ 63 <=? d) && (d <? 2 ^ 63) then Some d else None.

(** [operator<]: on the unsigned values. *)
Definition HexAddress_lt (a other : BinjaLua.HexAddress) : bool :=
  BinjaLua.value a <? BinjaLua.value other.

(** ** Sections ([RegisterSectionBindings] in [src/bindings/common.cpp]) *)

Inductive BNSectionSemantics :=
| DefaultSectionSemantics
| ReadOnlyCodeSectionSemantics
| ReadOnlyDataSectionSemantics
| ReadWriteDataSectionSemantics
| ExternalSectionSemantics
| OtherSectionSemantics (code : Z).

(** The table [permissions()] builds. *)
Record SectionPermissions := mkPermissions {
  perm_read : bool;
  perm_write : bool;
  perm_execute : bool
}.

Definition Section_permissions (semantics : BNSectionSemantics) : SectionPermissions :=
  let isCode :=
    match semantics with ReadOnlyCodeSectionSemantics => true | _ => false end in
  let isWritable :=
    match semantics with ReadWriteDataSectionSemantics => true | _ => false end in
  mkPermissions true isWritable isCode.

Definition Section_type (semantics : BNSectionSemantics) : string :=
  match semantics with
  | DefaultSectionSemantics => "default"
  | ReadOnlyCodeSectionSemantics => "code"
  | ReadOnlyDataSectionSemantics => "data"
  | ReadWriteDataSectionSemantics => "data"
  | ExternalSectionSemantics => "external"
  | OtherSectionSemantics _ => "unknown"
  end.

(** ** Branch types ([src/bindings/flowgraph.cpp], [src/bindings/basicblock.cpp]) *)

Inductive BNBranchType :=
| UnconditionalBranch
| FalseBranch
| TrueBranch
| CallDestination
| FunctionReturn
| SystemCall
| IndirectBranch
| ExceptionBranch
| UnresolvedBranch
| UserDefinedBranch
| OtherBranchType (code : Z).

Module FlowGraph.

Definition StringToBranchType (type : string) : BNBranchType :=
  if String.eqb type "unconditional" then UnconditionalBranch
  else if String.eqb type "false" then FalseBranch
  else if String.eqb type "true" then TrueBranch
  else if String.eqb type "call" then CallDestination
  else if String.eqb type "return" then FunctionReturn
  else if String.eqb type "syscall" then SystemCall
  else if String.eqb type "indirect" then IndirectBranch
  else if String.eqb type "exception" then ExceptionBranch
  else UnconditionalBranch.

Definition BranchTypeToString (type : BNBranchType) : string :=
  match type with
  | UnconditionalBranch => "unconditional"
  | FalseBranch => "false"
  | TrueBranch => "true"
  | CallDestination => "call"
  | FunctionReturn => "return"
  | SystemCall => "syscall"
  | IndirectBranch => "indirect"
  | ExceptionBranch => "exception"
  | _ => "unknown"
  end.

End FlowGraph.

Module BasicBlock.

Definition BranchTypeToString (type : BNBranchType) : string :=
  match type with
  | UnconditionalBranch => "unconditional"
  | FalseBranch => "false"
  | TrueBranch => "true"
  | CallDestination => "call"
  | FunctionReturn => "return"
  | SystemCall => "syscall"
  | IndirectBranch => "indirect"
  | ExceptionBranch => "exception"
  | UnresolvedBranch => "unresolved"
  | UserDefinedBranch => "user_defined"
  | OtherBranchType _ => "unknown"
  end.

(** The loop of [instruction_count] (and of [instructions]) from [addr] to
    [end_], [GetInstructionLength] being that of the block's view and
    architecture: the count when the loop ends within [fuel] rounds. *)
Fixpoint instruction_count_loop (fuel : nat) (GetInstructionLength : Z -> Z)
    (addr end_ : Z) (count : Z) : option Z :=
  match fuel with
  | O => None
  | S fuel' =>
      if addr <? end_ then
        let instrLen := GetInstructionLength addr in
        let instrLen := if instrLen =? 0 then 1 else instrLen in
        instruction_count_loop fuel' GetInstructionLength
          (BinjaLua.uint64 (addr + instrLen)) end_ (BinjaLua.uint64 (count + 1))
      else Some count
  end.

(** [instruction_count] of a block from [start] to [end_]; [available] tells
    whether the block has a function, a view and an architecture. *)
Definition instruction_count (fuel : nat) (available : bool)
    (GetInstructionLength : Z -> Z) (start end_ : Z) : option Z :=
  if negb available then Some 0
  else instruction_count_loop fuel GetInstructionLength start end_ 0.

End BasicBlock.

(** ** Instructions ([src/bindings/instruction.cpp]) *)

Module Instruction.

(** The token types the wrapper tells apart; every other type of the
    enumeration is [OtherTokenType]. *)
Inductive BNInstructionTextTokenType :=
| InstructionToken
| OperandSeparatorToken
| IntegerToken
| PossibleAddressToken
| OtherTokenType (code : Z).

Record BNInstructionTextToken := mkToken {
  type : BNInstructionTextTokenType;
  text : string;
  value : Z
}.

Definition is_InstructionToken (t : BNInstructionTextTokenType) : bool :=
  match t with InstructionToken => true | _ => false end.

Definition is_OperandSeparatorToken (t : BNInstructionTextTokenType) : bool :=
  match t with OperandSeparatorToken => true | _ => false end.

Fixpoint GetMnemonic (tokens : list BNInstructionTextToken) : string :=
  match tokens with
  | [] => "<unknown>"
  | token :: rest =>
      if is_InstructionToken (type token) then text token else GetMnemonic rest
  end.

Record InstructionWrapper := mkWrapper {
  address : Z;
  mnemonic : string;
  tokens : list BNInstructionTextToken;
  view : option BNHandle;
  arch : option BNHandle
}.

(** The constructor. *)
Definition InstructionWrapper_new (addr : Z) (inst_tokens : list BNInstructionTextToken)
    (bv architecture : option BNHandle) : InstructionWrapper :=
  mkWrapper addr (GetMnemonic inst_tokens) inst_tokens bv architecture.

(** [GetInstructionLength] is [BinaryView::GetInstructionLength]. *)
Definition GetLength (GetInstructionLength : BNHandle -> BNHandle -> Z -> Z)
    (i : InstructionWrapper) : Z :=
  match view i, arch i with
  | Some v, Some a => GetInstructionLength v a (address i)
  | _, _ => 0
  end.

(** [GetBytes] copies [length] bytes out of the buffer the view returned;
    [None] where the buffer holds fewer, a read past its end. *)
Definition GetBytes (GetInstructionLength : BNHandle -> BNHandle -> Z -> Z)
    (ReadBuffer : BNHandle -> Z -> Z -> string) (i : InstructionWrapper)
  : option string :=
  let length := GetLength GetInstructionLength i in
  match view i with
  | None => Some ""
  | Some v =>
      if length =? 0 then Some ""
      else
        let buffer := ReadBuffer v (address i) length in
        if Z.of_nat (String.length buffer) <? length then None
        else Some (substring 0 (Z.to_nat length) buffer)
  end.

(** The loop of [GetOperands], from the state its three locals are in. *)
Fixpoint GetOperands_loop (tokens : list BNInstructionTextToken)
    (operands : list string) (foundMnemonic : bool) (currentOperand : string)
  : list string :=
  match tokens with
  | [] =>
      if negb (empty currentOperand) then operands ++ [currentOperand] else operands
  | token :: rest =>
      if negb foundMnemonic && is_InstructionToken (type token) then
        GetOperands_loop rest operands true currentOperand
      else if foundMnemonic then
        if is_OperandSeparatorToken (type token) then
          if negb (empty currentOperand) then
            GetOperands_loop rest (operands ++ [currentOperand]) true ""
          else GetOperands_loop rest operands true currentOperand
        else GetOperands_loop rest operands true (currentOperand +:+ text token)
      else GetOperands_loop rest operands false currentOperand
  end.

Definition GetOperands (tokens : list BNInstructionTextToken) : list string :=
  GetOperands_loop tokens [] false "".

Definition GetText (tokens : list BNInstructionTextToken) : string :=
  fold_left (fun text token => text +:+ Instruction.text token) tokens "".

(** The tokens after the first [InstructionToken]. *)
Fixpoint after_mnemonic (tokens : list BNInstructionTextToken)
  : list BNInstructionTextToken :=
  match tokens with
  | [] => []
  | token :: rest =>
      if is_InstructionToken (type token) then rest else after_mnemonic rest
  end.

End Instruction.

(** ** Variables ([src/bindings/variable.cpp]) *)

Module Variables.

Inductive BNVariableSourceType :=
| StackVariableSourceType
| RegisterVariableSourceType
| FlagVariableSourceType
| OtherVariableSourceType (code : Z).

Record BNVariable := mkVariable {
  type : BNVariableSourceType;
  index : Z;
  storage : Z
}.

Record VariableWrapper := mkWrapper {
  bnVar : BNVariable;
  function : option BNHandle;
  cachedName : string;
  cachedTypeName : string;
  nameResolved : bool;
  typeResolved : bool
}.

(** What the wrapper asks of its [Function] and of the [Type] it gets. *)
Record FunctionQueries := mkQueries {
  GetVariableNameOrDefault : BNHandle -> BNVariable -> string;
  (** a null [Ref<Type>] is [None] *)
  GetVariableType : BNHandle -> BNVariable -> option BNHandle;
  GetStringBeforeName : BNHandle -> string;
  GetString : BNHandle -> string;
  IsVariableUserDefinded : BNHandle -> BNVariable -> bool
}.

(** The constructor from a variable and its function. *)
Definition VariableWrapper_new (var : BNVariable) (func : option BNHandle)
  : VariableWrapper :=
  mkWrapper var func "" "" false false.

Definition GetSourceTypeString (v : VariableWrapper) : string :=
  match type (bnVar v) with
  | StackVariableSourceType => "local"
  | RegisterVariableSourceType => "register"
  | FlagVariableSourceType => "flag"
  | OtherVariableSourceType _ => "unknown"
  end.

Definition set_cachedName (v : VariableWrapper) (name : string) (resolved : bool) :=
  mkWrapper (bnVar v) (function v) name (cachedTypeName v) resolved (typeResolved v).

Definition set_cachedTypeName (v : VariableWrapper) (name : string) (resolved : bool) :=
  mkWrapper (bnVar v) (function v) (cachedName v) name (nameResolved v) resolved.

(** [ResolveName] and [ResolveType] write the [mutable] members: the wrapper
    they leave. *)
Definition ResolveName (Q : FunctionQueries) (v : VariableWrapper) : VariableWrapper :=
  if nameResolved v then v
  else
    let name :=
      match function v with
      | Some f =>
          let name := GetVariableNameOrDefault Q f (bnVar v) in
          if empty name then GetSourceTypeString v +:+ "_" +:+ pretty (index (bnVar v))
          else name
      | None => "var_" +:+ pretty (index (bnVar v))
      end in
    set_cachedName v name true.

Definition ResolveType (Q : FunctionQueries) (v : VariableWrapper) : VariableWrapper :=
  if typeResolved v then v
  else
    let name :=
      match function v with
      | Some f =>
          match GetVariableType Q f (bnVar v) with
          | Some t =>
              let name := GetStringBeforeName Q t in
              if empty name then GetString Q t else name
          | None => cachedTypeName v
          end
      | None => cachedTypeName v
      end in
    set_cachedTypeName v (if empty name then "<unknown>" else name) true.

Definition GetName (Q : FunctionQueries) (v : VariableWrapper) : VariableWrapper * string :=
  let v' := ResolveName Q v in (v', cachedName v').

Definition GetTypeName (Q : FunctionQueries) (v : VariableWrapper)
  : VariableWrapper * string :=
  let v' := ResolveType Q v in (v', cachedTypeName v').

(** The type [set_type] recreates the variable with, and the one [set_name]
    passes on from the function. *)
Inductive VariableType :=
| IntegerType (width : Z) (sign : bool)
| PointerType (target : VariableType)
| VoidType
| FromFunction (t : option BNHandle).

(** The calls [set_name] and [set_type] make on the function to change it. *)
Inductive FunctionCall :=
| DeleteUserVariable (var : BNVariable)
| CreateUserVariable (var : BNVariable) (t : VariableType) (name : string)
| UpdateAnalysisAndWait.

Definition reset_resolved (v : VariableWrapper) : VariableWrapper :=
  mkWrapper (bnVar v) (function v) (cachedName v) (cachedTypeName v) false false.

Definition set_name (Q : FunctionQueries) (v : VariableWrapper) (name : string)
  : bool * VariableWrapper * list FunctionCall :=
  match function v with
  | None => (false, v, [])
  | Some f =>
      let t := GetVariableType Q f (bnVar v) in
      (true, reset_resolved v,
       (if IsVariableUserDefinded Q f (bnVar v) then [DeleteUserVariable (bnVar v)] else [])
       ++ [CreateUserVariable (bnVar v) (FromFunction t) name; UpdateAnalysisAndWait])
  end.

(** The type a type string stands for in [set_type]; the factory functions
    never return a null type. *)
Definition parse_type (typeStr : string) : VariableType :=
  if String.eqb typeStr "int32_t" || String.eqb typeStr "int" then IntegerType 4 true
  else if String.eqb typeStr "uint32_t" || String.eqb typeStr "unsigned int" then
    IntegerType 4 false
  else if String.eqb typeStr "int64_t" || String.eqb typeStr "long long" then
    IntegerType 8 true
  else if String.eqb typeStr "uint64_t" || String.eqb typeStr "unsigned long long" then
    IntegerType 8 false
  else if String.eqb typeStr "int16_t" || String.eqb typeStr "short" then IntegerType 2 true
  else if String.eqb typeStr "uint16_t" || String.eqb typeStr "unsigned short" then
    IntegerType 2 false
  else if String.eqb typeStr "int8_t" || String.eqb typeStr "char" then IntegerType 1 true
  else if String.eqb typeStr "uint8_t" || String.eqb typeStr "unsigned char" then
    IntegerType 1 false
  else if String.eqb typeStr "char*" || String.eqb typeStr "const char*" then
    PointerType (IntegerType 1 true)
  else if String.eqb typeStr "void*" then PointerType VoidType
  else if String.eqb typeStr "void" then VoidType
  else (* Default to int32_t for unknown types *) IntegerType 4 true.

Definition set_type (Q : FunctionQueries) (v : VariableWrapper) (typeStr : string)
  : bool * VariableWrapper * list FunctionCall :=
  match function v with
  | None => (false, v, [])
  | Some f =>
      let t := parse_type typeStr in
      let v1 := ResolveName Q v in
      let currentName := cachedName v1 in
      (true, reset_resolved v1,
       (if IsVariableUserDefinded Q f (bnVar v) then [DeleteUserVariable (bnVar v)] else [])
       ++ [CreateUserVariable (bnVar v) t currentName; UpdateAnalysisAndWait])
  end.

End Variables.

(** * Properties *)

(** ** The stack API *)

Lemma index2value_top (l : list LuaValue) (v : LuaValue) (g : gmap string LuaValue) :
  index2value (mkState (l ++ [v]) g) (-1) = Some v.
Proof.
  unfold index2value, lua_absindex, lua_gettop; simpl.
  rewrite length_app; simpl.
  replace (Z.of_nat (length l + 1) + -1 + 1) with (Z.of_nat (length l) + 1) by lia.
  rewrite (proj2 (Z.leb_le _ _)) by lia.
  replace (Z.to_nat (Z.of_nat (length l) + 1 - 1)) with (length l + 0)%nat by lia.
  by rewrite lookup_app_r, Nat.add_comm, Nat.add_sub by lia.
Qed.


(** An absolute index that names a slot still names it after a push. *)
Lemma index2value_push (L : lua_State) (idx : Z) (v x : LuaValue) :
  0 < idx -> index2value L idx = Some x -> index2value (lua_push L v) idx = Some x.
Proof.
  unfold index2value, lua_absindex, lua_push, with_stack; simpl.
  intros Hpos. rewrite (proj2 (Z.ltb_lt _ _)) by lia.
  destruct (1 <=? idx); [|done].
  intros Hx. by rewrite lookup_app_l by (eapply lookup_lt_Some; eauto).
Qed.

(** Popping the one value that was pushed last. *)
Lemma lua_pop_top (l : list LuaValue) (v : LuaValue) (g : gmap string LuaValue) :
  lua_pop (mkState (l ++ [v]) g) 1 = mkState l g.
Proof.
  unfold lua_pop, with_stack; simpl. f_equal.
  rewrite length_app; simpl.
  replace (length l + 1 - 1)%nat with (length l) by lia.
  by rewrite take_app_length.
Qed.

(** A protected call of [f] on one argument, both on top of the stack. *)
Lemma lua_pcall1_top (I : Interp) (l : list LuaValue) (f a : LuaValue)
    (g : gmap string LuaValue) :
  lua_pcall1 I (mkState (l ++ [f; a]) g) 1 =
  let r := call I f [a] g in
  match run_result r with
  | Values vs => (LUA_OK, mkState (l ++ [default LNil (head vs)]) (run_globals r), run_calls r)
  | Failed err => (LUA_ERR, mkState (l ++ [err]) (run_globals r), run_calls r)
  end.
Proof.
  unfold lua_pcall1; simpl. rewrite length_app; simpl.
  replace (length l + 2 - 1 - 1)%nat with (length l) by lia.
  replace (length l + 2 - 1)%nat with (length l + 1)%nat by lia.
  rewrite take_app_length.
  rewrite (list_lookup_middle l [a] f (length l) eq_refl). simpl.
  rewrite drop_app_ge by lia.
  replace (length l + 1 - length l)%nat with 1%nat by lia. simpl.
  reflexivity.
Qed.

(** ** Traces *)

Lemma readiness_app (a b : list Event) : readiness (a ++ b) = readiness a ++ readiness b.
Proof. apply omap_app. Qed.

Lemma error_messages_app (a b : list Event) :
  error_messages (a ++ b) = error_messages a ++ error_messages b.
Proof. apply omap_app. Qed.

Lemma readiness_script_events (calls : list ScriptCall) :
  readiness (script_events calls) = [].
Proof.
  unfold script_events. induction calls as [|c calls IH]; [done|].
  simpl. rewrite readiness_app, IH. by destruct c.
Qed.

Lemma m_luaState_UpdateMagicVariableValues (H : Host) (s : LuaScriptingInstance) :
  is_Some (m_luaState s) -> is_Some (m_luaState (fst (UpdateMagicVariableValues H s))).
Proof.
  intros [L HL]. unfold UpdateMagicVariableValues. rewrite HL.
  destruct (UpdateMagicVariableValues_try H s (globals L)) as [g r]. simpl. eauto.
Qed.

Lemma readiness_UpdateMagicVariableValues (H : Host) (s : LuaScriptingInstance) :
  readiness (snd (UpdateMagicVariableValues H s)) = [].
Proof.
  unfold UpdateMagicVariableValues. destruct (m_luaState s) as [L|]; [|done].
  destruct (UpdateMagicVariableValues_try H s (globals L)) as [g r]. simpl.
  by destruct r as [?|[?|]].
Qed.

Lemma readiness_UpdateMagicVariables (H : Host) (s : LuaScriptingInstance) :
  readiness (snd (UpdateMagicVariables H s)) = [].
Proof.
  unfold UpdateMagicVariables. destruct (m_luaState s) as [L|]; [|done].
  destruct (HasContextChanged s); [|done].
  pose proof (readiness_UpdateMagicVariableValues H s) as Hr.
  destruct (UpdateMagicVariableValues H s) as [s1 t]. by simpl in *.
Qed.

(** ** The context cache *)

Lemma Ref_ne_same (a : option BNHandle) : Ref_ne a a = false.
Proof. unfold Ref_ne. by rewrite bool_decide_eq_true_2. Qed.

Lemma HasContextChanged_UpdateContextCache (s : LuaScriptingInstance) :
  HasContextChanged (UpdateContextCache s) = false.
Proof.
  unfold HasContextChanged, UpdateContextCache; simpl.
  by rewrite !Ref_ne_same, !Z.eqb_refl.
Qed.

Lemma HasContextChanged_false (s : LuaScriptingInstance) :
  HasContextChanged s = false <-> cached_snapshot s = live_snapshot s.
Proof.
  unfold HasContextChanged, cached_snapshot, live_snapshot, Ref_ne. split.
  - intros Hc. repeat (apply orb_false_elim in Hc as [Hc ?]).
    repeat match goal with
           | H : negb (bool_decide _) = false |- _ =>
               apply negb_false_iff, bool_decide_eq_true_1 in H
           | H : negb (_ =? _) = false |- _ => apply negb_false_iff, Z.eqb_eq in H
           end.
    congruence.
  - intros Hs. injection Hs as -> -> -> -> -> ->.
    by rewrite !bool_decide_eq_true_2, !Z.eqb_refl.
Qed.

(** [UpdateMagicVariableValues] touches nothing but the interpreter state. *)
Lemma UpdateMagicVariableValues_fields (H : Host) (s : LuaScriptingInstance) :
  exists L, fst (UpdateMagicVariableValues H s) = set_luaState s L.
Proof.
  unfold UpdateMagicVariableValues. destruct (m_luaState s) as [L|] eqn:HL.
  - destruct (UpdateMagicVariableValues_try H s (globals L)) as [g r]. simpl. eauto.
  - exists None. destruct s. simpl in *. by subst.
Qed.

Lemma UpdateMagicVariables_live (H : Host) (s : LuaScriptingInstance) :
  live_snapshot (fst (UpdateMagicVariables H s)) = live_snapshot s /\
  m_inputReadyState (fst (UpdateMagicVariables H s)) = m_inputReadyState s /\
  (is_Some (m_luaState s) -> is_Some (m_luaState (fst (UpdateMagicVariables H s)))).
Proof.
  unfold UpdateMagicVariables. destruct (m_luaState s) as [L|] eqn:HL; [|by simpl].
  destruct (HasContextChanged s); [|by simpl; rewrite HL].
  destruct (UpdateMagicVariableValues_fields H s) as [L' HL'].
  pose proof (m_luaState_UpdateMagicVariableValues H s) as HS.
  destruct (UpdateMagicVariableValues H s) as [s1 t]. simpl in *. subst s1.
  repeat split. intros _. apply HS. rewrite HL. eauto.
Qed.

Lemma HasContextChanged_UpdateMagicVariables (H : Host) (s : LuaScriptingInstance) :
  is_Some (m_luaState s) -> HasContextChanged (fst (UpdateMagicVariables H s)) = false.
Proof.
  intros [L HL]. unfold UpdateMagicVariables. rewrite HL.
  destruct (HasContextChanged s) eqn:Hc; [|done].
  destruct (UpdateMagicVariableValues H s) as [s1 t]. simpl.
  apply HasContextChanged_UpdateContextCache.
Qed.

(** ** The shape of an evaluation *)

Lemma ExecuteScriptInput_print_spec (I : Interp) (L : lua_State) :
  readiness (ExecuteScriptInput_print I L).1.2 = [] /\
  ((ExecuteScriptInput_print I L).2 = true -> exists v g, tl_text (tolstring I v g) = None).
Proof.
  unfold ExecuteScriptInput_print.
  destruct (_ && _); [|by simpl].
  destruct (lua_istable L (-1)).
  - destruct (lua_isfunction _ _); [|by simpl].
    destruct (lua_pcall1 I _ 1) as [[status L3] calls].
    destruct status; simpl.
    + rewrite readiness_app, readiness_script_events.
      by destruct (lua_tolstring _ _ _).
    + by rewrite readiness_script_events.
  - unfold luaL_tolstring.
    destruct (tl_text (tolstring I _ _)) as [str|] eqn:Ht; simpl.
    + by rewrite readiness_app, readiness_script_events.
    + rewrite readiness_script_events. eauto.
Qed.
Lemma luaL_dostring_calls (I : Interp) (L : lua_State) (code : string) :
  (luaL_dostring I L code).2 = run_calls (load_run I code (globals L)).
Proof. unfold luaL_dostring. by destruct (run_result _). Qed.

(** Every evaluation whose runs end, on a session with a state, announces
    not-ready, then refreshes, then runs the expression form on the
    refreshed globals; it either returns after announcing ready, or it is
    left by an error of [luaL_tolstring]. *)
Lemma ExecuteScriptInput_shape (I : Interp) (H : Host) (s : LuaScriptingInstance)
    (L0 : lua_State) (input : string) :
  m_luaState s = Some L0 ->
  let s2 := (UpdateMagicVariables H (set_inputReadyState s NotReadyForInput)).1 in
  let refresh := (UpdateMagicVariables H (set_inputReadyState s NotReadyForInput)).2 in
  let enter := [LogDebug ("ExecuteScriptInput: " +:+ input);
                InputReadyStateChanged NotReadyForInput] in
  let first := load_run I ("return " +:+ input) (globals (state_of s2 L0)) in
  exists L' body,
    readiness body = [] /\
    ((ExecuteScriptInput I H s input =
        mkExecution Escaped (set_luaState s2 (Some L'))
          (enter ++ refresh ++ script_events (run_calls first) ++ body) /\
      (exists v g, tl_text (tolstring I v g) = None) /\
      exists vs, run_result first = Values vs) \/
     exists r,
       ExecuteScriptInput I H s input =
         mkExecution (Returned r)
           (set_inputReadyState (set_luaState s2 (Some L')) ReadyForScriptProgramInput)
           (enter ++ refresh ++ (script_events (run_calls first) ++ body) ++
            [InputReadyStateChanged ReadyForScriptProgramInput])).
Proof.
  intros HL. unfold ExecuteScriptInput. rewrite HL.
  destruct (UpdateMagicVariables H (set_inputReadyState s NotReadyForInput))
    as [s2 refresh]. cbn [fst snd].
  pose proof (luaL_dostring_calls I (state_of s2 L0) ("return " +:+ input)) as Hc.
  assert (Hv : (luaL_dostring I (state_of s2 L0) ("return " +:+ input)).1.1 = LUA_OK ->
               exists vs, run_result (load_run I ("return " +:+ input)
                                        (globals (state_of s2 L0))) = Values vs).
  { unfold luaL_dostring. destruct (run_result _); cbn [fst]; [eauto|discriminate]. }
  destruct (luaL_dostring I (state_of s2 L0) ("return " +:+ input))
    as [[result L1] calls1]. cbn [fst snd] in Hc, Hv. subst calls1.
  destruct result.
  - pose proof (ExecuteScriptInput_print_spec I L1) as [Hr He].
    destruct (ExecuteScriptInput_print I L1) as [[L2 shown] escaped]. cbn [fst snd] in *.
    exists L2, shown. split; [exact Hr|].
    destruct escaped.
    + left. split; [reflexivity|]. split; [by apply He|by apply Hv].
    + right. eexists. reflexivity.
  - destruct (luaL_dostring I (lua_pop L1 1) input) as [[result2 L3] calls2].
    destruct result2.
    + exists L3, (script_events calls2). split.
      { by rewrite readiness_script_events. }
      right; eexists; reflexivity.
    + destruct (SafeToString I (Some L3) (-1)) as [[error_msg L4] calls3].
      eexists _, _. split; [|right; eexists; reflexivity].
      rewrite !readiness_app, !readiness_script_events.
      by destruct (negb (empty error_msg)).
Qed.

(** The same for the execution of a file, which has no printing step. *)
Lemma ExecuteScriptInputFromFilename_shape (I : Interp) (H : Host)
    (s : LuaScriptingInstance) (L0 : lua_State) (filename : string) :
  m_luaState s = Some L0 ->
  let s2 := (UpdateMagicVariables H (set_inputReadyState s NotReadyForInput)).1 in
  let refresh := (UpdateMagicVariables H (set_inputReadyState s NotReadyForInput)).2 in
  let enter := [LogDebug ("ExecuteScriptInputFromFilename: " +:+ filename);
                InputReadyStateChanged NotReadyForInput] in
  let run := load_run_file I filename (globals (state_of s2 L0)) in
  exists L' r report,
    ExecuteScriptInputFromFilename I H s filename =
      mkExecution (Returned r)
        (set_inputReadyState (set_luaState s2 (Some L')) ReadyForScriptProgramInput)
        (enter ++ refresh ++ script_events (run_calls run) ++
         [InputReadyStateChanged ReadyForScriptProgramInput] ++ report).
Proof.
  intros HL. unfold ExecuteScriptInputFromFilename. rewrite HL.
  destruct (UpdateMagicVariables H (set_inputReadyState s NotReadyForInput))
    as [s2 refresh]. cbn [fst snd].
  unfold luaL_dofile.
  destruct (run_result (load_run_file I filename (globals (state_of s2 L0)))).
  - eexists _, _, []. reflexivity.
  - eexists _, _, _. reflexivity.
Qed.

(** ** Selection *)

(** C4. For all unsigned 64-bit [a] and [b], the length of [Selection(a, b)]
    is [b - a] when [b > a] and [0] otherwise; it is never negative. *)
Theorem Selection_length_floor_zero (a b : Z) :
  0 <= a < 2 ^ 64 -> 0 <= b < 2 ^ 64 ->
  (b > a -> BinjaLua.length (BinjaLua.mkSelection a b) = b - a) /\
  (b <= a -> BinjaLua.length (BinjaLua.mkSelection a b) = 0) /\
  0 <= BinjaLua.length (BinjaLua.mkSelection a b).
Proof.
  intros Ha Hb. unfold BinjaLua.length, BinjaLua.uint64. cbn [BinjaLua.start BinjaLua.end_].
  destruct (Z.gtb_spec b a) as [Hgt|Hle].
  - rewrite Z.mod_small by lia. lia.
  - lia.
Qed.

Lemma Selection_length_floor_zero_witness :
  BinjaLua.length (BinjaLua.mkSelection 0x1000 0x1010) = 0x1010 - 0x1000 /\
  BinjaLua.length (BinjaLua.mkSelection 0x1010 0x1000) = 0.
Proof.
  split.
  - apply (Selection_length_floor_zero 0x1000 0x1010); lia.
  - apply (Selection_length_floor_zero 0x1010 0x1000); lia.
Defined.

(** ** Refresh and commit *)

(** C3. The refresh does the rebinding work only for a changed context and
    then commits; after it the cached snapshot is the live one; it is part
    of every execution, between the not-ready notification and the run of
    the script on the refreshed globals; and a setter that stores the value
    a field already holds does not change what [HasContextChanged] says. *)
Theorem refresh_only_on_change_then_commit (I : Interp) (H : Host)
    (s : LuaScriptingInstance) (L : lua_State) :
  m_luaState s = Some L ->
  (HasContextChanged s = false ->
   UpdateMagicVariables H s =
     (s, [LogDebug "Context unchanged, skipping magic variable update"])) /\
  (HasContextChanged s = true ->
   (UpdateMagicVariables H s).1 = UpdateContextCache (UpdateMagicVariableValues H s).1) /\
  (let s' := (UpdateMagicVariables H s).1 in
   cached_snapshot s' = live_snapshot s' /\
   live_snapshot s' = live_snapshot s /\
   HasContextChanged s' = false) /\
  (forall input,
     let e := ExecuteScriptInput I H s input in
     let synced := UpdateMagicVariables H (set_inputReadyState s NotReadyForInput) in
     HasContextChanged (instance e) = false /\
     exists rest,
       trace e =
         [LogDebug ("ExecuteScriptInput: " +:+ input);
          InputReadyStateChanged NotReadyForInput] ++ synced.2 ++
         script_events
           (run_calls (load_run I ("return " +:+ input) (globals (state_of synced.1 L)))) ++
         rest) /\
  (forall filename,
     let e := ExecuteScriptInputFromFilename I H s filename in
     let synced := UpdateMagicVariables H (set_inputReadyState s NotReadyForInput) in
     HasContextChanged (instance e) = false /\
     exists rest,
       trace e =
         [LogDebug ("ExecuteScriptInputFromFilename: " +:+ filename);
          InputReadyStateChanged NotReadyForInput] ++ synced.2 ++
         script_events
           (run_calls (load_run_file I filename (globals (state_of synced.1 L)))) ++
         rest) /\
  (forall view, view = m_currentBinaryView s ->
     HasContextChanged (SetCurrentBinaryView s view) = HasContextChanged s) /\
  (forall func, func = m_currentFunction s ->
     HasContextChanged (SetCurrentFunction s func) = HasContextChanged s) /\
  (forall block, block = m_currentBasicBlock s ->
     HasContextChanged (SetCurrentBasicBlock s block) = HasContextChanged s) /\
  (forall addr, addr = m_currentAddress s ->
     HasContextChanged (SetCurrentAddress s addr) = HasContextChanged s) /\
  (forall b e, b = m_selectionBegin s -> e = m_selectionEnd s ->
     HasContextChanged (SetCurrentSelection s b e) = HasContextChanged s).
Proof.
  intros HL.
  assert (Hs1 : is_Some (m_luaState (set_inputReadyState s NotReadyForInput))).
  { exists L. exact HL. }
  split; [|split; [|split; [|split; [|split]]]].
  - intros Hc. unfold UpdateMagicVariables. by rewrite HL, Hc.
  - intros Hc. unfold UpdateMagicVariables. rewrite HL, Hc.
    by destruct (UpdateMagicVariableValues H s).
  - cbn zeta.
    assert (Hf : HasContextChanged (UpdateMagicVariables H s).1 = false).
    { apply HasContextChanged_UpdateMagicVariables. eauto. }
    split; [by apply HasContextChanged_false|].
    split; [apply UpdateMagicVariables_live|exact Hf].
  - intros input e synced.
    pose proof (HasContextChanged_UpdateMagicVariables H _ Hs1) as Hf.
    destruct (ExecuteScriptInput_shape I H s L input HL)
      as (L' & body & _ & [(He & _) | (r & He)]);
      subst e; rewrite He; cbn [instance trace].
    + split; [exact Hf|]. eexists. reflexivity.
    + split; [exact Hf|]. eexists.
      rewrite <- !app_assoc. reflexivity.
  - intros filename e synced.
    pose proof (HasContextChanged_UpdateMagicVariables H _ Hs1) as Hf.
    destruct (ExecuteScriptInputFromFilename_shape I H s L filename HL)
      as (L' & r & report & He).
    subst e; rewrite He; cbn [instance trace].
    split; [exact Hf|]. eexists. reflexivity.
  - repeat split; intros; subst; reflexivity.
Qed.

Lemma refresh_only_on_change_then_commit_witness :
  m_luaState (SetCurrentAddress demo_session 0x2000) =
    Some (default (mkState [] ∅) (m_luaState demo_session)) /\
  HasContextChanged (SetCurrentAddress demo_session 0x2000) = true /\
  HasContextChanged
    (UpdateMagicVariables demo_host (SetCurrentAddress demo_session 0x2000)).1 = false /\
  HasContextChanged
    (SetCurrentAddress
       (UpdateMagicVariables demo_host (SetCurrentAddress demo_session 0x2000)).1 0x2000)
  = false.
Proof.
  assert (HL : m_luaState (SetCurrentAddress demo_session 0x2000) =
               Some (default (mkState [] ∅) (m_luaState demo_session)))
    by (vm_compute; reflexivity).
  split; [exact HL|]. split; [vm_compute; reflexivity|].
  split; [|vm_compute; reflexivity].
  pose proof (refresh_only_on_change_then_commit demo_interp demo_host _ _ HL)
    as (_ & _ & Hsync & _).
  exact (proj2 (proj2 Hsync)).
Defined.

(** ** Readiness notifications *)

(** The readiness notifications of an evaluation whose runs end.  On a
    session with a state, the not-ready notification comes before anything
    the evaluation does.  When the call returns, whether the script
    succeeded or failed in both forms, exactly one ready notification
    follows and it is the last event.  When [luaL_tolstring] raises while
    the value of a successful expression is printed, the call is left
    before that notification is sent and the session stays not-ready. *)
Lemma readiness_paired_when_evaluation_returns (I : Interp) (H : Host)
    (s : LuaScriptingInstance) (L : lua_State) (input : string) :
  m_luaState s = Some L ->
  let e := ExecuteScriptInput I H s input in
  let synced := UpdateMagicVariables H (set_inputReadyState s NotReadyForInput) in
  let first := load_run I ("return " +:+ input) (globals (state_of synced.1 L)) in
  (exists rest,
     trace e = LogDebug ("ExecuteScriptInput: " +:+ input) ::
               InputReadyStateChanged NotReadyForInput :: rest) /\
  match completion e with
  | Returned _ =>
      readiness (trace e) = [NotReadyForInput; ReadyForScriptProgramInput] /\
      last (trace e) = Some (InputReadyStateChanged ReadyForScriptProgramInput) /\
      m_inputReadyState (instance e) = ReadyForScriptProgramInput
  | Escaped =>
      readiness (trace e) = [NotReadyForInput] /\
      m_inputReadyState (instance e) = NotReadyForInput /\
      (exists vs, run_result first = Values vs) /\
      (exists v g, tl_text (tolstring I v g) = None)
  end.
Proof.
  intros HL e synced first.
  pose proof (readiness_UpdateMagicVariables H (set_inputReadyState s NotReadyForInput))
    as Hrefresh.
  pose proof (UpdateMagicVariables_live H (set_inputReadyState s NotReadyForInput))
    as (_ & Hready & _).
  destruct (ExecuteScriptInput_shape I H s L input HL)
    as (L' & body & Hbody & [(He & Hraise & Hvs) | (r & He)]);
    subst e; rewrite He; cbn [completion instance trace].
  - split; [eexists; reflexivity|].
    split; [|split; [exact Hready|split; assumption]].
    rewrite !readiness_app, Hrefresh, readiness_script_events, Hbody. reflexivity.
  - split; [eexists; reflexivity|].
    split; [|split; [|reflexivity]].
    + rewrite !readiness_app, Hrefresh, readiness_script_events, Hbody. reflexivity.
    + rewrite !app_assoc. apply last_snoc.
Qed.

(** C8 at a failing input.  An expression whose value has a [__tostring]
    that does not return a string runs successfully; [ExecuteScriptInput]
    prints it with [luaL_tolstring], outside any protected call, where
    [SafeToString] and the branch for tables wrap the same kind of call in
    [lua_pcall].  The error raised there leaves the evaluation before the
    statements that announce ready: the only readiness notification is
    not-ready, and the session stays not-ready. *)
Lemma no_ready_notification_when_tostring_raises :
  let e := ExecuteScriptInput demo_interp demo_host demo_session "odd" in
  completion e = Escaped /\
  trace e = [LogDebug "ExecuteScriptInput: odd";
             InputReadyStateChanged NotReadyForInput;
             LogDebug "Context unchanged, skipping magic variable update"] /\
  readiness (trace e) = [NotReadyForInput] /\
  m_inputReadyState (instance e) = NotReadyForInput.
Proof. vm_compute. repeat split. Qed.

(** ** A session whose interpreter could not be created *)

Lemma serve_without_state (I : Interp) (H : Host) (s : LuaScriptingInstance)
    (r : HostRequest) :
  m_luaState s = None ->
  m_luaState (serve I H s r).1 = None /\
  Forall (fun m => m = "Lua state not initialized") (error_messages (serve I H s r).2).
Proof.
  intros Hs. destruct r; cbn [serve fst snd].
  - unfold ExecuteScriptInput. rewrite Hs. cbn [instance trace].
    split; [exact Hs|]. repeat constructor.
  - unfold ExecuteScriptInputFromFilename. rewrite Hs. cbn [instance trace].
    split; [exact Hs|]. repeat constructor.
  - split; [exact Hs|constructor].
  - split; [exact Hs|constructor].
  - split; [exact Hs|constructor].
  - split; [exact Hs|constructor].
  - split; [exact Hs|constructor].
Qed.

Lemma serve_all_without_state (I : Interp) (H : Host) (rs : list HostRequest) :
  forall s, m_luaState s = None ->
  m_luaState (serve_all I H s rs).1 = None /\
  Forall (fun m => m = "Lua state not initialized") (error_messages (serve_all I H s rs).2).
Proof.
  induction rs as [|r rs IH]; intros s Hs.
  - split; [exact Hs|constructor].
  - cbn [serve_all].
    destruct (serve_without_state I H s r Hs) as [Hs1 Hm1].
    destruct (serve I H s r) as [s1 t1]. cbn [fst snd] in *.
    destruct (IH s1 Hs1) as [Hs2 Hm2].
    destruct (serve_all I H s1 rs) as [s2 t2]. cbn [fst snd] in *.
    split; [exact Hs2|].
    rewrite error_messages_app. apply Forall_app. split; assumption.
Qed.

(** C9. When [luaL_newstate] fails at session open, exactly one message,
    the failure itself, goes to the error channel; the session has no
    state then and after any sequence of requests; and on such a session
    both entry points return [InvalidScriptInput] with the same two log and
    error lines whatever the interpreter and the host are, so no script is
    run.  The only messages the error channel sees afterwards are those
    rejections. *)
Theorem failed_state_creation_leaves_session_inert (I : Interp) (H : Host)
    (self : pointer) :
  luaL_newstate I = None ->
  let opened := LuaScriptingInstance_new I H self in
  error_messages opened.2 = ["Failed to create Lua state"] /\
  m_luaState opened.1 = None /\
  forall (I' : Interp) (H' : Host) (rs : list HostRequest),
    let s := (serve_all I' H' opened.1 rs).1 in
    m_luaState s = None /\
    Forall (fun m => m = "Lua state not initialized")
      (error_messages (serve_all I' H' opened.1 rs).2) /\
    (forall input,
       ExecuteScriptInput I' H' s input =
         mkExecution (Returned InvalidScriptInput) s
           [LogError "ExecuteScriptInput called with uninitialized Lua state";
            Error "Lua state not initialized"]) /\
    (forall filename,
       ExecuteScriptInputFromFilename I' H' s filename =
         mkExecution (Returned InvalidScriptInput) s
           [LogError "ExecuteScriptInputFromFilename called with uninitialized Lua state";
            Error "Lua state not initialized"]).
Proof.
  intros Hnew opened.
  assert (Ho : opened =
    (mkInstance self None None None None 0 0 0 ReadyForScriptProgramInput
       None None None 0 0 0,
     [LogError "Failed to create Lua state"; Error "Failed to create Lua state"])).
  { subst opened. unfold LuaScriptingInstance_new, InitializeLuaState.
    rewrite Hnew. reflexivity. }
  rewrite Ho. cbn [fst snd].
  split; [reflexivity|]. split; [reflexivity|].
  intros I' H' rs. cbn zeta.
  destruct (serve_all_without_state I' H' rs
              (mkInstance self None None None None 0 0 0 ReadyForScriptProgramInput
                 None None None 0 0 0) eq_refl) as [Hs Hm].
  split; [exact Hs|]. split; [exact Hm|].
  split; intros x.
  - unfold ExecuteScriptInput. rewrite Hs. reflexivity.
  - unfold ExecuteScriptInputFromFilename. rewrite Hs. reflexivity.
Qed.

Lemma failed_state_creation_leaves_session_inert_witness :
  luaL_newstate failing_interp = None /\
  completion
    (ExecuteScriptInput demo_interp demo_host
       (serve_all demo_interp demo_host
          (LuaScriptingInstance_new failing_interp demo_host 99%positive).1
          [ReqSetCurrentAddress 0x401000; ReqExecuteScriptInput "1 + 2"]).1
       "1 + 2")
  = Returned InvalidScriptInput.
Proof.
  split; [reflexivity|].
  pose proof (failed_state_creation_leaves_session_inert failing_interp demo_host
                99%positive eq_refl) as (_ & _ & Hrest).
  destruct (Hrest demo_interp demo_host
              [ReqSetCurrentAddress 0x401000; ReqExecuteScriptInput "1 + 2"])
    as (_ & _ & Hexec & _).
  rewrite Hexec. reflexivity.
Defined.

(** ** The selected bytes *)

(** C10, as the code has it.  When the global [__binja_instance] still holds
    the address the session stored in it, [get_selected_data()] returns the
    empty string if no view is bound or the selection is empty or reversed,
    and the bytes the view reads over [[begin, end)] otherwise; when that
    global holds no userdata at all it returns the empty string. *)
Theorem get_selected_data_reads_selection (H : Host) (s : LuaScriptingInstance)
    (L : lua_State) :
  0 <= m_selectionBegin s < 2 ^ 64 ->
  0 <= m_selectionEnd s < 2 ^ 64 ->
  (globals L !! "__binja_instance" = Some (LLightUserdata (this s)) ->
   get_selected_data H s L =
     Some match m_currentBinaryView s with
          | None => ""
          | Some view =>
              if m_selectionBegin s >=? m_selectionEnd s then ""
              else ReadBuffer H view (m_selectionBegin s)
                     (m_selectionEnd s - m_selectionBegin s)
          end) /\
  (lua_touserdata (default LNil (globals L !! "__binja_instance")) = NullPointer ->
   get_selected_data H s L = Some "").
Proof.
  intros Hb He. unfold get_selected_data. split.
  - intros ->. cbn [default from_option id lua_touserdata].
    rewrite bool_decide_eq_true_2 by reflexivity.
    destruct (m_currentBinaryView s) as [view|]; [|reflexivity].
    destruct (Z.geb_spec (m_selectionBegin s) (m_selectionEnd s)); [reflexivity|].
    unfold BinjaLua.uint64. rewrite Z.mod_small by lia. reflexivity.
  - intros ->. reflexivity.
Qed.

Lemma get_selected_data_reads_selection_witness :
  let s := SetCurrentSelection (SetCurrentBinaryView demo_session (Some 1%positive))
             0x10 0x14 in
  get_selected_data demo_host s (default (mkState [] ∅) (m_luaState s)) = Some "ABCD".
Proof.
  cbn zeta.
  apply (get_selected_data_reads_selection demo_host
           (SetCurrentSelection (SetCurrentBinaryView demo_session (Some 1%positive))
              0x10 0x14)).
  - cbn. lia.
  - cbn. lia.
  - vm_compute. reflexivity.
Defined.

(** C10 as stated fails: once a script has assigned [__binja_instance], the
    function returns the empty string although a view is bound and four
    bytes are selected. *)
Lemma get_selected_data_without_instance :
  let s0 := SetCurrentSelection (SetCurrentBinaryView demo_session (Some 1%positive))
              0x10 0x14 in
  let s := instance (ExecuteScriptInput demo_interp demo_host s0 "__binja_instance = nil") in
  m_currentBinaryView s = Some 1%positive /\
  (m_selectionBegin s, m_selectionEnd s) = (0x10, 0x14) /\
  ReadBuffer demo_host 1%positive 0x10 (0x14 - 0x10) = "ABCD" /\
  get_selected_data demo_host s (default (mkState [] ∅) (m_luaState s)) = Some "".
Proof. vm_compute. repeat split. Qed.

(** ** The magic variables *)

(** Reading a name back from a chain of assignments. *)
Ltac read_global :=
  repeat first
    [ rewrite lookup_insert_eq
    | rewrite lookup_insert_ne by (intros ?; discriminate) ].

(** Runs the [try] block, splitting on the outcome of every host query and
    on every reference of the session it still depends on. *)
Ltac run_try_block :=
  unfold UpdateMagicVariableValues_try, try_bind, assign, host_call;
  cbv beta iota zeta;
  repeat (match goal with
          | |- context [match ?r with Ok _ => _ | Throw _ => _ end] =>
              lazymatch r with
              | Ok _ => fail
              | Throw _ => fail
              | _ => destruct r
              end
          | |- context [match ?r with Some _ => _ | None => _ end] =>
              lazymatch r with
              | Some _ => fail
              | None => fail
              | _ => destruct r
              end
          end; cbv beta iota zeta).

(** The globals after the update are those the [try] block leaves. *)
Lemma globals_after_update_eq (H : Host) (s : LuaScriptingInstance) (L : lua_State) :
  m_luaState s = Some L ->
  globals_after_update H s = (UpdateMagicVariableValues_try H s (globals L)).1.
Proof.
  intros HL. unfold globals_after_update, UpdateMagicVariableValues. rewrite HL.
  destruct (UpdateMagicVariableValues_try H s (globals L)) as [g r]. reflexivity.
Qed.

(** C6, as the code has it.  With no current view, [current_raw_offset] is
    the address zero, [current_symbol] is nil, [current_symbols] an empty
    table and [current_comment] the empty string.  With a view,
    [current_raw_offset] is the translated offset, or the address zero when
    the view reports no mapping; and once the offset and section queries
    have returned, [current_symbol] is nil and [current_symbols] empty when
    the view has no symbol there, and [current_comment] is the comment text
    the view returns. *)
Theorem absent_context_bindings (H : Host) (s : LuaScriptingInstance) (L : lua_State) :
  m_luaState s = Some L ->
  let g := globals_after_update H s in
  let addr := m_currentAddress s in
  match m_currentBinaryView s with
  | None =>
      g !! "current_raw_offset" = Some (HexAddress_value 0) /\
      g !! "current_symbol" = Some LNil /\
      g !! "current_symbols" = Some (LArray []) /\
      g !! "current_comment" = Some (LString "")
  | Some v =>
      (forall off, GetDataOffsetForAddress H v addr = Ok (Some off) ->
         g !! "current_raw_offset" = Some (HexAddress_value off)) /\
      (GetDataOffsetForAddress H v addr = Ok None ->
         g !! "current_raw_offset" = Some (HexAddress_value 0)) /\
      (forall off sections,
         GetDataOffsetForAddress H v addr = Ok off ->
         GetSectionsAt H v addr = Ok sections ->
         (GetSymbolByAddress H v addr = Ok None ->
            g !! "current_symbol" = Some LNil /\
            g !! "current_symbols" = Some (LArray [])) /\
         (forall sym comment,
            GetSymbolByAddress H v addr = Ok sym ->
            GetCommentForAddress H v addr = Ok comment ->
            g !! "current_comment" = Some (LString comment)))
  end.
Proof.
  intros HL g addr. subst g addr. rewrite (globals_after_update_eq H s L HL).
  destruct (m_currentBinaryView s) as [v|] eqn:Hv.
  - split; [|split].
    + intros off Hoff. unfold UpdateMagicVariableValues_try. rewrite Hv, Hoff.
      run_try_block; cbn [fst]; read_global; reflexivity.
    + intros Hoff. unfold UpdateMagicVariableValues_try. rewrite Hv, Hoff.
      run_try_block; cbn [fst]; read_global; reflexivity.
    + intros off sections Hoff Hsec. split.
      * intros Hsym. unfold UpdateMagicVariableValues_try. rewrite Hv, Hoff, Hsec, Hsym.
        destruct off; run_try_block; cbn [fst]; split; read_global; reflexivity.
      * intros sym comment Hsym Hcom.
        unfold UpdateMagicVariableValues_try. rewrite Hv, Hoff, Hsec, Hsym, Hcom.
        destruct off, sym; run_try_block; cbn [fst]; read_global; reflexivity.
  - unfold UpdateMagicVariableValues_try. rewrite Hv.
    run_try_block; cbn [fst]; repeat split; read_global; reflexivity.
Qed.

Lemma absent_context_bindings_witness :
  let s := SetCurrentAddress demo_session 0x401000 in
  m_luaState s = Some (default (mkState [] ∅) (m_luaState demo_session)) /\
  globals_after_update demo_host s !! "current_symbol" = Some LNil /\
  globals_after_update demo_host s !! "current_comment" = Some (LString "").
Proof.
  cbn zeta.
  assert (HL : m_luaState (SetCurrentAddress demo_session 0x401000) =
               Some (default (mkState [] ∅) (m_luaState demo_session)))
    by (vm_compute; reflexivity).
  split; [exact HL|].
  pose proof (absent_context_bindings demo_host _ _ HL) as Hb.
  cbn zeta in Hb. change (m_currentBinaryView _) with (@None BNHandle) in Hb.
  cbv beta iota in Hb. destruct Hb as (_ & Hsym & _ & Hcom). split; assumption.
Defined.

(** C6 as stated fails: the binding made for [current_raw_offset] when no
    view is bound is the address zero, the very binding made when the view
    maps the current address to the start of the file; it is not nil, the
    value the absent [current_symbol] gets. *)
Lemma raw_offset_without_view_is_offset_zero :
  let unbound := SetCurrentAddress demo_session 0x401000 in
  let bound := SetCurrentBinaryView unbound (Some 1%positive) in
  GetDataOffsetForAddress demo_host 1%positive 0x401000 = Ok (Some 0) /\
  globals_after_update demo_host bound !! "current_raw_offset" = Some (HexAddress_value 0) /\
  globals_after_update demo_host unbound !! "current_raw_offset" = Some (HexAddress_value 0) /\
  globals_after_update demo_host unbound !! "current_symbol" = Some LNil /\
  HexAddress_value 0 <> LNil.
Proof. vm_compute. repeat split. discriminate. Qed.

(** Every name but the fifteen is left alone. *)
Ltac keep_global Hnot :=
  repeat (rewrite lookup_insert_ne
            by (intros <-; apply Hnot; unfold magic_names;
                repeat first [apply list_elem_of_here | apply list_elem_of_further])).

(** The [try] block as one expression: the globals after each group of
    assignments, and the queries whose exception ends the block. *)
Lemma UpdateMagicVariableValues_try_flat (H : Host) (s : LuaScriptingInstance)
    (g : gmap string LuaValue) :
  UpdateMagicVariableValues_try H s g =
  let addr := m_currentAddress s in
  let g1 :=
    <["current_selection" :=
        LUserdata (USelection (BinjaLua.mkSelection (m_selectionBegin s) (m_selectionEnd s)))]>
    (<["here" := HexAddress_value addr]>
    (<["current_address" := HexAddress_value addr]>
    (<["current_basic_block" := push_ref UBasicBlock (m_currentBasicBlock s)]>
    (<["current_view" := push_ref UBinaryView (m_currentBinaryView s)]>
    (<["bv" := push_ref UBinaryView (m_currentBinaryView s)]>
    (<["current_function" := push_ref UFunction (m_currentFunction s)]> g)))))) in
  let il (g5 : gmap string LuaValue) : gmap string LuaValue * Exceptional unit :=
    match m_currentFunction s with
    | None =>
        (<["current_hlil" := LNil]> (<["current_mlil" := LNil]>
           (<["current_llil" := LNil]> g5)), Ok tt)
    | Some f =>
        match GetLowLevelIL H f with
        | Throw what => (g5, Throw what)
        | Ok llil =>
            let g6 := <["current_llil" := push_ref ULowLevelIL llil]> g5 in
            match GetMediumLevelIL H f with
            | Throw what => (g6, Throw what)
            | Ok mlil =>
                let g7 := <["current_mlil" := push_ref UMediumLevelIL mlil]> g6 in
                match GetHighLevelIL H f with
                | Throw what => (g7, Throw what)
                | Ok hlil => (<["current_hlil" := push_ref UHighLevelIL hlil]> g7, Ok tt)
                end
            end
        end
    end in
  match m_currentBinaryView s with
  | None =>
      il (<["current_comment" := LString ""]>
          (<["current_symbols" := LArray []]>
          (<["current_symbol" := LNil]>
          (<["current_sections" := LArray []]>
          (<["current_raw_offset" := HexAddress_value 0]> g1)))))
  | Some v =>
      match GetDataOffsetForAddress H v addr with
      | Throw what => (g1, Throw what)
      | Ok off =>
          let g2 := <["current_raw_offset" := HexAddress_value (default 0 off)]> g1 in
          match GetSectionsAt H v addr with
          | Throw what => (g2, Throw what)
          | Ok sections =>
              let g3 :=
                <["current_sections" :=
                    LArray (map (fun h => LUserdata (USection h)) sections)]> g2 in
              match GetSymbolByAddress H v addr with
              | Throw what => (g3, Throw what)
              | Ok symbol =>
                  let g4 :=
                    <["current_symbols" :=
                        LArray match symbol with
                               | Some sym => [LUserdata (USymbol sym)]
                               | None => []
                               end]>
                    (<["current_symbol" := push_ref USymbol symbol]> g3) in
                  match GetCommentForAddress H v addr with
                  | Throw what => (g4, Throw what)
                  | Ok comment => il (<["current_comment" := LString comment]> g4)
                  end
              end
          end
      end
  end.
Proof. run_try_block; reflexivity. Qed.

(** Splits on the outcome of every host query and on the two references
    that decide which queries are made. *)
Ltac split_outcomes H s :=
  cbv beta iota zeta;
  destruct (m_currentBinaryView s) as [?v|];
  [ destruct (GetDataOffsetForAddress H _ _) as [?off|?];
    [ destruct (GetSectionsAt H _ _) as [?sections|?];
      [ destruct (GetSymbolByAddress H _ _) as [?symbol|?];
        [ destruct (GetCommentForAddress H _ _) as [?comment|?] | ] | ] | ] | ];
  cbv beta iota zeta;
  try (destruct (m_currentFunction s) as [?f|];
       [ destruct (GetLowLevelIL H _) as [?llil|?];
         [ destruct (GetMediumLevelIL H _) as [?mlil|?];
           [ destruct (GetHighLevelIL H _) as [?hlil|?] | ] | ] | ]);
  cbv beta iota zeta.

(** Takes the names of [magic_names] one by one. *)
Ltac each_name i Hi tac :=
  destruct i as [|i];
  [ injection Hi as <-; tac
  | first [ discriminate Hi | each_name i Hi tac ] ].

(** C5, as the code has it.  The assignments of the [try] block run in
    order and the first host query that throws ends the block: the names
    assigned before it hold the values derived from the current context,
    whatever they held before; that field and every later one keep the
    binding they had; no other global is touched.  All fifteen names are
    assigned exactly when no query throws. *)
Theorem first_failure_cuts_off_later_bindings (H : Host) (s : LuaScriptingInstance)
    (g : gmap string LuaValue) :
  let g' := (UpdateMagicVariableValues_try H s g).1 in
  let n := assigned_before_failure H s in
  (forall (i : nat) name, magic_names !! i = Some name -> (n <= i)%nat ->
     g' !! name = g !! name) /\
  (forall (i : nat) name, magic_names !! i = Some name -> (i < n)%nat ->
     is_Some (g' !! name) /\
     forall g0, (UpdateMagicVariableValues_try H s g0).1 !! name = g' !! name) /\
  (n = 15%nat <-> (UpdateMagicVariableValues_try H s g).2 = Ok tt) /\
  (forall name, name ∉ magic_names -> g' !! name = g !! name).
Proof.
  cbn zeta. unfold assigned_before_failure, is_Throw.
  split; [|split; [|split]].
  - intros i name Hi. rewrite UpdateMagicVariableValues_try_flat.
    split_outcomes H s; intros Hn;
      each_name i Hi ltac:(cbn [fst]; try lia; read_global; reflexivity).
  - intros i name Hi Hn.
    assert (Hval : exists v, forall g0,
              (UpdateMagicVariableValues_try H s g0).1 !! name = Some v).
    { pose proof (fun g0 => UpdateMagicVariableValues_try_flat H s g0) as Hflat.
      revert Hflat Hn.
      split_outcomes H s; intros Hflat Hn;
        each_name i Hi
          ltac:(try lia; eexists; intros g0; rewrite Hflat; cbn [fst];
                read_global; reflexivity). }
    destruct Hval as [v Hv].
    split; [rewrite Hv; eexists; reflexivity|intros g0; rewrite !Hv; reflexivity].
  - rewrite UpdateMagicVariableValues_try_flat.
    split_outcomes H s; cbn [snd]; split; intros Hx;
      try reflexivity; try discriminate Hx.
  - intros name Hnot. rewrite UpdateMagicVariableValues_try_flat.
    split_outcomes H s; cbn [fst]; keep_global Hnot; reflexivity.
Qed.

(** C5 as stated fails: a session synchronized at [0x401000] moves to
    [0x402000], where the view has no symbol and no comment, and the section
    query throws.  The failing field keeps its old section instead of the
    empty table, and the fields after it are not derived at all: the symbol
    and the comment of the old address stay bound.  The exception is logged
    and the cache is committed all the same. *)
Lemma section_failure_leaves_later_fields_stale :
  let s0 := SetCurrentAddress (SetCurrentBinaryView demo_session (Some 1%positive))
              0x401000 in
  let s1 := (UpdateMagicVariables demo_host s0).1 in
  let moved := UpdateMagicVariables throwing_host (SetCurrentAddress s1 0x402000) in
  let g := globals (default (mkState [] ∅) (m_luaState moved.1)) in
  GetSymbolByAddress throwing_host 1%positive 0x402000 = Ok None /\
  GetCommentForAddress throwing_host 1%positive 0x402000 = Ok "" /\
  g !! "current_address" = Some (HexAddress_value 0x402000) /\
  g !! "current_sections" = Some (LArray [LUserdata (USection 3%positive)]) /\
  g !! "current_symbol" = Some (LUserdata (USymbol 7%positive)) /\
  g !! "current_comment" = Some (LString "entry point") /\
  moved.2 = [LogDebug "Context changed, updating magic variables";
             LogDebug "UpdateMagicVariableValues - starting";
             LogError "UpdateMagicVariableValues failed: sections unavailable"] /\
  HasContextChanged moved.1 = false.
Proof. vm_compute. repeat split. Qed.

(** ** Safe stringification *)

(** What [lua_tolstring] makes of the one result of a hook. *)
Lemma lua_tolstring_top (I : Interp) (l : list LuaValue) (v : LuaValue)
    (g : gmap string LuaValue) :
  lua_tolstring (lua_Number2str I) (mkState (l ++ [v]) g) (-1) =
  text_of (lua_Number2str I) (Some v).
Proof. unfold lua_tolstring. rewrite index2value_top. reflexivity. Qed.

(** C7, as the code has it.  [SafeToString] leaves the stack as it found
    it.  Without an interpreter state, or when two stack slots cannot be
    reserved, it returns [<stack error>] whatever the value.  Otherwise it
    returns by kind: the text of a string, the decimal text of an integer
    and [std::to_string] of a float, [true] or [false], [nil], [<table>],
    [<function>], and the bracketed type name otherwise.  For a full
    userdata without [__tostring] that is [<userdata>]; with one, and
    addressed by an absolute index, it is the text the hook returns,
    [<tostring failed>] when the hook returns no string or number, and
    [<userdata>] when the hook fails. *)
Theorem SafeToString_by_kind (I : Interp) (L : lua_State) (index : Z) :
  let r := SafeToString I (Some L) index in
  stack <$> r.1.2 = Some (stack L) /\
  SafeToString I None index = ("<stack error>", None, []) /\
  if lua_checkstack I L 2 then
  match index2value L index with
  | Some (LString str) => r.1.1 = str
  | Some (LInteger n) => r.1.1 = pretty n
  | Some (LFloat x) => r.1.1 = std_to_string I x
  | Some (LBoolean b) => r.1.1 = (if b then "true" else "false")
  | Some LNil => r.1.1 = "nil"
  | Some (LTable _) | Some (LArray _) => r.1.1 = "<table>"
  | Some (LFunction _) | Some (LCFunction _) => r.1.1 = "<function>"
  | Some (LLightUserdata _) => r.1.1 = "<userdata>"
  | Some (LThread _) => r.1.1 = "<thread>"
  | None => r.1.1 = "<no value>"
  | Some (LUserdata u) =>
      match metafield I (globals L) (LUserdata u) "__tostring" with
      | LNil => r.1.1 = "<userdata>"
      | hook =>
          0 < index ->
          match run_result (call I hook [LUserdata u] (globals L)) with
          | Failed _ => r.1.1 = "<userdata>"
          | Values vs =>
              r.1.1 = default "<tostring failed>" (text_of (lua_Number2str I) (head vs))
          end
      end
  end
  else r = ("<stack error>", Some L, []).
Proof.
  cbn zeta.
  refine ((fun p => conj (proj1 p) (conj eq_refl (proj2 p))) _).
  destruct (lua_checkstack I L 2) eqn:Hroom;
    [|unfold SafeToString; rewrite Hroom; split; reflexivity].
  destruct L as [st g].
  unfold SafeToString. rewrite Hroom. cbn [negb].
  unfold lua_type, lua_tolstring, text_of, lua_isinteger, lua_tointeger, lua_tonumber,
    lua_toboolean, luaL_typename, lua_type, luaL_getmetafield.
  destruct (index2value (mkState st g) index) as [v|] eqn:Hv;
    [|split; reflexivity].
  destruct v; cbn [type_of_value]; try (split; reflexivity).
  - destruct b; split; reflexivity.
  - cbn [globals stack].
    destruct (metafield I g (LUserdata u) "__tostring") as [| | | | | | | | | | |] eqn:Hm;
      cbn [type_of_value lua_Type_eqb negb fst snd];
      try (rewrite Hv; split; reflexivity).
    all: unfold lua_pushvalue, lua_push, with_stack; cbn [stack globals].
    all: match goal with
         | |- context [default LNil (index2value ?L1 ?i)] =>
             destruct (index2value L1 i) as [pushed|] eqn:Hx
         end.
    all: cbn [default from_option Datatypes.id].
    all: rewrite <- ?app_assoc; cbn [app].
    all: rewrite lua_pcall1_top; cbv zeta.
    all: split.
    all: try (intros Hpos;
              match type of Hx with
              | index2value (mkState (_ ++ [?f]) _) _ = _ =>
                  pose proof (index2value_push _ index f _ Hpos Hv) as Hp
              end;
              unfold lua_push, with_stack in Hp; cbn [stack globals] in Hp;
              rewrite Hp in Hx; try discriminate Hx; injection Hx as <-).
    all: destruct (run_result (call I _ _ g)) as [vs|err];
         cbn [fst snd]; rewrite ?index2value_top, ?lua_pop_top;
         cbn [fst snd stack fmap option_fmap option_map]; try reflexivity.
    all: try (destruct (head vs) as [[]|]; reflexivity).
    all: change (index2value (mkState st _) index)
           with (index2value (mkState st g) index);
         rewrite Hv; reflexivity.
Qed.

Lemma SafeToString_by_kind_witness :
  (SafeToString demo_interp (Some (mkState [LString "boom"; LInteger 42] ∅)) (-1)).1.1 = "42" /\
  (SafeToString demo_interp (Some (mkState [LString "boom"; LInteger 42] ∅)) 1).1.1 = "boom" /\
  0 < 1 /\
  (SafeToString demo_interp (Some (mkState [LUserdata (UOther 1)] ∅)) 1).1.1 = "object 1" /\
  SafeToString exhausted_interp (Some (mkState [LInteger 42] ∅)) 1 =
    ("<stack error>", Some (mkState [LInteger 42] ∅), []).
Proof.
  split; [|split; [|split; [|split]]].
  - exact (proj2 (proj2 (SafeToString_by_kind demo_interp
                           (mkState [LString "boom"; LInteger 42] ∅) (-1)))).
  - exact (proj2 (proj2 (SafeToString_by_kind demo_interp
                           (mkState [LString "boom"; LInteger 42] ∅) 1))).
  - lia.
  - exact (proj2 (proj2 (SafeToString_by_kind demo_interp
                           (mkState [LUserdata (UOther 1)] ∅) 1))
             ltac:(lia)).
  - exact (proj2 (proj2 (SafeToString_by_kind exhausted_interp
                           (mkState [LInteger 42] ∅) 1))).
Defined.

(** C7 as stated fails in the two guards of the code: a string is rendered
    as [<stack error>] when no stack slot can be reserved, and a userdata
    whose hook returns a boolean is rendered as [<tostring failed>], which
    is neither the hook's result nor the type tag. *)
Lemma SafeToString_guard_texts :
  (SafeToString exhausted_interp (Some (mkState [LString "boom"] ∅)) 1).1.1
  = "<stack error>" /\
  demo_metafield ∅ (LUserdata (UOther 2)) "__tostring" = LFunction 8 /\
  run_result (demo_call (LFunction 8) [LUserdata (UOther 2)] ∅) = Values [LBoolean true] /\
  (SafeToString demo_interp (Some (mkState [LUserdata (UOther 2)] ∅)) 1).1.1
  = "<tostring failed>".
Proof. vm_compute. repeat split. Qed.

(** The hook is handed the wrong value when the index is relative: the
    metafield has been pushed when [lua_pushvalue(L, index)] runs, so index
    [-1] names the hook itself.  Only the error object of a failed
    statement is ever stringified, and always at index [-1]. *)
Lemma SafeToString_relative_index_misses_hook :
  (SafeToString demo_interp (Some (mkState [LUserdata (UOther 1)] ∅)) 1).1.1 = "object 1" /\
  (SafeToString demo_interp (Some (mkState [LUserdata (UOther 1)] ∅)) (-1)).1.1 = "<userdata>".
Proof. vm_compute. split; reflexivity. Qed.

(** ** Evaluation *)

(** The refresh leaves the stack alone. *)
Lemma UpdateMagicVariables_stack (H : Host) (s : LuaScriptingInstance) (L : lua_State) :
  m_luaState s = Some L ->
  stack (state_of (UpdateMagicVariables H s).1 L) = stack L.
Proof.
  intros HL. unfold UpdateMagicVariables, state_of. rewrite HL.
  destruct (HasContextChanged s); [|cbn [fst]; rewrite HL; reflexivity].
  unfold UpdateMagicVariableValues. rewrite HL.
  destruct (UpdateMagicVariableValues_try H s (globals L)) as [g r]. reflexivity.
Qed.








(** A loop that prints: the three lines come from [print], the evaluator
    adds none of its own and reports success. *)
Lemma statement_output_comes_from_print_only :
  let e := ExecuteScriptInput demo_interp demo_host demo_session
             "for i=1,3 do print(i) end" in
  completion e = Returned SuccessfulScriptExecution /\
  outputs (trace e) = ["1" +:+ LF; "2" +:+ LF; "3" +:+ LF].
Proof. vm_compute. split; reflexivity. Qed.


(** What the hypothesis on the stack keeps out: a statement that returns a
    value leaves it on the stack, and the next expression that yields no
    value makes the evaluator print that stale value. *)
Lemma stale_stack_value_is_printed :
  let e1 := ExecuteScriptInput demo_interp demo_host demo_session "return 5" in
  let e2 := ExecuteScriptInput demo_interp demo_host (instance e1) "print('x')" in
  completion e1 = Returned SuccessfulScriptExecution /\
  outputs (trace e1) = [] /\
  stack <$> m_luaState (instance e1) = Some [LInteger 5] /\
  run_result (demo_load_run "return print('x')" demo_globals) = Values [] /\
  outputs (trace e2) = ["x" +:+ LF; "5" +:+ LF].
Proof. vm_compute. repeat split. Qed.

(** C2, as the code has it.  When the input fails in both forms the call
    returns [InvalidScriptInput], and after what the two runs and the
    stringification emitted themselves the evaluator sends the text of the
    statement-form error to the error channel once, or nothing at all when
    that text is empty.  The error of the expression form appears nowhere
    in the trace. *)
Theorem failed_input_reported_at_most_once (I : Interp) (H : Host)
    (s : LuaScriptingInstance) (L : lua_State) (input : string)
    (err1 err2 : LuaValue) :
  m_luaState s = Some L ->
  let synced := UpdateMagicVariables H (set_inputReadyState s NotReadyForInput) in
  let L1 := state_of synced.1 L in
  let first := load_run I ("return " +:+ input) (globals L1) in
  let second := load_run I input (run_globals first) in
  run_result first = Failed err1 ->
  run_result second = Failed err2 ->
  let shown :=
    SafeToString I (Some (mkState (stack L1 ++ [err2]) (run_globals second))) (-1) in
  let e := ExecuteScriptInput I H s input in
  completion e = Returned InvalidScriptInput /\
  trace e =
    [LogDebug ("ExecuteScriptInput: " +:+ input);
     InputReadyStateChanged NotReadyForInput] ++ synced.2 ++
    script_events (run_calls first) ++ script_events (run_calls second) ++
    script_events shown.2 ++
    (if empty shown.1.1 then [] else [Error (shown.1.1 +:+ LF)]) ++
    [InputReadyStateChanged ReadyForScriptProgramInput].
Proof.
  intros HL. cbv zeta. intros H1 H2.
  unfold ExecuteScriptInput. rewrite HL.
  destruct (UpdateMagicVariables H (set_inputReadyState s NotReadyForInput))
    as [s2 refresh]. cbn [fst snd] in *.
  destruct (state_of s2 L) as [st g]. cbn [stack globals] in *.
  unfold luaL_dostring. cbn [stack globals]. rewrite H1.
  rewrite lua_pop_top. cbn [stack globals]. rewrite H2.
  destruct (SafeToString I _ (-1)) as [[error_msg L4] calls3].
  cbn [completion trace fst snd]. split; [reflexivity|].
  destruct (empty error_msg); cbn [negb]; rewrite <- ?app_assoc; reflexivity.
Qed.

Lemma failed_input_reported_at_most_once_witness :
  m_luaState demo_session = Some (default (mkState [] ∅) (m_luaState demo_session)) /\
  completion (ExecuteScriptInput demo_interp demo_host demo_session "nonexistent_fn()")
  = Returned InvalidScriptInput /\
  error_messages (trace (ExecuteScriptInput demo_interp demo_host demo_session
                           "nonexistent_fn()"))
  = ["attempt to call a nil value (global 'nonexistent_fn')" +:+ LF].
Proof.
  assert (HL : m_luaState demo_session =
               Some (default (mkState [] ∅) (m_luaState demo_session)))
    by (vm_compute; reflexivity).
  split; [exact HL|].
  destruct (failed_input_reported_at_most_once demo_interp demo_host demo_session _
              "nonexistent_fn()"
              (LString "attempt to call a nil value (global 'nonexistent_fn')")
              (LString "attempt to call a nil value (global 'nonexistent_fn')")
              HL) as [Hc Ht].
  - vm_compute. reflexivity.
  - vm_compute. reflexivity.
  - split; [exact Hc|]. rewrite Ht. vm_compute. reflexivity.
Defined.

(** C2 as stated fails: [table.sort({'', false}, assert)] fails in both
    forms with the empty string as its error, the call returns
    [InvalidScriptInput], and no message at all reaches the error channel. *)
Lemma empty_error_message_is_not_reported :
  let e := ExecuteScriptInput demo_interp demo_host demo_session
             "table.sort({'', false}, assert)" in
  run_result (demo_load_run "return table.sort({'', false}, assert)" demo_globals)
  = Failed (LString "") /\
  run_result (demo_load_run "table.sort({'', false}, assert)" demo_globals)
  = Failed (LString "") /\
  completion e = Returned InvalidScriptInput /\
  error_messages (trace e) = [] /\
  trace e = [LogDebug "ExecuteScriptInput: table.sort({'', false}, assert)";
             InputReadyStateChanged NotReadyForInput;
             LogDebug "Context unchanged, skipping magic variable update";
             InputReadyStateChanged ReadyForScriptProgramInput].
Proof. vm_compute. repeat split. Qed.

(** * Further properties of the session *)

(** ** Strings *)

Lemma append_nil_r (s : string) : s +:+ "" = s.
Proof.
  induction s as [|c s IH]; [reflexivity|].
  change (String c (s +:+ "") = String c s). f_equal. exact IH.
Qed.

Lemma append_assoc (a b c : string) : (a +:+ b) +:+ c = a +:+ (b +:+ c).
Proof.
  induction a as [|x a IH]; [reflexivity|].
  change (String x ((a +:+ b) +:+ c) = String x (a +:+ (b +:+ c))). f_equal. exact IH.
Qed.

Lemma empty_true (s : string) : empty s = true <-> s = "".
Proof. destruct s; cbn; split; intros Hx; try reflexivity; discriminate Hx. Qed.

Lemma empty_append (a b : string) : empty (a +:+ b) = empty a && empty b.
Proof. destruct a; reflexivity. Qed.

Lemma concat_cons (p : string) (pieces : list string) :
  String.concat "" (p :: pieces) = p +:+ String.concat "" pieces.
Proof.
  destruct pieces; [symmetry; apply append_nil_r|reflexivity].
Qed.

Lemma concat_app (a b : list string) :
  String.concat "" (a ++ b) = String.concat "" a +:+ String.concat "" b.
Proof.
  induction a as [|p a IH]; [reflexivity|].
  rewrite <- app_comm_cons, !concat_cons, IH, append_assoc. reflexivity.
Qed.

Lemma length_substring (n : nat) (s : string) :
  (n <= String.length s)%nat -> String.length (substring 0 n s) = n.
Proof.
  revert s. induction n as [|n IH]; intros [|c s] Hn; cbn in *; try lia.
  rewrite IH by lia. reflexivity.
Qed.

(** ** Traces of the refresh *)

Lemma error_messages_UpdateMagicVariables (H : Host) (s : LuaScriptingInstance) :
  error_messages (UpdateMagicVariables H s).2 = [].
Proof.
  unfold UpdateMagicVariables. destruct (m_luaState s) as [L|] eqn:HL; [|reflexivity].
  destruct (HasContextChanged s); [|reflexivity].
  unfold UpdateMagicVariableValues. rewrite HL.
  destruct (UpdateMagicVariableValues_try H s (globals L)) as [g r].
  destruct r as [?|[?|]]; reflexivity.
Qed.

Lemma outputs_app (a b : list Event) : outputs (a ++ b) = outputs a ++ outputs b.
Proof. apply omap_app. Qed.

(** ** Execution of a file *)

(** X1. [ExecuteScriptInputFromFilename] on a session with a state, when
    the run of the file ends.  If the file ran, the call returns success
    after one not-ready and one ready notification, the ready notification
    is the last event and the values the file returned stay on the stack.
    If it failed, the call returns [InvalidScriptInput] after the same two
    notifications, and the failure is reported after the ready
    notification, as the last event and exactly once, without a newline
    added: the error object's text if it is a string or a number,
    [Script execution failed: Unknown error] otherwise; the error object is
    popped. *)
Theorem file_execution_reports_after_ready (I : Interp) (H : Host)
    (s : LuaScriptingInstance) (L : lua_State) (filename : string) :
  m_luaState s = Some L ->
  let e := ExecuteScriptInputFromFilename I H s filename in
  let synced := UpdateMagicVariables H (set_inputReadyState s NotReadyForInput) in
  let run := load_run_file I filename (globals (state_of synced.1 L)) in
  match run_result run with
  | Values vs =>
      completion e = Returned SuccessfulScriptExecution /\
      readiness (trace e) = [NotReadyForInput; ReadyForScriptProgramInput] /\
      m_inputReadyState (instance e) = ReadyForScriptProgramInput /\
      last (trace e) = Some (InputReadyStateChanged ReadyForScriptProgramInput) /\
      error_messages (trace e) = error_messages (script_events (run_calls run)) /\
      stack <$> m_luaState (instance e) = Some (stack L ++ vs)
  | Failed err =>
      let msg := default "Script execution failed: Unknown error"
                   (text_of (lua_Number2str I) (Some err)) in
      completion e = Returned InvalidScriptInput /\
      readiness (trace e) = [NotReadyForInput; ReadyForScriptProgramInput] /\
      m_inputReadyState (instance e) = ReadyForScriptProgramInput /\
      last (trace e) = Some (Error msg) /\
      error_messages (trace e) = error_messages (script_events (run_calls run)) ++ [msg] /\
      stack <$> m_luaState (instance e) = Some (stack L)
  end.
Proof.
  intros HL e synced run.
  pose proof (readiness_UpdateMagicVariables H (set_inputReadyState s NotReadyForInput))
    as Hr.
  pose proof (error_messages_UpdateMagicVariables H (set_inputReadyState s NotReadyForInput))
    as He.
  pose proof (UpdateMagicVariables_stack H (set_inputReadyState s NotReadyForInput) L HL)
    as Hst.
  subst e run synced. unfold ExecuteScriptInputFromFilename. rewrite HL.
  destruct (UpdateMagicVariables H (set_inputReadyState s NotReadyForInput))
    as [s2 refresh]. cbn [fst snd] in *.
  unfold luaL_dofile.
  destruct (load_run_file I filename (globals (state_of s2 L))) as [g calls res].
  cbn [run_result run_calls run_globals].
  destruct res as [vs|err]; cbn [completion instance trace].
  - split; [reflexivity|]. split.
    { rewrite !readiness_app, Hr, readiness_script_events. reflexivity. }
    split; [reflexivity|]. split.
    { rewrite !app_assoc. apply last_snoc. }
    split.
    { rewrite !error_messages_app, He. cbn [error_messages omap app].
      rewrite app_nil_r. reflexivity. }
    cbn [m_luaState set_inputReadyState set_luaState fmap option_fmap option_map stack].
    rewrite Hst. reflexivity.
  - rewrite lua_tolstring_top, lua_pop_top.
    split; [reflexivity|]. split.
    { rewrite !readiness_app, Hr, readiness_script_events.
      destruct (text_of _ _); reflexivity. }
    split; [reflexivity|]. split.
    { destruct (text_of _ _) as [errorStr|]; cbn [default Datatypes.id from_option].
      - change [LogError ("Script execution failed in file " +:+ filename +:+ ": " +:+ errorStr);
                Error errorStr]
          with ([LogError ("Script execution failed in file " +:+ filename +:+ ": " +:+ errorStr)]
                ++ [Error errorStr]).
        rewrite !app_assoc. apply last_snoc.
      - change [LogError ("Script execution failed in file " +:+ filename +:+ ": Unknown error");
                Error "Script execution failed: Unknown error"]
          with ([LogError ("Script execution failed in file " +:+ filename +:+ ": Unknown error")]
                ++ [Error "Script execution failed: Unknown error"]).
        rewrite !app_assoc. apply last_snoc. }
    split.
    { rewrite !error_messages_app, He.
      destruct (text_of _ _); reflexivity. }
    cbn [m_luaState set_inputReadyState set_luaState fmap option_fmap option_map stack].
    rewrite Hst. reflexivity.
Qed.

Lemma file_execution_reports_after_ready_witness :
  m_luaState demo_session = Some (default (mkState [] ∅) (m_luaState demo_session)) /\
  run_result
    (load_run_file demo_interp "script.lua"
       (globals (state_of
                   (UpdateMagicVariables demo_host
                      (set_inputReadyState demo_session NotReadyForInput)).1
                   (default (mkState [] ∅) (m_luaState demo_session))))) =
    Failed (LString "syntax error") /\
  last (trace (ExecuteScriptInputFromFilename demo_interp demo_host demo_session
                 "script.lua"))
  = Some (Error "syntax error").
Proof.
  assert (HL : m_luaState demo_session =
               Some (default (mkState [] ∅) (m_luaState demo_session)))
    by (vm_compute; reflexivity).
  assert (H1 : run_result
    (load_run_file demo_interp "script.lua"
       (globals (state_of
                   (UpdateMagicVariables demo_host
                      (set_inputReadyState demo_session NotReadyForInput)).1
                   (default (mkState [] ∅) (m_luaState demo_session))))) =
    Failed (LString "syntax error")) by (vm_compute; reflexivity).
  split; [exact HL|]. split; [exact H1|].
  pose proof (file_execution_reports_after_ready demo_interp demo_host
                demo_session _ "script.lua" HL) as Hc.
  cbv zeta in Hc. rewrite H1 in Hc.
  exact (proj1 (proj2 (proj2 (proj2 Hc)))).
Defined.

(** ** The stack across an evaluation *)

(** [SafeToString] leaves the stack as it found it, whatever the index. *)
Lemma SafeToString_stack (I : Interp) (L : lua_State) (index : Z) :
  stack (default L (SafeToString I (Some L) index).1.2) = stack L.
Proof.
  unfold SafeToString.
  destruct (negb (lua_checkstack I L 2)); [reflexivity|].
  destruct (lua_type L index); try reflexivity.
  unfold luaL_getmetafield.
  destruct (index2value L index) as [v|]; [|reflexivity].
  destruct L as [st g]. cbn [globals].
  assert (Hcall : forall field,
    stack (default (mkState st g)
      (let '(status, L3, calls) :=
         lua_pcall1 I (lua_pushvalue (lua_push (mkState st g) field) index) 1 in
       match status with
       | LUA_OK =>
           (match lua_tolstring (lua_Number2str I) L3 (-1) with
            | Some result => result
            | None => "<tostring failed>"
            end, Some (lua_pop L3 1), calls)
       | LUA_ERR =>
           ("<" +:+ luaL_typename (lua_pop L3 1) index +:+ ">", Some (lua_pop L3 1), calls)
       end).1.2) = st).
  { intros field. unfold lua_pushvalue, lua_push, with_stack. cbn [stack globals].
    rewrite <- app_assoc. cbn [app]. rewrite lua_pcall1_top. cbv zeta.
    destruct (run_result (call I field _ g)); cbn [fst snd default Datatypes.id from_option];
      rewrite lua_pop_top; reflexivity. }
  destruct (metafield I g v "__tostring") eqn:Hm;
    cbn [type_of_value lua_Type_eqb negb fst snd default Datatypes.id from_option];
    try reflexivity; try apply Hcall.
Qed.

(** What the printing branch leaves on the stack when it returns. *)
Lemma ExecuteScriptInput_print_stack (I : Interp) (L : lua_State) :
  (ExecuteScriptInput_print I L).2 = false ->
  stack (ExecuteScriptInput_print I L).1.1 = [].
Proof.
  unfold ExecuteScriptInput_print.
  destruct (_ && _); [|reflexivity].
  destruct (lua_istable L (-1)).
  - destruct (lua_isfunction _ _); [|reflexivity].
    destruct (lua_pcall1 I _ 1) as [[status L3] calls].
    destruct status; reflexivity.
  - destruct (luaL_tolstring I L (-1)) as [[[str L1]|] calls]; [reflexivity|discriminate].
Qed.

(** X2. What an evaluation leaves on the C stack of the session.  When the
    expression form ran and the call returns, the stack is empty, whatever
    was on it before.  When both forms failed, both error objects have been
    popped and the stack is as it was found.  When the statement form ran,
    the values it returned are left on the stack. *)
Theorem evaluation_stack_discipline (I : Interp) (H : Host)
    (s : LuaScriptingInstance) (L : lua_State) (input : string) :
  m_luaState s = Some L ->
  let e := ExecuteScriptInput I H s input in
  let synced := UpdateMagicVariables H (set_inputReadyState s NotReadyForInput) in
  let first := load_run I ("return " +:+ input) (globals (state_of synced.1 L)) in
  let second := load_run I input (run_globals first) in
  match run_result first, run_result second with
  | Values _, _ =>
      completion e <> Escaped -> stack <$> m_luaState (instance e) = Some []
  | Failed _, Values vs => stack <$> m_luaState (instance e) = Some (stack L ++ vs)
  | Failed _, Failed _ => stack <$> m_luaState (instance e) = Some (stack L)
  end.
Proof.
  intros HL e synced first second.
  pose proof (UpdateMagicVariables_stack H (set_inputReadyState s NotReadyForInput) L HL)
    as Hst.
  subst e first second synced. unfold ExecuteScriptInput. rewrite HL.
  destruct (UpdateMagicVariables H (set_inputReadyState s NotReadyForInput))
    as [s2 refresh]. cbn [fst snd] in *.
  unfold luaL_dostring.
  destruct (load_run I ("return " +:+ input) (globals (state_of s2 L)))
    as [g1 calls1 res1]. cbn [run_result run_calls run_globals].
  destruct res1 as [vs1|err1].
  - pose proof (ExecuteScriptInput_print_stack I
                  (mkState (stack (state_of s2 L) ++ vs1) g1)) as Hp.
    destruct (run_result (load_run I input g1));
      destruct (ExecuteScriptInput_print I _) as [[L2 shown] escaped];
      cbn [fst snd] in Hp; destruct escaped; cbn [completion instance];
      intros Hc; try congruence;
      cbn [m_luaState set_inputReadyState set_luaState fmap option_fmap option_map];
      rewrite Hp; reflexivity.
  - rewrite lua_pop_top. cbn [globals stack].
    destruct (load_run I input g1) as [g2 calls2 res2].
    cbn [run_result run_calls run_globals].
    destruct res2 as [vs2|err2].
    + cbn [instance m_luaState set_inputReadyState set_luaState fmap option_fmap
           option_map stack].
      rewrite Hst. reflexivity.
    + pose proof (SafeToString_stack I (mkState (stack (state_of s2 L) ++ [err2]) g2) (-1))
        as Hs.
      destruct (SafeToString I _ (-1)) as [[error_msg L4] calls3].
      cbn [fst snd] in Hs.
      cbn [instance m_luaState set_inputReadyState set_luaState fmap option_fmap
           option_map].
      f_equal. unfold lua_pop, with_stack. cbn [stack]. rewrite Hs. cbn [stack].
      rewrite length_app. cbn [length].
      replace (length (stack (state_of s2 L)) + 1 - 1)%nat
        with (length (stack (state_of s2 L))) by lia.
      rewrite take_app_length. exact Hst.
Qed.

Lemma evaluation_stack_discipline_witness :
  m_luaState demo_session = Some (default (mkState [] ∅) (m_luaState demo_session)) /\
  stack <$> m_luaState
    (instance (ExecuteScriptInput demo_interp demo_host demo_session "nonexistent_fn()"))
  = Some [].
Proof.
  assert (HL : m_luaState demo_session =
               Some (default (mkState [] ∅) (m_luaState demo_session)))
    by (vm_compute; reflexivity).
  split; [exact HL|].
  pose proof (evaluation_stack_discipline demo_interp demo_host
                demo_session _ "nonexistent_fn()" HL) as Hc.
  exact Hc.
Defined.

(** ** What requests leave of a session *)

Lemma this_UpdateMagicVariables (H : Host) (s : LuaScriptingInstance) :
  this (UpdateMagicVariables H s).1 = this s.
Proof.
  unfold UpdateMagicVariables. destruct (m_luaState s); [|reflexivity].
  destruct (HasContextChanged s); [|reflexivity].
  destruct (UpdateMagicVariableValues_fields H s) as [L' HL'].
  destruct (UpdateMagicVariableValues H s) as [s1 t]. cbn [fst] in *. subst s1.
  reflexivity.
Qed.

(** Neither entry point touches the address of the session or its live
    context, and a session with a state still has one afterwards. *)
Lemma execution_preserves_session (I : Interp) (H : Host) (s : LuaScriptingInstance)
    (r : HostRequest) :
  match r with
  | ReqExecuteScriptInput _ | ReqExecuteScriptInputFromFilename _ =>
      live_snapshot (serve I H s r).1 = live_snapshot s
  | _ => True
  end /\
  this (serve I H s r).1 = this s /\
  (is_Some (m_luaState s) -> is_Some (m_luaState (serve I H s r).1)).
Proof.
  pose proof (UpdateMagicVariables_live H (set_inputReadyState s NotReadyForInput))
    as (Hlive & _ & _).
  pose proof (this_UpdateMagicVariables H (set_inputReadyState s NotReadyForInput))
    as Hthis.
  destruct r; cbn [serve fst]; try (split; [exact Logic.I|split; [reflexivity|intros Hs; exact Hs]]).
  - destruct (m_luaState s) as [L|] eqn:HL.
    + destruct (ExecuteScriptInput_shape I H s L input HL)
        as (L' & body & _ & [(He & _) | (r & He)]); rewrite He; cbn [instance];
        (split; [exact Hlive|split; [exact Hthis|intros _; eexists; reflexivity]]).
    + unfold ExecuteScriptInput. rewrite HL. cbn [instance].
      split; [reflexivity|split; [reflexivity|intros [? Hs]; discriminate Hs]].
  - destruct (m_luaState s) as [L|] eqn:HL.
    + destruct (ExecuteScriptInputFromFilename_shape I H s L filename HL)
        as (L' & r & report & He); rewrite He; cbn [instance];
        (split; [exact Hlive|split; [exact Hthis|intros _; eexists; reflexivity]]).
    + unfold ExecuteScriptInputFromFilename. rewrite HL. cbn [instance].
      split; [reflexivity|split; [reflexivity|intros [? Hs]; discriminate Hs]].
Qed.

(** X3. Whatever scripts do, an evaluation or the execution of a file
    leaves the six live context fields as the host set them; and through
    any sequence of requests the session keeps its address, and a session
    that has an interpreter state keeps having one. *)
Theorem requests_keep_state_and_context (I : Interp) (H : Host)
    (rs : list HostRequest) (s : LuaScriptingInstance) :
  (forall input,
     live_snapshot (instance (ExecuteScriptInput I H s input)) = live_snapshot s) /\
  (forall filename,
     live_snapshot (instance (ExecuteScriptInputFromFilename I H s filename)) =
     live_snapshot s) /\
  this (serve_all I H s rs).1 = this s /\
  (is_Some (m_luaState s) -> is_Some (m_luaState (serve_all I H s rs).1)).
Proof.
  split; [|split].
  - intros input.
    exact (proj1 (execution_preserves_session I H s (ReqExecuteScriptInput input))).
  - intros filename.
    exact (proj1 (execution_preserves_session I H s
                    (ReqExecuteScriptInputFromFilename filename))).
  - revert s. induction rs as [|r rs IH]; intros s.
    + split; [reflexivity|intros Hs; exact Hs].
    + cbn [serve_all].
      destruct (execution_preserves_session I H s r) as (_ & Ht & Hs).
      destruct (serve I H s r) as [s1 t1]. cbn [fst] in Ht, Hs.
      destruct (IH s1) as [Ht2 Hs2].
      destruct (serve_all I H s1 rs) as [s2 t2]. cbn [fst] in *.
      split; [congruence|intros Hx; apply Hs2, Hs, Hx].
Qed.

Lemma requests_keep_state_and_context_witness :
  is_Some (m_luaState demo_session) /\
  is_Some (m_luaState
    (serve_all demo_interp demo_host demo_session
       [ReqSetCurrentAddress 0x401000; ReqExecuteScriptInput "x = 5";
        ReqExecuteScriptInputFromFilename "script.lua"]).1).
Proof.
  assert (Hs : is_Some (m_luaState demo_session)) by (vm_compute; eexists; reflexivity).
  split; [exact Hs|].
  exact (proj2 (proj2 (proj2
           (requests_keep_state_and_context demo_interp demo_host
              [ReqSetCurrentAddress 0x401000; ReqExecuteScriptInput "x = 5";
               ReqExecuteScriptInputFromFilename "script.lua"] demo_session))) Hs).
Defined.

(** ** The setters and the change test *)

(** X4. On a session whose cache agrees with its live context, a setter
    makes [HasContextChanged] true exactly when the value it stores differs
    from the one the field held; for the selection, when either bound
    differs. *)
Theorem setter_marks_context_changed (s : LuaScriptingInstance) :
  HasContextChanged s = false ->
  (forall view, HasContextChanged (SetCurrentBinaryView s view) = true <->
                view <> m_currentBinaryView s) /\
  (forall func, HasContextChanged (SetCurrentFunction s func) = true <->
                func <> m_currentFunction s) /\
  (forall block, HasContextChanged (SetCurrentBasicBlock s block) = true <->
                 block <> m_currentBasicBlock s) /\
  (forall addr, HasContextChanged (SetCurrentAddress s addr) = true <->
                addr <> m_currentAddress s) /\
  (forall b e, HasContextChanged (SetCurrentSelection s b e) = true <->
               b <> m_selectionBegin s \/ e <> m_selectionEnd s).
Proof.
  intros Hc. apply HasContextChanged_false in Hc.
  unfold cached_snapshot, live_snapshot in Hc.
  injection Hc as Hv Hf Hb Ha Hsb Hse.
  unfold HasContextChanged, Ref_ne.
  repeat split; intros Hx;
    cbn [SetCurrentBinaryView SetCurrentFunction SetCurrentBasicBlock SetCurrentAddress
         SetCurrentSelection m_currentBinaryView m_currentFunction m_currentBasicBlock
         m_currentAddress m_selectionBegin m_selectionEnd m_lastCachedBinaryView
         m_lastCachedFunction m_lastCachedBasicBlock m_lastCachedAddress
         m_lastCachedSelectionBegin m_lastCachedSelectionEnd] in *;
    rewrite ?Hv, ?Hf, ?Hb, ?Ha, ?Hsb, ?Hse in *;
    rewrite ?(bool_decide_eq_true_2 (m_currentBinaryView s = m_currentBinaryView s)),
            ?(bool_decide_eq_true_2 (m_currentFunction s = m_currentFunction s)),
            ?(bool_decide_eq_true_2 (m_currentBasicBlock s = m_currentBasicBlock s)),
            ?Z.eqb_refl in * by reflexivity;
    cbn [negb orb] in *; rewrite ?orb_false_r in *.
  all: try (apply negb_true_iff, bool_decide_eq_false in Hx; exact Hx).
  all: try (apply negb_true_iff, bool_decide_eq_false; exact Hx).
  all: try (apply negb_true_iff, Z.eqb_neq in Hx; exact Hx).
  all: try (apply negb_true_iff, Z.eqb_neq; exact Hx).
  - apply orb_true_iff in Hx as [Hx|Hx]; apply negb_true_iff, Z.eqb_neq in Hx; tauto.
  - apply orb_true_iff. destruct Hx as [Hx|Hx]; [left|right];
      apply negb_true_iff, Z.eqb_neq; exact Hx.
Qed.

Lemma setter_marks_context_changed_witness :
  HasContextChanged demo_session = false /\
  (HasContextChanged (SetCurrentAddress demo_session 0x2000) = true <->
   0x2000 <> m_currentAddress demo_session).
Proof.
  assert (Hc : HasContextChanged demo_session = false) by (vm_compute; reflexivity).
  split; [exact Hc|].
  pose proof (setter_marks_context_changed demo_session Hc) as (_ & _ & _ & Ha & _).
  exact (Ha 0x2000).
Defined.

(** ** Closing the session *)

(** X5. [CleanupLuaState] closes the interpreter state of the session if it
    has one and clears the pointer, so a second call closes nothing and
    changes nothing; the context fields are untouched; and afterwards both
    entry points reject every input without running anything. *)
Theorem CleanupLuaState_closes_once (s : LuaScriptingInstance) :
  let closed := CleanupLuaState s in
  m_luaState closed.1 = None /\
  closed.2 = match m_luaState s with Some L => [L] | None => [] end /\
  CleanupLuaState closed.1 = (closed.1, []) /\
  live_snapshot closed.1 = live_snapshot s /\
  cached_snapshot closed.1 = cached_snapshot s /\
  forall (I : Interp) (H : Host) (x : string),
    ExecuteScriptInput I H closed.1 x =
      mkExecution (Returned InvalidScriptInput) closed.1
        [LogError "ExecuteScriptInput called with uninitialized Lua state";
         Error "Lua state not initialized"] /\
    ExecuteScriptInputFromFilename I H closed.1 x =
      mkExecution (Returned InvalidScriptInput) closed.1
        [LogError "ExecuteScriptInputFromFilename called with uninitialized Lua state";
         Error "Lua state not initialized"].
Proof.
  cbn zeta. unfold CleanupLuaState.
  destruct (m_luaState s) as [L|] eqn:HL; cbn [fst snd].
  - do 5 (split; [reflexivity|]). intros I H x. split; reflexivity.
  - split; [exact HL|]. split; [reflexivity|]. split; [rewrite HL; reflexivity|].
    do 2 (split; [reflexivity|]). intros I H x. split.
    + unfold ExecuteScriptInput. rewrite HL. reflexivity.
    + unfold ExecuteScriptInputFromFilename. rewrite HL. reflexivity.
Qed.

(** ** The output functions of a script *)






(** ** Opening a session *)

(** The globals the constructor installs before the bindings. *)
Lemma LuaScriptingInstance_new_open (I : Interp) (H : Host) (self : pointer)
    (L0 : lua_State) :
  luaL_newstate I = Some L0 ->
  let L4 :=
    lua_setglobal
      (lua_setglobal
         (lua_setglobal
            (lua_setglobal L0 "__binja_instance" (LLightUserdata self))
            "print" (LCFunction CLuaPrint))
         "error" (LCFunction CLuaError))
      "warn" (LCFunction CLuaWarn) in
  let registered := RegisterAllBindings H L4 in
  LuaScriptingInstance_new I H self =
  match registered.2 with
  | Ok _ =>
      (mkInstance self (Some (SetupUtilityFunctions I registered.1).1) None None None
         0 0 0 ReadyForScriptProgramInput None None None 0 0 0,
       ([LogDebug "SetupBindings - starting"; LogDebug "SetupBindings - bindings registered"]
        ++ (SetupUtilityFunctions I registered.1).2 ++
        [LogDebug "Context unchanged, skipping magic variable update"] ++
        [LogDebug "SetupBindings - completed"]) ++
       [InputReadyStateChanged ReadyForScriptProgramInput])
  | Throw what =>
      (mkInstance self (Some registered.1) None None None
         0 0 0 ReadyForScriptProgramInput None None None 0 0 0,
       [LogDebug "SetupBindings - starting";
        LogError ("SetupBindings failed: " +:+ default "Unknown error occurred" what)] ++
       [InputReadyStateChanged ReadyForScriptProgramInput])
  end.
Proof.
  intros Hnew L4 registered. subst registered L4.
  unfold LuaScriptingInstance_new, InitializeLuaState. rewrite Hnew.
  cbn [this]. unfold SetupBindings. cbn [m_luaState set_luaState].
  destruct (RegisterAllBindings H _) as [L1 [[]|[what|]]]; cbn [fst snd];
    [|reflexivity|reflexivity].
  destruct (SetupUtilityFunctions I L1) as [L2 t]. reflexivity.
Qed.

Lemma readiness_SetupUtilityFunctions (I : Interp) (L : lua_State) :
  readiness (SetupUtilityFunctions I L).2 = [].
Proof.
  unfold SetupUtilityFunctions.
  destruct (negb (lua_isnil (lua_getglobal L "dump") (-1))); [reflexivity|].
  destruct (luaL_dostring I L dumpCode) as [[result Ld] calls].
  destruct result; cbn [snd].
  - apply readiness_script_events.
  - rewrite readiness_app, readiness_script_events. reflexivity.
Qed.

(** X7. Opening a session whose interpreter state can be created: the
    state is the one the registration of the bindings and of the utility
    functions left; the session starts with no context and a cache that
    agrees with it, so the refresh that ends [SetupBindings] is skipped, and
    so is the one of a first evaluation: the first input runs on the
    globals as registered, no magic variable having been assigned by the
    session.  Exactly one readiness notification is sent, ready, as the
    last event of the constructor. *)
Theorem session_open_skips_refresh (I : Interp) (H : Host) (self : pointer)
    (L0 : lua_State) :
  luaL_newstate I = Some L0 ->
  let L4 :=
    lua_setglobal
      (lua_setglobal
         (lua_setglobal
            (lua_setglobal L0 "__binja_instance" (LLightUserdata self))
            "print" (LCFunction CLuaPrint))
         "error" (LCFunction CLuaError))
      "warn" (LCFunction CLuaWarn) in
  let registered := RegisterAllBindings H L4 in
  let Lopen :=
    match registered.2 with
    | Ok _ => (SetupUtilityFunctions I registered.1).1
    | Throw _ => registered.1
    end in
  let opened := LuaScriptingInstance_new I H self in
  opened.1 = mkInstance self (Some Lopen) None None None 0 0 0 ReadyForScriptProgramInput
               None None None 0 0 0 /\
  HasContextChanged opened.1 = false /\
  readiness opened.2 = [ReadyForScriptProgramInput] /\
  last opened.2 = Some (InputReadyStateChanged ReadyForScriptProgramInput) /\
  forall input, exists rest,
    trace (ExecuteScriptInput I H opened.1 input) =
      [LogDebug ("ExecuteScriptInput: " +:+ input);
       InputReadyStateChanged NotReadyForInput;
       LogDebug "Context unchanged, skipping magic variable update"] ++
      script_events (run_calls (load_run I ("return " +:+ input) (globals Lopen))) ++ rest.
Proof.
  intros Hnew L4 registered Lopen opened.
  pose proof (LuaScriptingInstance_new_open I H self L0 Hnew) as Ho.
  cbv zeta in Ho. fold L4 in Ho. fold registered in Ho. fold opened in Ho.
  assert (Hs : opened.1 = mkInstance self (Some Lopen) None None None 0 0 0
                            ReadyForScriptProgramInput None None None 0 0 0).
  { rewrite Ho. subst Lopen. destruct (registered.2); reflexivity. }
  split; [exact Hs|]. split; [rewrite Hs; reflexivity|].
  split; [|split].
  - rewrite Ho. destruct (registered.2); cbn [snd]; [|reflexivity].
    rewrite !readiness_app, readiness_SetupUtilityFunctions. reflexivity.
  - rewrite Ho. destruct (registered.2); cbn [snd]; apply last_snoc.
  - intros input. rewrite Hs.
    match goal with
    | |- context [ExecuteScriptInput I H ?s0 input] =>
        destruct (ExecuteScriptInput_shape I H s0 Lopen input eq_refl)
          as (L' & body & _ & [(He & _) | (r & He)]); rewrite He; cbn [trace]
    end.
    + eexists. reflexivity.
    + eexists. rewrite <- !app_assoc. reflexivity.
Qed.

Lemma session_open_skips_refresh_witness :
  luaL_newstate demo_interp = Some (mkState [] demo_globals) /\
  trace (ExecuteScriptInput demo_interp demo_host
           (LuaScriptingInstance_new demo_interp demo_host 99%positive).1 "here") !! 2%nat
  = Some (LogDebug "Context unchanged, skipping magic variable update").
Proof.
  split; [reflexivity|].
  pose proof (session_open_skips_refresh demo_interp demo_host 99%positive _ eq_refl)
    as (_ & _ & _ & _ & Hrun).
  destruct (Hrun "here") as [rest Hrest]. rewrite Hrest. reflexivity.
Defined.

(** X8. When the registration of the bindings throws at session open, the
    exception is caught and logged, and the session goes on: the failure is
    the last line logged, the ready notification follows it as the last
    event of the constructor, and the session is ready, with the state as
    the registration left it and a cache that agrees with its context.
    The utility functions are not registered then. *)
Theorem binding_failure_is_only_logged (I : Interp) (H : Host) (self : pointer)
    (L0 : lua_State) (what : option string) :
  luaL_newstate I = Some L0 ->
  let L4 :=
    lua_setglobal
      (lua_setglobal
         (lua_setglobal
            (lua_setglobal L0 "__binja_instance" (LLightUserdata self))
            "print" (LCFunction CLuaPrint))
         "error" (LCFunction CLuaError))
      "warn" (LCFunction CLuaWarn) in
  (RegisterAllBindings H L4).2 = Throw what ->
  let opened := LuaScriptingInstance_new I H self in
  (exists registration,
     opened.2 =
       [LogDebug "SetupBindings - starting"] ++ registration ++
       [LogError ("SetupBindings failed: " +:+ default "Unknown error occurred" what);
        InputReadyStateChanged ReadyForScriptProgramInput]) /\
  m_luaState opened.1 = Some (RegisterAllBindings H L4).1 /\
  m_inputReadyState opened.1 = ReadyForScriptProgramInput /\
  HasContextChanged opened.1 = false.
Proof.
  intros Hnew L4 Hthrow opened.
  pose proof (LuaScriptingInstance_new_open I H self L0 Hnew) as Ho.
  cbv zeta in Ho. fold L4 in Ho. fold opened in Ho. rewrite Hthrow in Ho.
  rewrite Ho. split; [exists []; reflexivity|]. repeat split.
Qed.

Lemma binding_failure_is_only_logged_witness :
  luaL_newstate demo_interp = Some (mkState [] demo_globals) /\
  (RegisterAllBindings unregistered_host
     (lua_setglobal
        (lua_setglobal
           (lua_setglobal
              (lua_setglobal (mkState [] demo_globals) "__binja_instance"
                 (LLightUserdata 99%positive))
              "print" (LCFunction CLuaPrint))
           "error" (LCFunction CLuaError))
        "warn" (LCFunction CLuaWarn))).2 = Throw (Some "usertype already registered") /\
  m_inputReadyState (LuaScriptingInstance_new demo_interp unregistered_host 99%positive).1 =
    ReadyForScriptProgramInput.
Proof.
  split; [reflexivity|]. split; [reflexivity|].
  pose proof (binding_failure_is_only_logged demo_interp unregistered_host 99%positive
                _ (Some "usertype already registered") eq_refl eq_refl)
    as (_ & _ & Hready & _).
  exact Hready.
Defined.

(** ** The utility functions *)

Lemma lua_isnil_getglobal (L : lua_State) (name : string) :
  lua_isnil (lua_getglobal L name) (-1) =
  match globals L !! name with
  | None | Some LNil => true
  | Some _ => false
  end.
Proof.
  unfold lua_isnil, lua_type, lua_getglobal, lua_push, with_stack.
  destruct L as [st g]. cbn [stack globals]. rewrite index2value_top.
  destruct (g !! name) as [[]|]; reflexivity.
Qed.

(** X9. [SetupUtilityFunctions] always binds [get_selected_data] and
    [write_at_cursor].  Where [dump] is already bound to something other
    than nil it runs no code, logs nothing and leaves [dump] and the stack
    alone.  Otherwise it runs the definition of [dump]: when that fails the
    error object is popped and the failure is only logged, so the session
    goes on without [dump]. *)
Theorem SetupUtilityFunctions_registers (I : Interp) (L : lua_State) :
  let r := SetupUtilityFunctions I L in
  globals r.1 !! "get_selected_data" = Some (LCFunction Cget_selected_data) /\
  globals r.1 !! "write_at_cursor" = Some (LCFunction Cwrite_at_cursor) /\
  (forall v, globals L !! "dump" = Some v -> v <> LNil ->
     r.2 = [] /\ stack r.1 = stack L /\ globals r.1 !! "dump" = Some v) /\
  (default LNil (globals L !! "dump") = LNil ->
     let run := load_run I dumpCode (globals L) in
     match run_result run with
     | Values vs =>
         r.2 = script_events (run_calls run) /\ stack r.1 = stack L ++ vs /\
         globals r.1 !! "dump" = run_globals run !! "dump"
     | Failed err =>
         r.2 = script_events (run_calls run) ++
               [LogError ("Failed to register dump function: " +:+
                          default "" (text_of (lua_Number2str I) (Some err)))] /\
         stack r.1 = stack L /\
         error_messages r.2 = error_messages (script_events (run_calls run))
     end).
Proof.
  cbn zeta. unfold SetupUtilityFunctions. rewrite lua_isnil_getglobal.
  split; [|split; [|split]].
  - destruct (negb _); [|destruct (luaL_dostring I L dumpCode) as [[[] Ld] calls]];
      cbn [fst lua_setglobal with_globals globals]; read_global; reflexivity.
  - destruct (negb _); [|destruct (luaL_dostring I L dumpCode) as [[[] Ld] calls]];
      cbn [fst lua_setglobal with_globals globals]; read_global; reflexivity.
  - intros v Hv Hnil. rewrite Hv.
    destruct v; try (exfalso; apply Hnil; reflexivity);
      cbn [negb fst snd lua_setglobal with_globals globals stack];
      (split; [reflexivity|split; [reflexivity|]]); read_global; exact Hv.
  - intros Hnil.
    assert (Hd : negb match globals L !! "dump" with
                      | None | Some LNil => true
                      | Some _ => false
                      end = false).
    { destruct (globals L !! "dump") as [v|]; [|reflexivity].
      cbn [default Datatypes.id from_option] in Hnil. subst v. reflexivity. }
    rewrite Hd. unfold luaL_dostring.
    destruct (load_run I dumpCode (globals L)) as [g calls res].
    cbn [run_result run_calls run_globals].
    destruct res as [vs|err].
    + cbn [fst snd lua_setglobal with_globals globals stack].
      split; [reflexivity|split; [reflexivity|]]. read_global. reflexivity.
    + rewrite lua_tolstring_top, lua_pop_top.
      cbn [fst snd lua_setglobal with_globals globals stack].
      split; [reflexivity|split; [reflexivity|]].
      rewrite error_messages_app. cbn [error_messages omap]. apply app_nil_r.
Qed.

Lemma SetupUtilityFunctions_registers_witness :
  demo_globals !! "dump" = Some (LFunction 1) /\
  LFunction 1 <> LNil /\
  (SetupUtilityFunctions failing_interp (mkState [] demo_globals)).2 = [].
Proof.
  split; [reflexivity|]. split; [discriminate|].
  pose proof (SetupUtilityFunctions_registers failing_interp (mkState [] demo_globals))
    as (_ & _ & Hkeep & _).
  exact (proj1 (Hkeep (LFunction 1) eq_refl ltac:(discriminate))).
Defined.

(** X10. [write_at_cursor], found in a session whose global
    [__binja_instance] holds its address: with a current view and a first
    argument that is a string or a number it asks the view for exactly one
    write, of that text at the start of the selection, and returns whether
    all of it was written; in every other case it returns false and writes
    nothing.  The current address and the end of the selection play no
    part. *)
Theorem write_at_cursor_writes_at_selection_begin
    (WriteBuffer : BNHandle -> Z -> string -> Z) (float_text : float -> string)
    (s : LuaScriptingInstance) (L : lua_State) :
  globals L !! "__binja_instance" = Some (LLightUserdata (this s)) ->
  write_at_cursor WriteBuffer float_text s L =
    match m_currentBinaryView s, lua_tolstring float_text L 1 with
    | Some view, Some data =>
        Some (WriteBuffer view (m_selectionBegin s) data =? Z.of_nat (String.length data),
              [mkHostWrite view (m_selectionBegin s) data])
    | _, _ => Some (false, [])
    end /\
  (forall addr e,
     write_at_cursor WriteBuffer float_text
       (SetCurrentSelection (SetCurrentAddress s addr) (m_selectionBegin s) e) L =
     write_at_cursor WriteBuffer float_text s L).
Proof.
  intros Hi. split.
  - unfold write_at_cursor. rewrite Hi. cbn [default Datatypes.id from_option lua_touserdata].
    rewrite bool_decide_eq_true_2 by reflexivity.
    destruct (lua_gettop L <? 1) eqn:Htop; [|reflexivity].
    assert (Hnone : lua_tolstring float_text L 1 = None).
    { unfold lua_tolstring, index2value, lua_absindex, lua_gettop in *.
      apply Z.ltb_lt in Htop. cbn.
      rewrite lookup_ge_None_2 by lia. reflexivity. }
    rewrite Hnone. destruct (m_currentBinaryView s); reflexivity.
  - intros addr e. reflexivity.
Qed.

Lemma write_at_cursor_writes_at_selection_begin_witness :
  let s := SetCurrentSelection (SetCurrentBinaryView demo_session (Some 1%positive))
             0x401000 0x401004 in
  let L := mkState [LString "ABCD"] {[ "__binja_instance" := LLightUserdata 99%positive ]} in
  globals L !! "__binja_instance" = Some (LLightUserdata (this s)) /\
  write_at_cursor (fun _ _ data => Z.of_nat (String.length data)) (fun _ => "?") s L =
    Some (true, [mkHostWrite 1%positive 0x401000 "ABCD"]).
Proof.
  cbn zeta.
  assert (Hi : globals (mkState [LString "ABCD"]
                          {[ "__binja_instance" := LLightUserdata 99%positive ]})
               !! "__binja_instance" =
               Some (LLightUserdata
                       (this (SetCurrentSelection
                                (SetCurrentBinaryView demo_session (Some 1%positive))
                                0x401000 0x401004))))
    by (vm_compute; reflexivity).
  split; [exact Hi|].
  rewrite (proj1 (write_at_cursor_writes_at_selection_begin
                    (fun _ _ data => Z.of_nat (String.length data)) (fun _ => "?")
                    _ _ Hi)).
  reflexivity.
Defined.

(** ** The plugin command *)

Lemma GetLuaProvider_loop_spec (providers : list string) (i0 : nat) :
  match (GetLuaProvider_loop providers i0).1 with
  | Some i =>
      exists k, i = (i0 + k)%nat /\ providers !! k = Some "Lua" /\
                (forall j name, (j < k)%nat -> providers !! j = Some name -> name <> "Lua") /\
                length (GetLuaProvider_loop providers i0).2 = (k + 2)%nat
  | None =>
      Forall (fun name => name <> "Lua") providers /\
      length (GetLuaProvider_loop providers i0).2 = length providers
  end /\
  readiness (GetLuaProvider_loop providers i0).2 = [] /\
  outputs (GetLuaProvider_loop providers i0).2 = [] /\
  error_messages (GetLuaProvider_loop providers i0).2 = [].
Proof.
  revert i0. induction providers as [|name rest IH]; intros i0.
  - cbn. repeat split. constructor.
  - cbn [GetLuaProvider_loop].
    destruct (String.eqb name "Lua") eqn:Hname.
    + apply String.eqb_eq in Hname. subst name. cbn [fst snd].
      split; [|repeat split].
      exists 0%nat. split; [lia|]. split; [reflexivity|]. split; [|reflexivity].
      intros j name Hj. lia.
    + apply String.eqb_neq in Hname.
      specialize (IH (S i0)).
      destruct (GetLuaProvider_loop rest (S i0)) as [found t]. cbn [fst snd] in *.
      destruct IH as (IH & Hr & Ho & He).
      split; [|repeat split; assumption].
      destruct found as [i|].
      * destruct IH as (k & -> & Hk & Hbefore & Hlen).
        exists (S k). split; [lia|]. split; [exact Hk|]. split.
        { intros [|j] n Hj Hn.
          - cbn in Hn. congruence.
          - apply (Hbefore j n); [lia|exact Hn]. }
        cbn [length]. lia.
      * destruct IH as [Hall Hlen]. split; [constructor; assumption|].
        cbn [length]. lia.
Qed.

Lemma GetLuaProvider_loop_last (providers : list string) (i0 : nat) :
  forall i, (GetLuaProvider_loop providers i0).1 = Some i ->
  last (GetLuaProvider_loop providers i0).2 =
  Some (LogInfo "Successfully found Lua scripting provider").
Proof.
  revert i0. induction providers as [|name rest IH]; intros i0 i.
  - discriminate.
  - cbn [GetLuaProvider_loop]. destruct (String.eqb name "Lua"); [reflexivity|].
    specialize (IH (S i0) i).
    destruct (GetLuaProvider_loop rest (S i0)) as [found t]. cbn [fst snd] in *.
    intros Hf. specialize (IH Hf).
    destruct t as [|e t]; [discriminate IH|]. exact IH.
Qed.

Lemma GetLuaProvider_only_logs (providers : list string) :
  readiness (GetLuaProvider providers).2 = [] /\
  outputs (GetLuaProvider providers).2 = [] /\
  error_messages (GetLuaProvider providers).2 = [].
Proof.
  unfold GetLuaProvider.
  pose proof (GetLuaProvider_loop_spec providers 0) as (_ & Hr & Ho & He).
  destruct (GetLuaProvider_loop providers 0) as [found t]. cbn [fst snd] in *.
  rewrite !readiness_app, !outputs_app, !error_messages_app, Hr, Ho, He.
  destruct found; repeat split.
Qed.

(** X11. [GetLuaProvider] returns the first provider whose name is [Lua]
    and looks no further: one line is logged for each provider up to and
    including it.  When no provider has that name it returns none, after a
    line for every provider, and logs an error.  It only ever logs. *)
Theorem GetLuaProvider_finds_first_Lua (providers : list string) :
  let r := GetLuaProvider providers in
  match r.1 with
  | Some i =>
      providers !! i = Some "Lua" /\
      (forall j name, (j < i)%nat -> providers !! j = Some name -> name <> "Lua") /\
      length r.2 = (i + 3)%nat /\
      last r.2 = Some (LogInfo "Successfully found Lua scripting provider")
  | None =>
      Forall (fun name => name <> "Lua") providers /\
      length r.2 = (length providers + 2)%nat /\
      last r.2 =
        Some (LogError ("Lua scripting provider not found in " +:+
                        pretty (Z.of_nat (length providers)) +:+ " available providers"))
  end /\
  readiness r.2 = [] /\ outputs r.2 = [] /\ error_messages r.2 = [].
Proof.
  cbn zeta. unfold GetLuaProvider.
  pose proof (GetLuaProvider_loop_spec providers 0) as (Hloop & Hr & Ho & He).
  pose proof (GetLuaProvider_loop_last providers 0) as Hlast.
  destruct (GetLuaProvider_loop providers 0) as [found t]. cbn [fst snd] in *.
  split.
  - destruct found as [i|].
    + destruct Hloop as (k & -> & Hk & Hbefore & Hlen).
      split; [exact Hk|]. split; [exact Hbefore|]. split.
      * cbn [app length]. rewrite length_app, Hlen. cbn [length]. lia.
      * rewrite app_nil_r. cbn [app]. specialize (Hlast _ eq_refl).
        destruct t as [|e t]; [discriminate Hlast|exact Hlast].
    + destruct Hloop as [Hall Hlen]. split; [exact Hall|]. split.
      * cbn [app length]. rewrite length_app, Hlen. cbn [length]. lia.
      * rewrite app_assoc. apply last_snoc.
  - rewrite !readiness_app, !outputs_app, !error_messages_app, Hr, Ho, He.
    destruct found; repeat split.
Qed.

(** The refresh of a changed context binds [bv] and [current_view] to the
    current view, whatever the host answers. *)
Lemma refresh_binds_view (H : Host) (s : LuaScriptingInstance) (L : lua_State) :
  m_luaState s = Some L -> HasContextChanged s = true ->
  let g := globals (state_of (UpdateMagicVariables H s).1 L) in
  g !! "bv" = Some (push_ref UBinaryView (m_currentBinaryView s)) /\
  g !! "current_view" = Some (push_ref UBinaryView (m_currentBinaryView s)).
Proof.
  intros HL Hc. cbn zeta. unfold UpdateMagicVariables. rewrite HL, Hc.
  unfold UpdateMagicVariableValues. rewrite HL.
  pose proof (UpdateMagicVariableValues_try_flat H s (globals L)) as Hflat.
  destruct (UpdateMagicVariableValues_try H s (globals L)) as [g r].
  cbn [fst state_of UpdateContextCache set_luaState m_luaState default Datatypes.id
       from_option with_globals globals].
  assert (Hg : g = (g, r).1) by reflexivity. rewrite Hg, Hflat. clear Hg Hflat.
  split_outcomes H s; cbn [fst push_ref]; split; read_global; reflexivity.
Qed.

(** X12. [RunLuaScriptCommand] runs the chosen file's text as an input of a
    session of its own, created for the purpose and given the view.  It
    does so only when a provider named [Lua] is registered, the user chose
    a file and the file could be opened; otherwise it only logs.  When the
    interpreter state of the new session can be created, the input is
    evaluated with [bv] and [current_view] bound to the view, whatever the
    host answers to the other queries of the refresh.  When the session
    returns a result other than success, that is logged as the last line. *)
Theorem RunLuaScriptCommand_runs_file_on_view (I : Interp) (H : Host) (self : pointer)
    (providers : list string) (chosen content : option string) (view : BNHandle) :
  let r := RunLuaScriptCommand I H self providers chosen content (Some view) in
  match (GetLuaProvider providers).1, chosen, content with
  | Some _, Some filename, Some script_content =>
      let session := SetCurrentBinaryView (LuaScriptingInstance_new I H self).1 (Some view) in
      let e := ExecuteScriptInput I H session script_content in
      r.1 = Some e /\
      (forall result, completion e = Returned result ->
         result <> SuccessfulScriptExecution ->
         last r.2 = Some (LogError "Script execution failed")) /\
      (is_Some (luaL_newstate I) ->
         exists g before rest,
           g !! "bv" = Some (LUserdata (UBinaryView view)) /\
           g !! "current_view" = Some (LUserdata (UBinaryView view)) /\
           r.2 = before ++
                 script_events (run_calls (load_run I ("return " +:+ script_content) g)) ++
                 rest)
  | _, _, _ =>
      r.1 = None /\ readiness r.2 = [] /\ outputs r.2 = [] /\ error_messages r.2 = []
  end.
Proof.
  cbn zeta. unfold RunLuaScriptCommand.
  pose proof (GetLuaProvider_only_logs providers) as (Hr & Ho & He).
  destruct (GetLuaProvider providers) as [provider t0]. cbn [fst snd] in *.
  destruct provider as [i|].
  2: { cbn [fst snd]. split; [reflexivity|].
       rewrite readiness_app, outputs_app, error_messages_app, Hr, Ho, He. repeat split. }
  destruct chosen as [filename|]; [|cbn [fst snd]; repeat split; assumption].
  destruct content as [script_content|].
  2: { cbn [fst snd]. split; [reflexivity|].
       rewrite readiness_app, outputs_app, error_messages_app, Hr, Ho, He. repeat split. }
  destruct (LuaScriptingInstance_new I H self) as [instance0 t1] eqn:Hnew.
  cbn [fst snd]. split; [reflexivity|]. split.
  - intros result Hres Hne. rewrite Hres.
    destruct result; try (exfalso; apply Hne; reflexivity);
      rewrite !app_assoc; apply last_snoc.
  - intros [L0 HL0].
    pose proof (LuaScriptingInstance_new_open I H self L0 HL0) as Hopen.
    cbv zeta in Hopen. rewrite Hnew in Hopen.
    assert (Hs : exists Lopen,
              instance0 = mkInstance self (Some Lopen) None None None 0 0 0
                            ReadyForScriptProgramInput None None None 0 0 0).
    { destruct (RegisterAllBindings H _).2; injection Hopen as -> _; eexists; reflexivity. }
    destruct Hs as [Lopen ->].
    set (session := SetCurrentBinaryView _ (Some view)).
    assert (HL : m_luaState session = Some Lopen) by reflexivity.
    destruct (refresh_binds_view H (set_inputReadyState session NotReadyForInput) Lopen
                eq_refl eq_refl) as [Hbv Hcv].
    exists (globals (state_of
              (UpdateMagicVariables H (set_inputReadyState session NotReadyForInput)).1
              Lopen)).
    destruct (ExecuteScriptInput_shape I H session Lopen script_content HL)
      as (L' & body & _ & [(Hx & _) | (res & Hx)]); rewrite Hx; cbn [trace completion].
    + exists (t0 ++ [LogInfo ("Executing Lua script: " +:+ filename)] ++ t1 ++
              [LogDebug ("ExecuteScriptInput: " +:+ script_content);
               InputReadyStateChanged NotReadyForInput] ++
              (UpdateMagicVariables H (set_inputReadyState session NotReadyForInput)).2),
             (body ++ []).
      split; [exact Hbv|]. split; [exact Hcv|].
      repeat rewrite <- app_assoc. reflexivity.
    + exists (t0 ++ [LogInfo ("Executing Lua script: " +:+ filename)] ++ t1 ++
              [LogDebug ("ExecuteScriptInput: " +:+ script_content);
               InputReadyStateChanged NotReadyForInput] ++
              (UpdateMagicVariables H (set_inputReadyState session NotReadyForInput)).2),
             (body ++ [InputReadyStateChanged ReadyForScriptProgramInput] ++
              match res with
              | SuccessfulScriptExecution => []
              | _ => [LogError "Script execution failed"]
              end).
      split; [exact Hbv|]. split; [exact Hcv|].
      repeat rewrite <- app_assoc. reflexivity.
Qed.

Lemma RunLuaScriptCommand_runs_file_on_view_witness :
  let r := RunLuaScriptCommand demo_interp demo_host 99%positive ["Python"; "Lua"]
             (Some "script.lua") (Some "nonexistent_fn()") (Some 1%positive) in
  completion (ExecuteScriptInput demo_interp demo_host
                (SetCurrentBinaryView
                   (LuaScriptingInstance_new demo_interp demo_host 99%positive).1
                   (Some 1%positive))
                "nonexistent_fn()") = Returned InvalidScriptInput /\
  InvalidScriptInput <> SuccessfulScriptExecution /\
  last r.2 = Some (LogError "Script execution failed").
Proof.
  cbn zeta.
  assert (Hc : completion
                 (ExecuteScriptInput demo_interp demo_host
                    (SetCurrentBinaryView
                       (LuaScriptingInstance_new demo_interp demo_host 99%positive).1
                       (Some 1%positive))
                    "nonexistent_fn()") = Returned InvalidScriptInput)
    by (vm_compute; reflexivity).
  assert (Hne : InvalidScriptInput <> SuccessfulScriptExecution) by discriminate.
  split; [exact Hc|]. split; [exact Hne|].
  pose proof (RunLuaScriptCommand_runs_file_on_view demo_interp demo_host 99%positive
                ["Python"; "Lua"] (Some "script.lua") (Some "nonexistent_fn()") 1%positive)
    as Hrun.
  cbn zeta in Hrun.
  change (GetLuaProvider ["Python"; "Lua"]).1 with (Some 1%nat) in Hrun.
  cbv beta iota in Hrun.
  destruct Hrun as (_ & Hlast & _).
  exact (Hlast _ Hc Hne).
Defined.

(** ** An input that is no expression *)

Lemma outputs_UpdateMagicVariables (H : Host) (s : LuaScriptingInstance) :
  outputs (UpdateMagicVariables H s).2 = [].
Proof.
  unfold UpdateMagicVariables. destruct (m_luaState s) as [L|] eqn:HL; [|reflexivity].
  destruct (HasContextChanged s); [|reflexivity].
  unfold UpdateMagicVariableValues. rewrite HL.
  destruct (UpdateMagicVariableValues_try H s (globals L)) as [g r].
  destruct r as [?|[?|]]; reflexivity.
Qed.

(** X13. An input whose expression form fails, whether it does not compile
    or fails while it runs, is run a second time as a statement, on the
    globals the failed run left: the output calls of both runs are in the
    trace, those of the failed run first.  When the statement form
    succeeds the call succeeds, the session keeps the globals it left, and
    the output channel has received what the two runs printed and nothing
    else. *)
Theorem failed_expression_form_runs_again_as_statement (I : Interp) (H : Host)
    (s : LuaScriptingInstance) (L : lua_State) (input : string) (err : LuaValue) :
  m_luaState s = Some L ->
  let synced := UpdateMagicVariables H (set_inputReadyState s NotReadyForInput) in
  let first := load_run I ("return " +:+ input) (globals (state_of synced.1 L)) in
  let second := load_run I input (run_globals first) in
  run_result first = Failed err ->
  let e := ExecuteScriptInput I H s input in
  (exists rest,
     trace e =
       [LogDebug ("ExecuteScriptInput: " +:+ input);
        InputReadyStateChanged NotReadyForInput] ++ synced.2 ++
       script_events (run_calls first) ++ script_events (run_calls second) ++ rest) /\
  (forall vs, run_result second = Values vs ->
     completion e = Returned SuccessfulScriptExecution /\
     globals <$> m_luaState (instance e) = Some (run_globals second) /\
     outputs (trace e) =
       outputs (script_events (run_calls first)) ++
       outputs (script_events (run_calls second))).
Proof.
  intros HL. cbv zeta. intros H1.
  pose proof (outputs_UpdateMagicVariables H (set_inputReadyState s NotReadyForInput))
    as Ho.
  unfold ExecuteScriptInput. rewrite HL.
  destruct (UpdateMagicVariables H (set_inputReadyState s NotReadyForInput))
    as [s2 refresh]. cbn [fst snd] in *.
  destruct (state_of s2 L) as [st g]. cbn [stack globals] in *.
  unfold luaL_dostring. cbn [stack globals]. rewrite H1.
  rewrite lua_pop_top. cbn [stack globals].
  destruct (load_run I input (run_globals (load_run I ("return " +:+ input) g)))
    as [g2 calls2 res2]. cbn [run_result run_calls run_globals].
  destruct res2 as [vs2|err2].
  - cbn [completion trace instance fst snd]. split.
    + eexists. rewrite <- !app_assoc. reflexivity.
    + intros vs _. split; [reflexivity|]. split; [reflexivity|].
      rewrite !outputs_app, Ho. cbn [outputs omap app]. rewrite app_nil_r. reflexivity.
  - destruct (SafeToString I _ (-1)) as [[error_msg L4] calls3].
    cbn [completion trace instance fst snd]. split.
    + eexists. rewrite <- !app_assoc. reflexivity.
    + intros vs Hx. discriminate Hx.
Qed.

Lemma failed_expression_form_runs_again_as_statement_witness :
  m_luaState demo_session = Some (default (mkState [] ∅) (m_luaState demo_session)) /\
  run_result
    (load_run demo_interp "return x = 5"
       (globals (state_of
                   (UpdateMagicVariables demo_host
                      (set_inputReadyState demo_session NotReadyForInput)).1
                   (default (mkState [] ∅) (m_luaState demo_session))))) =
    Failed (LString "syntax error") /\
  completion (ExecuteScriptInput demo_interp demo_host demo_session "x = 5") =
    Returned SuccessfulScriptExecution.
Proof.
  assert (HL : m_luaState demo_session =
               Some (default (mkState [] ∅) (m_luaState demo_session)))
    by (vm_compute; reflexivity).
  assert (H1 : run_result
    (load_run demo_interp ("return " +:+ "x = 5")
       (globals (state_of
                   (UpdateMagicVariables demo_host
                      (set_inputReadyState demo_session NotReadyForInput)).1
                   (default (mkState [] ∅) (m_luaState demo_session))))) =
    Failed (LString "syntax error")) by (vm_compute; reflexivity).
  split; [exact HL|]. split; [exact H1|].
  pose proof (failed_expression_form_runs_again_as_statement demo_interp demo_host
                demo_session _ "x = 5" _ HL H1) as [_ Hok].
  exact (proj1 (Hok [] ltac:(vm_compute; reflexivity))).
Defined.

(** * Further properties of the bindings *)

(** ** Address arithmetic *)

Lemma int64_low (z : Z) : 0 <= z < 2 ^ 63 -> int64 z = z.
Proof. intros Hz. unfold int64. rewrite Z.mod_small by lia. lia. Qed.

Lemma int64_high (z : Z) : 2 ^ 63 <= z < 2 ^ 64 -> int64 z = z - 2 ^ 64.
Proof.
  intros Hz. unfold int64.
  rewrite <- (Z.mod_unique (z + 2 ^ 63) (2 ^ 64) 1 (z - 2 ^ 63)) by lia. lia.
Qed.

(** X14. Adding an offset to an address and subtracting it again gives the
    address back, and so does subtracting first, although each step wraps
    around at [2^64]; the result of either operation is a 64-bit value. *)
Theorem HexAddress_add_sub_round_trip (a : BinjaLua.HexAddress) (offset : Z) :
  0 <= BinjaLua.value a < 2 ^ 64 ->
  HexAddress_sub (HexAddress_add a offset) offset = a /\
  HexAddress_add (HexAddress_sub a offset) offset = a /\
  0 <= BinjaLua.value (HexAddress_add a offset) < 2 ^ 64 /\
  0 <= BinjaLua.value (HexAddress_sub a offset) < 2 ^ 64.
Proof.
  intros Ha. destruct a as [v]. cbn [BinjaLua.value] in Ha.
  unfold HexAddress_sub, HexAddress_add, BinjaLua.uint64. cbn [BinjaLua.value].
  split; [|split; [|split]].
  - f_equal. rewrite Zminus_mod_idemp_l.
    replace (v + offset - offset) with v by lia. apply Z.mod_small, Ha.
  - f_equal. rewrite Zplus_mod_idemp_l.
    replace (v - offset + offset) with v by lia. apply Z.mod_small, Ha.
  - apply Z.mod_pos_bound. lia.
  - apply Z.mod_pos_bound. lia.
Qed.

Lemma HexAddress_add_sub_round_trip_witness :
  0 <= BinjaLua.value (BinjaLua.mkHexAddress 0x10) < 2 ^ 64 /\
  BinjaLua.value (HexAddress_sub (BinjaLua.mkHexAddress 0x10) 0x20) = 2 ^ 64 - 0x10 /\
  HexAddress_add (HexAddress_sub (BinjaLua.mkHexAddress 0x10) 0x20) 0x20 =
    BinjaLua.mkHexAddress 0x10.
Proof.
  assert (Ha : 0 <= BinjaLua.value (BinjaLua.mkHexAddress 0x10) < 2 ^ 64)
    by (cbn; lia).
  split; [exact Ha|]. split; [reflexivity|].
  exact (proj1 (proj2 (HexAddress_add_sub_round_trip (BinjaLua.mkHexAddress 0x10) 0x20 Ha))).
Defined.

(** X15. The difference of two addresses is taken on their signed
    readings.  Whenever it is defined, adding it to the second address
    gives the first.  For two addresses on the same side of [2^63] it is
    always defined, it is the difference of the values, and it is negative
    exactly when the first address compares less than the second.  For
    addresses on different sides the two disagree: the smaller address has
    the positive difference. *)
Theorem HexAddress_diff_and_order (a b : BinjaLua.HexAddress) :
  0 <= BinjaLua.value a < 2 ^ 64 -> 0 <= BinjaLua.value b < 2 ^ 64 ->
  (forall d, HexAddress_diff a b = Some d -> HexAddress_add b d = a) /\
  ((BinjaLua.value a < 2 ^ 63 <-> BinjaLua.value b < 2 ^ 63) ->
   HexAddress_diff a b = Some (BinjaLua.value a - BinjaLua.value b) /\
   (HexAddress_lt a b = true <-> BinjaLua.value a - BinjaLua.value b < 0)) /\
  (BinjaLua.value a < 2 ^ 63 <= BinjaLua.value b ->
   HexAddress_lt a b = true /\
   forall d, HexAddress_diff a b = Some d -> 0 < d).
Proof.
  intros Ha Hb. destruct a as [x], b as [y]. cbn [BinjaLua.value] in *.
  unfold HexAddress_diff, HexAddress_add, HexAddress_lt, BinjaLua.uint64.
  cbn [BinjaLua.value].
  assert (Hx : int64 x = x /\ x < 2 ^ 63 \/ int64 x = x - 2 ^ 64 /\ 2 ^ 63 <= x).
  { destruct (Z_lt_le_dec x (2 ^ 63)); [left|right]; split; try lia;
      [apply int64_low|apply int64_high]; lia. }
  assert (Hy : int64 y = y /\ y < 2 ^ 63 \/ int64 y = y - 2 ^ 64 /\ 2 ^ 63 <= y).
  { destruct (Z_lt_le_dec y (2 ^ 63)); [left|right]; split; try lia;
      [apply int64_low|apply int64_high]; lia. }
  split; [|split].
  - intros d Hd.
    destruct ((- 2 ^ 63 <=? int64 x - int64 y) && (int64 x - int64 y <? 2 ^ 63));
      [|discriminate].
    injection Hd as <-. f_equal.
    destruct Hx as [[-> ?]|[-> ?]], Hy as [[-> ?]|[-> ?]].
    + replace (y + (x - y)) with x by lia. apply Z.mod_small; lia.
    + replace (y + (x - (y - 2 ^ 64))) with (x + 1 * 2 ^ 64) by lia.
      rewrite Z.mod_add by lia. apply Z.mod_small; lia.
    + replace (y + (x - 2 ^ 64 - y)) with (x + (-1) * 2 ^ 64) by lia.
      rewrite Z.mod_add by lia. apply Z.mod_small; lia.
    + replace (y + (x - 2 ^ 64 - (y - 2 ^ 64))) with x by lia. apply Z.mod_small; lia.
  - intros Hsame.
    assert (Hd : int64 x - int64 y = x - y) by lia.
    rewrite Hd. split.
    + rewrite (proj2 (Z.leb_le _ _)) by lia. rewrite (proj2 (Z.ltb_lt _ _)) by lia.
      reflexivity.
    + rewrite Z.ltb_lt. lia.
  - intros Hsides. split; [apply Z.ltb_lt; lia|].
    intros d Hd.
    destruct ((- 2 ^ 63 <=? int64 x - int64 y) && (int64 x - int64 y <? 2 ^ 63));
      [|discriminate].
    injection Hd as <-. lia.
Qed.

Lemma HexAddress_diff_and_order_witness :
  0 <= 0x1000 < 2 ^ 64 /\ 0 <= 2 ^ 64 - 1 < 2 ^ 64 /\
  0x1000 < 2 ^ 63 <= 2 ^ 64 - 1 /\
  HexAddress_lt (BinjaLua.mkHexAddress 0x1000) (BinjaLua.mkHexAddress (2 ^ 64 - 1)) = true /\
  HexAddress_diff (BinjaLua.mkHexAddress 0x1000) (BinjaLua.mkHexAddress (2 ^ 64 - 1)) =
    Some 0x1001.
Proof.
  assert (Ha : 0 <= 0x1000 < 2 ^ 64) by lia.
  assert (Hb : 0 <= 2 ^ 64 - 1 < 2 ^ 64) by lia.
  assert (Hs : 0x1000 < 2 ^ 63 <= 2 ^ 64 - 1) by lia.
  split; [exact Ha|]. split; [exact Hb|]. split; [exact Hs|].
  split; [|reflexivity].
  exact (proj1 (proj2 (proj2
           (HexAddress_diff_and_order (BinjaLua.mkHexAddress 0x1000)
              (BinjaLua.mkHexAddress (2 ^ 64 - 1)) Ha Hb)) Hs)).
Defined.

(** ** Sections *)

(** X16. Every section is reported readable, and none both writable and
    executable.  A section is executable exactly when its type is [code],
    and a writable one has the type [data]; but the type [data] does not
    tell whether the section is writable. *)
Theorem Section_permissions_by_semantics (semantics : BNSectionSemantics) :
  let p := Section_permissions semantics in
  perm_read p = true /\
  perm_write p && perm_execute p = false /\
  (perm_execute p = true <-> Section_type semantics = "code") /\
  (perm_write p = true -> Section_type semantics = "data") /\
  Section_type ReadOnlyDataSectionSemantics = Section_type ReadWriteDataSectionSemantics /\
  perm_write (Section_permissions ReadOnlyDataSectionSemantics) = false /\
  perm_write (Section_permissions ReadWriteDataSectionSemantics) = true.
Proof.
  destruct semantics; cbn; repeat split; intros Hx; try reflexivity; discriminate Hx.
Qed.

(** ** Branch types *)

(** X17. For the flow graph, the name of a branch type converts back to
    the type for the eight types that have a name; every other type is
    named [unknown] and comes back as an unconditional branch, as does
    every string that is not one of the eight names.  A string converts to
    a type whose name is that string exactly when it is one of the eight. *)
Theorem FlowGraph_branch_type_round_trip :
  (forall t,
     FlowGraph.StringToBranchType (FlowGraph.BranchTypeToString t) =
     match t with
     | UnresolvedBranch | UserDefinedBranch | OtherBranchType _ => UnconditionalBranch
     | _ => t
     end) /\
  (forall type,
     FlowGraph.BranchTypeToString (FlowGraph.StringToBranchType type) = type <->
     type ∈ ["unconditional"; "false"; "true"; "call"; "return"; "syscall";
             "indirect"; "exception"]) /\
  (forall type,
     type ∉ ["unconditional"; "false"; "true"; "call"; "return"; "syscall";
             "indirect"; "exception"] ->
     FlowGraph.StringToBranchType type = UnconditionalBranch).
Proof.
  split; [|split].
  - intros []; reflexivity.
  - intros type. unfold FlowGraph.StringToBranchType.
    repeat (match goal with
            | |- context [String.eqb type ?x] =>
                destruct (String.eqb_spec type x) as [->|?]
            end;
            [cbn [FlowGraph.BranchTypeToString]; split; [intros _|intros _; reflexivity];
             repeat first [apply list_elem_of_here | apply list_elem_of_further]|]).
    cbn [FlowGraph.BranchTypeToString]. split; [intros Heq; exfalso; congruence|].
    intros Hin. repeat (apply elem_of_cons in Hin as [->|Hin]; [congruence|]).
    apply elem_of_nil in Hin. destruct Hin.
  - intros type Hnot. unfold FlowGraph.StringToBranchType.
    repeat (match goal with
            | |- context [String.eqb type ?x] =>
                destruct (String.eqb_spec type x) as [->|?]
            end;
            [exfalso; apply Hnot;
             repeat first [apply list_elem_of_here | apply list_elem_of_further]|]).
    reflexivity.
Qed.

(** X18. The edges of a basic block and the edges of a flow graph name a
    branch type alike, except for the unresolved and the user-defined
    branch, which only the basic block names; the flow graph calls both
    [unknown]. *)
Theorem branch_type_names_differ_on_two (t : BNBranchType) :
  (BasicBlock.BranchTypeToString t = FlowGraph.BranchTypeToString t <->
   t <> UnresolvedBranch /\ t <> UserDefinedBranch) /\
  (FlowGraph.BranchTypeToString t = "unknown" <->
   BasicBlock.BranchTypeToString t ∈ ["unresolved"; "user_defined"; "unknown"]).
Proof.
  split.
  - destruct t; cbn; split; try (intros _; split; discriminate);
      try reflexivity; try discriminate; intros [H1 H2]; congruence.
  - destruct t; cbn; split; intros Hx; try reflexivity; try discriminate Hx;
      try (repeat first [apply list_elem_of_here | apply list_elem_of_further]);
      repeat (apply elem_of_cons in Hx as [Hx|Hx]; [discriminate Hx|]);
      apply elem_of_nil in Hx; destruct Hx.
Qed.

(** ** Instructions *)

(** Once the mnemonic is found, the operands collected so far are only
    ever extended. *)
Lemma GetOperands_loop_found (tokens : list Instruction.BNInstructionTextToken)
    (operands : list string) (currentOperand : string) :
  Instruction.GetOperands_loop tokens operands true currentOperand =
  operands ++ Instruction.GetOperands_loop tokens [] true currentOperand.
Proof.
  revert operands currentOperand.
  induction tokens as [|token rest IH]; intros operands currentOperand.
  - cbn. destruct (negb (empty currentOperand)); [reflexivity|].
    rewrite app_nil_r. reflexivity.
  - cbn [Instruction.GetOperands_loop negb andb].
    destruct (Instruction.is_OperandSeparatorToken _).
    + destruct (negb (empty currentOperand)).
      * rewrite (IH (operands ++ [currentOperand])), (IH [currentOperand]).
        rewrite <- app_assoc. reflexivity.
      * apply IH.
    + apply IH.
Qed.

(** Before the mnemonic is found nothing is collected. *)
Lemma GetOperands_after_mnemonic (tokens : list Instruction.BNInstructionTextToken) :
  Instruction.GetOperands tokens =
  Instruction.GetOperands_loop (Instruction.after_mnemonic tokens) [] true "".
Proof.
  unfold Instruction.GetOperands.
  induction tokens as [|token rest IH]; [reflexivity|].
  cbn [Instruction.GetOperands_loop Instruction.after_mnemonic negb andb].
  destruct (Instruction.is_InstructionToken _); [reflexivity|exact IH].
Qed.

Lemma GetText_from (tokens : list Instruction.BNInstructionTextToken) (acc : string) :
  fold_left (fun text token => text +:+ Instruction.text token) tokens acc =
  acc +:+ Instruction.GetText tokens.
Proof.
  unfold Instruction.GetText. revert acc.
  induction tokens as [|token rest IH]; intros acc.
  - cbn. rewrite append_nil_r. reflexivity.
  - cbn [fold_left]. rewrite IH, (IH ("" +:+ _)). cbn. rewrite append_assoc. reflexivity.
Qed.

(** X19. No operand [GetOperands] returns is empty; there is at most one
    operand more than there are separator tokens after the mnemonic; tokens
    before the mnemonic play no part; and an instruction without a mnemonic
    token has the mnemonic [<unknown>] and no operands, whatever its other
    tokens are. *)
Theorem GetOperands_no_empty_operand (tokens : list Instruction.BNInstructionTextToken) :
  Forall (fun operand => operand <> "") (Instruction.GetOperands tokens) /\
  (length (Instruction.GetOperands tokens) <=
   S (length (filter (fun t => Instruction.is_OperandSeparatorToken (Instruction.type t) = true)
                (Instruction.after_mnemonic tokens))))%nat /\
  (forall before token,
     Forall (fun t => Instruction.is_InstructionToken (Instruction.type t) = false) before ->
     Instruction.is_InstructionToken (Instruction.type token) = true ->
     Instruction.GetOperands (before ++ token :: tokens) =
       Instruction.GetOperands (token :: tokens) /\
     Instruction.GetMnemonic (before ++ token :: tokens) = Instruction.text token) /\
  (Forall (fun t => Instruction.is_InstructionToken (Instruction.type t) = false) tokens ->
   Instruction.GetMnemonic tokens = "<unknown>" /\ Instruction.GetOperands tokens = []).
Proof.
  split; [|split; [|split]].
  - rewrite GetOperands_after_mnemonic.
    generalize (Instruction.after_mnemonic tokens) as ts. intros ts.
    enough (Hgen : forall cur,
              Forall (fun operand => operand <> "")
                (Instruction.GetOperands_loop ts [] true cur)) by apply Hgen.
    induction ts as [|t ts IH]; intros cur.
    + cbn. destruct (empty cur) eqn:He; cbn; [constructor|].
      constructor; [|constructor]. intros ->. discriminate He.
    + cbn [Instruction.GetOperands_loop negb andb].
      destruct (Instruction.is_OperandSeparatorToken _); [|apply IH].
      destruct (empty cur) eqn:He; cbn [negb]; [apply IH|].
      rewrite GetOperands_loop_found. cbn [app].
      constructor; [|apply IH]. intros ->. discriminate He.
  - rewrite GetOperands_after_mnemonic.
    generalize (Instruction.after_mnemonic tokens) as ts. intros ts.
    enough (Hgen : forall cur,
              (length (Instruction.GetOperands_loop ts [] true cur) <=
               S (length (filter (fun t => Instruction.is_OperandSeparatorToken
                                              (Instruction.type t) = true) ts)))%nat)
      by apply Hgen.
    induction ts as [|t ts IH]; intros cur.
    + cbn. destruct (negb (empty cur)); cbn; lia.
    + cbn [Instruction.GetOperands_loop negb andb].
      destruct (Instruction.is_OperandSeparatorToken (Instruction.type t)) eqn:Hsep.
      * rewrite filter_cons_True by exact Hsep. cbn [length].
        destruct (negb (empty cur)).
        -- rewrite GetOperands_loop_found. cbn [app length].
           specialize (IH ""). lia.
        -- specialize (IH cur). lia.
      * rewrite filter_cons_False by (rewrite Hsep; discriminate). apply IH.
  - intros before token Hbefore Htoken.
    induction Hbefore as [|t before Ht Hbefore IH].
    + split; [reflexivity|]. cbn. rewrite Htoken. reflexivity.
    + destruct IH as [IHo IHm]. split.
      * rewrite GetOperands_after_mnemonic in *.
        cbn [app Instruction.after_mnemonic]. rewrite Ht. exact IHo.
      * cbn [app Instruction.GetMnemonic]. rewrite Ht. exact IHm.
  - intros Hnone. induction Hnone as [|t ts Ht Hnone [IHm IHo]]; [split; reflexivity|].
    split.
    + cbn [Instruction.GetMnemonic]. rewrite Ht. exact IHm.
    + rewrite GetOperands_after_mnemonic in *.
      cbn [Instruction.after_mnemonic]. rewrite Ht. exact IHo.
Qed.

Lemma GetOperands_no_empty_operand_witness :
  let mov := Instruction.mkToken Instruction.InstructionToken "mov" 0 in
  let pad := Instruction.mkToken (Instruction.OtherTokenType 0) " " 0 in
  let sep := Instruction.mkToken Instruction.OperandSeparatorToken ", " 0 in
  let eax := Instruction.mkToken (Instruction.OtherTokenType 2) "eax" 0 in
  let one := Instruction.mkToken Instruction.IntegerToken "1" 1 in
  Instruction.GetOperands [pad; mov; sep; eax; sep; sep; one] = ["eax"; "1"] /\
  Instruction.GetOperands [pad; mov; sep; eax; sep; sep; one] =
    Instruction.GetOperands [mov; sep; eax; sep; sep; one] /\
  Instruction.GetMnemonic [pad; mov; sep; eax; sep; sep; one] = "mov".
Proof.
  cbn zeta. split; [reflexivity|].
  apply (proj1 (proj2 (proj2
           (GetOperands_no_empty_operand
              [Instruction.mkToken Instruction.OperandSeparatorToken ", " 0;
               Instruction.mkToken (Instruction.OtherTokenType 2) "eax" 0;
               Instruction.mkToken Instruction.OperandSeparatorToken ", " 0;
               Instruction.mkToken Instruction.OperandSeparatorToken ", " 0;
               Instruction.mkToken Instruction.IntegerToken "1" 1])))
         [Instruction.mkToken (Instruction.OtherTokenType 0) " " 0]
         (Instruction.mkToken Instruction.InstructionToken "mov" 0)).
  - repeat constructor.
  - reflexivity.
Defined.

(** X20. The operands lose nothing but the separators: put end to end they
    are the text of the tokens after the mnemonic that are not operand
    separators, in order.  A later mnemonic token is operand text like any
    other token. *)
Theorem GetOperands_keeps_operand_text (tokens : list Instruction.BNInstructionTextToken) :
  String.concat "" (Instruction.GetOperands tokens) =
  Instruction.GetText
    (filter (fun t => Instruction.is_OperandSeparatorToken (Instruction.type t) = false)
       (Instruction.after_mnemonic tokens)).
Proof.
  rewrite GetOperands_after_mnemonic.
  generalize (Instruction.after_mnemonic tokens) as ts. intros ts.
  assert (Hgen : forall cur,
    String.concat "" (Instruction.GetOperands_loop ts [] true cur) =
    cur +:+ Instruction.GetText
      (filter (fun t => Instruction.is_OperandSeparatorToken (Instruction.type t) = false) ts)).
  { induction ts as [|t ts IH]; intros cur.
    - cbn. destruct (empty cur) eqn:He; cbn.
      + apply empty_true in He. subst cur. reflexivity.
      + rewrite append_nil_r. reflexivity.
    - cbn [Instruction.GetOperands_loop negb andb].
      destruct (Instruction.is_OperandSeparatorToken (Instruction.type t)) eqn:Hsep.
      + rewrite filter_cons_False by (rewrite Hsep; discriminate).
        destruct (empty cur) eqn:He; cbn [negb]; [apply IH|].
        rewrite GetOperands_loop_found, concat_app, IH. reflexivity.
      + rewrite filter_cons_True by exact Hsep.
        rewrite IH. unfold Instruction.GetText at 2. cbn [fold_left].
        rewrite GetText_from. cbn. rewrite append_assoc. reflexivity. }
  rewrite Hgen. reflexivity.
Qed.

(** X21. [GetBytes] returns as many bytes as [GetLength] says, none for an
    instruction without a view or an architecture or of length zero; it is
    undefined only where the view returned fewer bytes than the length of
    the instruction, since that many are copied out of its buffer. *)
Theorem GetBytes_has_instruction_length
    (GetInstructionLength : BNHandle -> BNHandle -> Z -> Z)
    (ReadBuffer : BNHandle -> Z -> Z -> string) (i : Instruction.InstructionWrapper) :
  let length := Instruction.GetLength GetInstructionLength i in
  match Instruction.GetBytes GetInstructionLength ReadBuffer i with
  | Some bytes =>
      String.length bytes = Z.to_nat length /\
      (Instruction.view i = None \/ Instruction.arch i = None -> bytes = "")
  | None =>
      exists v, Instruction.view i = Some v /\
                Z.of_nat (String.length (ReadBuffer v (Instruction.address i) length)) < length
  end.
Proof.
  cbn zeta. unfold Instruction.GetBytes, Instruction.GetLength.
  destruct (Instruction.view i) as [v|]; [|split; [reflexivity|intros _; reflexivity]].
  destruct (Instruction.arch i) as [a|].
  - destruct (Z.eqb_spec (GetInstructionLength v a (Instruction.address i)) 0) as [->|Hne].
    + split; [reflexivity|]. intros [Hx|Hx]; discriminate Hx.
    + destruct (Z.ltb_spec
                  (Z.of_nat (String.length
                               (ReadBuffer v (Instruction.address i)
                                  (GetInstructionLength v a (Instruction.address i)))))
                  (GetInstructionLength v a (Instruction.address i))) as [Hlt|Hge].
      * exists v. split; [reflexivity|exact Hlt].
      * split; [apply length_substring; lia|]. intros [Hx|Hx]; discriminate Hx.
  - cbn. split; [reflexivity|intros _; reflexivity].
Qed.

(** ** Variables *)

Lemma GetSourceTypeString_not_empty (v : Variables.VariableWrapper) (rest : string) :
  empty (Variables.GetSourceTypeString v +:+ rest) = false.
Proof. unfold Variables.GetSourceTypeString. destruct (Variables.type _); reflexivity. Qed.

(** X22. The name of a variable is never empty: the function's name for
    it, or a name made of its kind and index where the function has none,
    or [var_] and the index without a function.  It is resolved once: a
    later call returns the same name without asking the function, even if
    the function would now answer differently.  This holds for every
    wrapper whose resolved name is not empty, as is the case from the
    constructor on. *)
Theorem GetName_resolved_once_never_empty (Q : Variables.FunctionQueries)
    (v : Variables.VariableWrapper) :
  (Variables.nameResolved v = true -> Variables.cachedName v <> "") ->
  let r := Variables.GetName Q v in
  r.2 <> "" /\
  Variables.nameResolved r.1 = true /\
  Variables.cachedName r.1 = r.2 /\
  (forall Q', Variables.GetName Q' r.1 = r) /\
  (Variables.nameResolved v = false -> Variables.function v = None ->
   r.2 = "var_" +:+ pretty (Variables.index (Variables.bnVar v))).
Proof.
  intros Hinv. cbn zeta. unfold Variables.GetName, Variables.ResolveName.
  destruct (Variables.nameResolved v) eqn:Hres; cbn [fst snd].
  - split; [apply Hinv; reflexivity|]. split; [exact Hres|]. split; [reflexivity|].
    split; [|discriminate]. intros Q'. rewrite Hres. reflexivity.
  - cbn [Variables.set_cachedName Variables.cachedName Variables.nameResolved].
    split; [|split; [reflexivity|split; [reflexivity|split]]].
    + destruct (Variables.function v) as [f|]; [|discriminate].
      destruct (empty (Variables.GetVariableNameOrDefault Q f (Variables.bnVar v))) eqn:He.
      * intros Hx. pose proof (GetSourceTypeString_not_empty v
          ("_" +:+ pretty (Variables.index (Variables.bnVar v)))) as Hn.
        rewrite Hx in Hn. discriminate Hn.
      * intros Hx. rewrite Hx in He. discriminate He.
    + intros Q'. reflexivity.
    + intros _ Hf. rewrite Hf. reflexivity.
Qed.

Lemma GetName_resolved_once_never_empty_witness :
  let Q := Variables.mkQueries (fun _ _ => "") (fun _ _ => None)
             (fun _ => "") (fun _ => "") (fun _ _ => false) in
  let Q' := Variables.mkQueries (fun _ _ => "counter") (fun _ _ => None)
              (fun _ => "") (fun _ => "") (fun _ _ => false) in
  let var := Variables.mkVariable Variables.RegisterVariableSourceType 3 0 in
  let v := Variables.VariableWrapper_new var (Some 1%positive) in
  (Variables.nameResolved v = true -> Variables.cachedName v <> "") /\
  (Variables.GetName Q v).2 = "register_3" /\
  Variables.GetName Q' (Variables.GetName Q v).1 = Variables.GetName Q v.
Proof.
  cbn zeta.
  assert (Hinv : Variables.nameResolved
                   (Variables.VariableWrapper_new
                      (Variables.mkVariable Variables.RegisterVariableSourceType 3 0)
                      (Some 1%positive)) = true ->
                 Variables.cachedName
                   (Variables.VariableWrapper_new
                      (Variables.mkVariable Variables.RegisterVariableSourceType 3 0)
                      (Some 1%positive)) <> "")
    by (intros Hx; discriminate Hx).
  split; [exact Hinv|]. split; [vm_compute; reflexivity|].
  apply (GetName_resolved_once_never_empty
           (Variables.mkQueries (fun _ _ => "") (fun _ _ => None)
              (fun _ => "") (fun _ => "") (fun _ _ => false)) _ Hinv).
Defined.

(** X23. [set_name] and [set_type] do nothing on a variable without a
    function: they return false, make no call and leave the wrapper as it
    is.  With one they return true, whatever the type string, delete the
    user variable first exactly when there is one, and create the variable
    anew: [set_name] under the given name with the type the function
    reports, [set_type] with the type parsed from the string, an unknown
    string standing for a signed 32-bit integer, under the name [GetName]
    gives.  Both then drop the resolved name, so the next [GetName] asks the
    function again and gives what a fresh wrapper would give. *)
Theorem mutators_recreate_and_reset (Q : Variables.FunctionQueries)
    (v : Variables.VariableWrapper) (text : string) :
  match Variables.function v with
  | None =>
      Variables.set_name Q v text = (false, v, []) /\
      Variables.set_type Q v text = (false, v, [])
  | Some f =>
      let deleted :=
        if Variables.IsVariableUserDefinded Q f (Variables.bnVar v)
        then [Variables.DeleteUserVariable (Variables.bnVar v)] else [] in
      (Variables.set_name Q v text).1.1 = true /\
      (Variables.set_name Q v text).2 =
        deleted ++
        [Variables.CreateUserVariable (Variables.bnVar v)
           (Variables.FromFunction (Variables.GetVariableType Q f (Variables.bnVar v))) text;
         Variables.UpdateAnalysisAndWait] /\
      (Variables.set_type Q v text).1.1 = true /\
      (Variables.set_type Q v text).2 =
        deleted ++
        [Variables.CreateUserVariable (Variables.bnVar v) (Variables.parse_type text)
           (Variables.GetName Q v).2;
         Variables.UpdateAnalysisAndWait] /\
      (text ∉ ["int32_t"; "int"; "uint32_t"; "unsigned int"; "int64_t"; "long long";
               "uint64_t"; "unsigned long long"; "int16_t"; "short"; "uint16_t";
               "unsigned short"; "int8_t"; "char"; "uint8_t"; "unsigned char"; "char*";
               "const char*"; "void*"; "void"] ->
       Variables.parse_type text = Variables.IntegerType 4 true) /\
      forall Q',
        (Variables.GetName Q' (Variables.set_name Q v text).1.2).2 =
          (Variables.GetName Q' (Variables.VariableWrapper_new (Variables.bnVar v) (Some f))).2 /\
        (Variables.GetName Q' (Variables.set_type Q v text).1.2).2 =
          (Variables.GetName Q' (Variables.VariableWrapper_new (Variables.bnVar v) (Some f))).2
  end.
Proof.
  unfold Variables.set_name, Variables.set_type.
  destruct (Variables.function v) as [f|] eqn:Hf; [|split; reflexivity].
  cbn zeta. cbn [fst snd].
  split; [reflexivity|]. split; [reflexivity|]. split; [reflexivity|].
  split; [reflexivity|]. split.
  - intros Hnot. unfold Variables.parse_type.
    repeat (match goal with
            | |- context [String.eqb text ?x] =>
                destruct (String.eqb_spec text x) as [->|?]
            end;
            [exfalso; apply Hnot;
             repeat first [apply list_elem_of_here | apply list_elem_of_further]|]).
    reflexivity.
  - intros Q'. unfold Variables.GetName, Variables.ResolveName, Variables.reset_resolved.
    cbn [fst snd Variables.nameResolved Variables.function Variables.bnVar
         Variables.set_cachedName Variables.cachedName Variables.VariableWrapper_new].
    rewrite Hf.
    split; [reflexivity|].
    destruct (Variables.nameResolved v);
      cbn [Variables.function Variables.bnVar Variables.set_cachedName]; rewrite ?Hf;
      reflexivity.
Qed.

(** X24. The type name, too, is resolved once and is never empty, but it
    can be out of date: once [set_name] or [set_type] has dropped the
    resolved flags, a variable for which the function reports no type any
    more keeps the type name it had, where a fresh wrapper gives
    [<unknown>]. *)
Theorem GetTypeName_keeps_old_name_without_type (Q Q' : Variables.FunctionQueries)
    (v : Variables.VariableWrapper) (f : BNHandle) (text : string) :
  Variables.function v = Some f ->
  Variables.typeResolved v = false ->
  Variables.GetVariableType Q' f (Variables.bnVar v) = None ->
  let named := Variables.GetTypeName Q v in
  let renamed := (Variables.set_name Q named.1 text).1.2 in
  named.2 <> "" /\
  (forall Q'', Variables.GetTypeName Q'' named.1 = named) /\
  (Variables.GetTypeName Q' renamed).2 = named.2 /\
  (Variables.GetTypeName Q'
     (Variables.VariableWrapper_new (Variables.bnVar v) (Some f))).2 = "<unknown>".
Proof.
  intros Hf Hres Hnone.
  destruct v as [var fn cn ctn nr tr].
  cbn [Variables.function Variables.typeResolved Variables.bnVar] in Hf, Hres, Hnone.
  subst fn tr. cbn zeta.
  unfold Variables.GetTypeName, Variables.ResolveType, Variables.set_name,
    Variables.reset_resolved, Variables.set_cachedTypeName, Variables.VariableWrapper_new.
  cbn [fst snd Variables.function Variables.typeResolved Variables.bnVar
       Variables.cachedTypeName Variables.cachedName Variables.nameResolved].
  rewrite Hnone.
  set (name := match Variables.GetVariableType Q f var with
               | Some t =>
                   if empty (Variables.GetStringBeforeName Q t)
                   then Variables.GetString Q t
                   else Variables.GetStringBeforeName Q t
               | None => ctn
               end).
  assert (Hne : empty (if empty name then "<unknown>" else name) = false).
  { destruct (empty name) eqn:He; [reflexivity|exact He]. }
  split; [intros Hx; rewrite Hx in Hne; discriminate Hne|].
  split; [reflexivity|]. split; [|reflexivity].
  rewrite Hne. reflexivity.
Qed.

Lemma GetTypeName_keeps_old_name_without_type_witness :
  let Q := Variables.mkQueries (fun _ _ => "counter") (fun _ _ => Some 5%positive)
             (fun _ => "int32_t") (fun _ => "int32_t") (fun _ _ => false) in
  let Q' := Variables.mkQueries (fun _ _ => "total") (fun _ _ => None)
              (fun _ => "") (fun _ => "") (fun _ _ => true) in
  let var := Variables.mkVariable Variables.StackVariableSourceType 0 (-8) in
  let v := Variables.VariableWrapper_new var (Some 1%positive) in
  Variables.function v = Some 1%positive /\
  Variables.typeResolved v = false /\
  Variables.GetVariableType Q' 1%positive (Variables.bnVar v) = None /\
  (Variables.GetTypeName Q'
     (Variables.set_name Q (Variables.GetTypeName Q v).1 "total").1.2).2 = "int32_t".
Proof.
  cbn zeta. split; [reflexivity|]. split; [reflexivity|]. split; [reflexivity|].
  pose proof (GetTypeName_keeps_old_name_without_type
                (Variables.mkQueries (fun _ _ => "counter") (fun _ _ => Some 5%positive)
                   (fun _ => "int32_t") (fun _ => "int32_t") (fun _ _ => false))
                (Variables.mkQueries (fun _ _ => "total") (fun _ _ => None)
                   (fun _ => "") (fun _ => "") (fun _ _ => true))
                (Variables.VariableWrapper_new
                   (Variables.mkVariable Variables.StackVariableSourceType 0 (-8))
                   (Some 1%positive))
                1%positive "total" eq_refl eq_refl eq_refl) as (_ & _ & Hold & _).
  exact Hold.
Defined.

(** ** The instructions of a basic block *)

Lemma instruction_count_loop_ends (GetInstructionLength : Z -> Z) (start end_ : Z) :
  end_ < 2 ^ 64 ->
  (forall a, start <= a < end_ ->
     0 <= GetInstructionLength a /\ a + GetInstructionLength a < 2 ^ 64) ->
  forall (fuel : nat) (addr count : Z),
    start <= addr -> 0 <= addr -> 0 <= count -> count + (end_ - addr) < 2 ^ 64 ->
    (Z.to_nat (end_ - addr) < fuel)%nat ->
    exists c,
      BasicBlock.instruction_count_loop fuel GetInstructionLength addr end_ count = Some c /\
      count <= c <= count + Z.max 0 (end_ - addr) /\
      (addr < end_ -> count < c).
Proof.
  intros Hend Hlen. induction fuel as [|fuel IH]; intros addr count Hs Ha Hc Hb Hf; [lia|].
  cbn [BasicBlock.instruction_count_loop].
  destruct (Z.ltb_spec addr end_) as [Hlt|Hge].
  - destruct (Hlen addr ltac:(lia)) as [Hl0 Hl1].
    set (len := if GetInstructionLength addr =? 0 then 1 else GetInstructionLength addr).
    assert (Hl : 1 <= len /\ addr + len < 2 ^ 64).
    { subst len. destruct (Z.eqb_spec (GetInstructionLength addr) 0); lia. }
    unfold BinjaLua.uint64. rewrite !Z.mod_small by lia.
    destruct (IH (addr + len) (count + 1)) as (c & Hrun & Hbound & _); try lia.
    exists c. split; [exact Hrun|]. lia.
  - exists count. split; [reflexivity|]. lia.
Qed.

(** X25. For a block that lies below [2^64] and whose instructions do not
    run past [2^64], the loop of [instruction_count] ends within as many
    rounds as the block has bytes.  The count is at most the number of
    bytes of the block, since an instruction of length zero is stepped over
    as one byte; it is zero only for an empty block, and a block without a
    function, a view or an architecture counts zero whatever its bounds. *)
Theorem instruction_count_terminates (GetInstructionLength : Z -> Z) (start end_ : Z) :
  0 <= start -> end_ < 2 ^ 64 ->
  (forall a, start <= a < end_ ->
     0 <= GetInstructionLength a /\ a + GetInstructionLength a < 2 ^ 64) ->
  (exists c,
     BasicBlock.instruction_count (S (Z.to_nat (end_ - start))) true
       GetInstructionLength start end_ = Some c /\
     0 <= c <= Z.max 0 (end_ - start) /\
     (c = 0 <-> end_ <= start)) /\
  forall fuel,
    BasicBlock.instruction_count fuel false GetInstructionLength start end_ = Some 0.
Proof.
  intros Hstart Hend Hlen. split; [|reflexivity].
  unfold BasicBlock.instruction_count. cbn [negb].
  destruct (instruction_count_loop_ends GetInstructionLength start end_ Hend Hlen
              (S (Z.to_nat (end_ - start))) start 0) as (c & Hrun & Hbound & Hpos); try lia.
  exists c. split; [exact Hrun|]. split; [lia|]. lia.
Qed.

Lemma instruction_count_terminates_witness :
  let len := fun a : Z => if a =? 0x1002 then 0 else 2 in
  0 <= 0x1000 /\ 0x1005 < 2 ^ 64 /\
  BasicBlock.instruction_count 6 true len 0x1000 0x1005 = Some 3 /\
  exists c, BasicBlock.instruction_count (S (Z.to_nat (0x1005 - 0x1000))) true len
              0x1000 0x1005 = Some c /\
            0 <= c <= Z.max 0 (0x1005 - 0x1000) /\ (c = 0 <-> 0x1005 <= 0x1000).
Proof.
  cbn zeta.
  assert (H0 : 0 <= 0x1000) by lia.
  assert (H1 : 0x1005 < 2 ^ 64) by lia.
  split; [exact H0|]. split; [exact H1|]. split; [reflexivity|].
  apply (instruction_count_terminates (fun a : Z => if a =? 0x1002 then 0 else 2)
           0x1000 0x1005 H0 H1).
  intros a Ha. destruct (a =? 0x1002); lia.
Defined.
